(** * DataView builtins (src/builtins/builtins-dataview.cc)

    A shallow embedding of the DataView constructor, the property getters and
    the generic accessors [GetViewValue] / [SetViewValue] with their ten
    instantiations, followed by the properties proved about them.

    Conventions of the embedding:
    - [size_t], [uint8_t] and the C++ integer types are integers ([Z]) with the
      wrap-around written out ([Z.modulo]);
    - a [double] or a [float] is its IEEE-754 bit pattern, the way the union
      [{T data; uint8_t bytes[sizeof(T)]}] of the accessors sees it;
    - the isolate is threaded explicitly: a builtin is a function from the
      isolate to a completion and the isolate it leaves behind;
    - the build configuration (pointer width, byte order of the target) is a
      record passed to the code that depends on it. *)

From Stdlib Require Import ZArith Lia Bool SpecFloat.
From stdpp Require Import base list strings.

Local Open Scope Z_scope.

(** ** Build configuration *)

Inductive PointerSize := Pointer32 | Pointer64.

Record Target := {
  pointer_size : PointerSize;
  (* V8_TARGET_LITTLE_ENDIAN is defined *)
  target_little_endian : bool
}.

Definition size_bits (cfg : Target) : Z :=
  match pointer_size cfg with Pointer32 => 32 | Pointer64 => 64 end.

(** [std::numeric_limits<size_t>::max()] *)
Definition kMaxSize (cfg : Target) : Z := 2 ^ size_bits cfg - 1.

(** Arithmetic on [size_t] wraps around. *)
Definition size_add (cfg : Target) (a b : Z) : Z := (a + b) mod 2 ^ size_bits cfg.

(** [kMaxSafeInteger], the largest index the index conversion returns. *)
Definition kMaxSafeInteger : Z := 2 ^ 53 - 1.

(** ** Fixed-width integers *)

(** [static_cast] to an unsigned type of [bits] bits. *)
Definition to_unsigned (bits z : Z) : Z := z mod 2 ^ bits.

(** [static_cast] to a signed type of [bits] bits (two's complement). *)
Definition to_signed (bits z : Z) : Z :=
  (z + 2 ^ (bits - 1)) mod 2 ^ bits - 2 ^ (bits - 1).

(** ** IEEE-754 values

    A binary format is given by [prec] (bits of the significand, the implicit
    one included) and [emax] (exponent of the infinities), as in the Standard
    Library's [SpecFloat]: binary32 is [(24, 128)], binary64 is [(53, 1024)].
    [ieee_decode] reads a bit pattern, [ieee_encode] writes one; a NaN is
    written as the quiet NaN with an empty payload. *)

Section IEEE.
Variables prec emax : Z.

Definition ieee_decode (bits : Z) : spec_float :=
  let mw := prec - 1 in
  let frac := bits mod 2 ^ mw in
  let biased := (bits / 2 ^ mw) mod (2 * emax) in
  let sign := Z.odd (bits / (2 ^ mw * (2 * emax))) in
  if biased =? 2 * emax - 1 then
    if frac =? 0 then S754_infinity sign else S754_nan
  else if biased =? 0 then
    match frac with
    | Zpos m => S754_finite sign m (emin prec emax)
    | _ => S754_zero sign
    end
  else
    match 2 ^ mw + frac with
    | Zpos m => S754_finite sign m (biased - 1 + emin prec emax)
    | _ => S754_nan
    end.

Definition ieee_encode (x : spec_float) : Z :=
  let mw := prec - 1 in
  let top := 2 ^ mw * (2 * emax) in
  let sign_bit (s : bool) := if s then top else 0 in
  match x with
  | S754_zero s => sign_bit s
  | S754_infinity s => sign_bit s + (2 * emax - 1) * 2 ^ mw
  | S754_nan => (2 * emax - 1) * 2 ^ mw + 2 ^ (mw - 1)
  | S754_finite s m e =>
      (sign_bit s + (e - emin prec emax) * 2 ^ mw + Zpos m) mod (2 * top)
  end.

(** Rounding of a value to the format, to nearest, ties to even. *)
Definition ieee_round (x : spec_float) : spec_float :=
  match x with
  | S754_finite s m e => binary_round prec emax s m e
  | _ => x
  end.
End IEEE.

(** The C++ type [double], as its bit pattern. *)
Definition double := Z.
(** The C++ type [float], as its bit pattern. *)
Definition float := Z.

Definition double_value (d : double) : spec_float := ieee_decode 53 1024 d.
Definition float_value (f : float) : spec_float := ieee_decode 24 128 f.

(** [static_cast<float>(double)]: a value is rounded to binary32.  A NaN has
    no value to round; the conversion keeps its sign and the upper 22 bits of
    its payload and sets the quiet bit, as the conversion instructions of the
    targets do. *)
Definition double_to_float (d : double) : float :=
  match double_value d with
  | S754_nan =>
      (if Z.odd (d / 2 ^ 63) then 2 ^ 31 else 0) + 0x7FC00000 + (d mod 2 ^ 51) / 2 ^ 29
  | x => ieee_encode 24 128 (ieee_round 24 128 x)
  end.

(** [static_cast<double>(float)], the promotion done by [NewNumber(float)]:
    exact on values; a NaN keeps its sign and its payload, moved to the upper
    bits of the wider fraction, and comes out quiet. *)
Definition float_to_double (f : float) : double :=
  match float_value f with
  | S754_nan =>
      (if Z.odd (f / 2 ^ 31) then 2 ^ 63 else 0) + 0x7FF8000000000000
      + (f mod 2 ^ 22) * 2 ^ 29
  | x => ieee_encode 53 1024 (ieee_round 53 1024 x)
  end.

(** [static_cast<double>] of an integer, as in [NewNumber(int32_t)]. *)
Definition int_to_double (n : Z) : double :=
  ieee_encode 53 1024 (binary_normalize 53 1024 n 0 false).

(** The value of a finite double with its fraction dropped (rounded towards
    zero); [None] for NaN and the infinities. *)
Definition double_truncate (d : double) : option Z :=
  match double_value d with
  | S754_zero _ => Some 0
  | S754_finite s m e =>
      let magnitude := if 0 <=? e then Zpos m * 2 ^ e else Zpos m / 2 ^ (- e) in
      Some (if s then - magnitude else magnitude)
  | _ => None
  end.

(** Modelled from the spec: [DoubleToInt32] and [DoubleToUint32] are declared
    in src/conversions.h, which is not part of the sources at hand.  Per the
    spec they are the "standard IEEE-to-integer modulo-2^32 truncation (matches
    language-level ToInt32/ToUint32 semantics: non-finite values map to 0,
    finite values are reduced modulo 2^32 with sign reinterpretation)". *)
Definition DoubleToInt32 (x : double) : Z :=
  match double_truncate x with
  | Some n => to_signed 32 n
  | None => 0
  end.

Definition DoubleToUint32 (x : double) : Z :=
  match double_truncate x with
  | Some n => to_unsigned 32 n
  | None => 0
  end.

(** ** Element types

    The ten instantiations of the accessor templates; the constructors carry
    the [Type] argument of the macros [DATA_VIEW_PROTOTYPE_GET] and
    [DATA_VIEW_PROTOTYPE_SET]. *)

Inductive ElementType :=
  | Int8 | Uint8 | Int16 | Uint16 | Int32 | Uint32
  | Float32 | Float64 | BigInt64 | BigUint64.

(** [sizeof(T)] of the C++ type the macro pairs with [Type]. *)
Definition sizeof (T : ElementType) : nat :=
  match T with
  | Int8 | Uint8 => 1
  | Int16 | Uint16 => 2
  | Int32 | Uint32 | Float32 => 4
  | Float64 | BigInt64 | BigUint64 => 8
  end%nat.

(** [#Type] *)
Definition TypeName (T : ElementType) : string :=
  match T with
  | Int8 => "Int8" | Uint8 => "Uint8" | Int16 => "Int16" | Uint16 => "Uint16"
  | Int32 => "Int32" | Uint32 => "Uint32" | Float32 => "Float32"
  | Float64 => "Float64" | BigInt64 => "BigInt64" | BigUint64 => "BigUint64"
  end.

Definition is_signed (T : ElementType) : bool :=
  match T with
  | Int8 | Int16 | Int32 | BigInt64 => true
  | _ => false
  end.

Definition value_bits (T : ElementType) : Z := 8 * Z.of_nat (sizeof T).

(** ** The union [{T data; uint8_t bytes[sizeof(T)]}]

    A value of type [T] is an integer: the number itself for the integer
    types, the bit pattern for [float] and [double].  Its object representation
    is the two's-complement pattern of [value_bits T] bits, laid out in the
    byte order of the target. *)

Fixpoint le_bytes (n : nat) (u : Z) : list Z :=
  match n with
  | O => []
  | S k => u mod 256 :: le_bytes k (u / 256)
  end.

Fixpoint le_value (bytes : list Z) : Z :=
  match bytes with
  | [] => 0
  | b :: rest => b + 256 * le_value rest
  end.

Definition host_order (cfg : Target) (bytes : list Z) : list Z :=
  if target_little_endian cfg then bytes else reverse bytes.

(** Writing [v.data], reading [v.bytes]. *)
Definition union_bytes (cfg : Target) (T : ElementType) (data : Z) : list Z :=
  host_order cfg (le_bytes (sizeof T) (to_unsigned (value_bits T) data)).

(** Writing [v.bytes], reading [v.data]. *)
Definition union_data (cfg : Target) (T : ElementType) (bytes : list Z) : Z :=
  let pattern := le_value (host_order cfg bytes) in
  if is_signed T then to_signed (value_bits T) pattern
  else to_unsigned (value_bits T) pattern.

(** ** Byte-order utility *)

Definition NeedToFlipBytes (cfg : Target) (is_little_endian : bool) : bool :=
  if target_little_endian cfg then negb is_little_endian else is_little_endian.

(** [CopyBytes<n>(target, source)]: both pointers are an array and a position
    in it; the array [target] points into is returned.  The loop runs [n]
    times. *)
Fixpoint CopyBytes (n : nat) (target : list Z) (tp : nat)
    (source : list Z) (sp : nat) : list Z :=
  match n with
  | O => target
  | S k => CopyBytes k (<[tp := source !!! sp]> target) (S tp) source (S sp)
  end.

(** The loop of [FlipBytes<n>]: [*(target++) = *(source--)]. *)
Fixpoint FlipBytes_loop (n : nat) (target : list Z) (tp : nat)
    (source : list Z) (sp : nat) : list Z :=
  match n with
  | O => target
  | S k => FlipBytes_loop k (<[tp := source !!! sp]> target) (S tp) source (pred sp)
  end.

(** [FlipBytes<n>(target, source)]: [source] is first moved to its last byte. *)
Definition FlipBytes (n : nat) (target : list Z) (tp : nat)
    (source : list Z) (sp : nat) : list Z :=
  FlipBytes_loop n target tp source (sp + (n - 1))%nat.

(** ** Array buffers, views and the isolate *)

Module JSArrayBuffer.
(** The buffer is an external collaborator: the builtins see its current
    byte length, its detachment flag and its storage.  The storage is the
    list of its bytes, so [byte_length()] is the length of that list. *)
Record t := {
  backing_store : list Z;
  was_neutered : bool
}.

Definition byte_length (b : t) : Z := Z.of_nat (length (backing_store b)).

(** Detaching releases the storage; the length reads 0 from then on. *)
Definition Neuter (b : t) : t := {| backing_store := []; was_neutered := true |}.
End JSArrayBuffer.

Module JSDataView.
(** [buffer] is the address of the viewed buffer in the isolate's heap;
    [byte_offset] and [byte_length] are the Numbers stored at construction. *)
Record t := {
  buffer : nat;
  byte_offset : Z;
  byte_length : Z
}.
End JSDataView.

Record Isolate := {
  array_buffers : list JSArrayBuffer.t
}.

(** ** Errors and completions *)

Inductive MessageTemplate :=
  | kConstructorNotFunction
  | kDataViewNotArrayBuffer
  | kInvalidOffset
  | kInvalidDataViewLength
  | kInvalidDataViewAccessorOffset
  | kDetachedOperation
  | kIncompatibleMethodReceiver
  | kSymbolToNumber
  | kBigIntToNumber
  | kBigIntFromObject.

Inductive Error :=
  | NewTypeError (template : MessageTemplate) (arg : option string)
  | NewRangeError (template : MessageTemplate) (arg : option Z)
  (* an exception thrown by script code run during a conversion *)
  | ScriptException (tag : Z).

(** [Fatal] is a failed [CHECK] or [DCHECK], or an access outside the storage
    of a buffer (undefined behaviour in C++). *)
Inductive Completion (A : Type) :=
  | Normal (a : A)
  | Throw (e : Error)
  | Fatal.
Arguments Normal {A} a.
Arguments Throw {A} e.
Arguments Fatal {A}.

(** A computation in an isolate: the completion and the isolate left behind. *)
Definition M (A : Type) : Type := Isolate -> Completion A * Isolate.

Definition ret {A} (a : A) : M A := fun iso => (Normal a, iso).
Definition throw {A} (e : Error) : M A := fun iso => (Throw e, iso).
Definition fatal {A} : M A := fun iso => (Fatal, iso).
Definition bind {A B} (c : M A) (k : A -> M B) : M B :=
  fun iso =>
    match c iso with
    | (Normal a, iso') => k a iso'
    | (Throw e, iso') => (Throw e, iso')
    | (Fatal, iso') => (Fatal, iso')
    end.
Definition lift {A} (c : Completion A) : M A := fun iso => (c, iso).

Notation "'let*' x ':=' c 'in' k" := (bind c (fun x => k))
  (at level 10, x pattern, c at level 100, k at level 200).

Definition DCHECK (condition : bool) : M unit :=
  if condition then ret tt else fatal.

(** ** Values *)

Inductive Primitive :=
  | Undefined
  | Null
  | Boolean (b : bool)
  | Number (value : double)
  | BigInt (value : Z)
  | Symbol.

(** A heap object with script-defined behaviour carries that behaviour: the
    conversion of a [JSReceiver] to a primitive, and the prototype lookup on a
    [JSFunction] used as new.target, run arbitrary code in the isolate. *)
Inductive Object :=
  | Prim (p : Primitive)
  | ArrayBufferObject (address : nat)
  | DataViewObject (view : JSDataView.t)
  | JSReceiver (to_primitive : M Primitive)
  | JSFunction (get_prototype : M unit).

Coercion Prim : Primitive >-> Object.

Definition IsUndefined (o : Object) : bool :=
  match o with Prim Undefined => true | _ => false end.

(** [Object::Number()] of a Number. *)
Definition Number_value (o : Object) : double :=
  match o with Prim (Number d) => d | _ => 0 end.

(** The quiet NaN. *)
Definition kNaN : double := ieee_encode 53 1024 S754_nan.

(** ** The conversion protocols (external collaborators)

    None of the functions of this section is defined in
    src/builtins/builtins-dataview.cc; the builtins call them through the
    headers they include. *)

(** Modelled from the spec: the "generic numeric conversion protocol"
    ([Object::ToNumber], src/objects.h), which "fails if not coercible to a
    number".  A receiver is first converted to a primitive by its own code,
    whose effects on the isolate and whose exceptions are kept. *)
Definition PrimitiveToNumber (p : Primitive) : Completion double :=
  match p with
  | Undefined => Normal kNaN
  | Null => Normal 0
  | Boolean b => Normal (if b then int_to_double 1 else 0)
  | Number d => Normal d
  | BigInt _ => Throw (NewTypeError kBigIntToNumber None)
  | Symbol => Throw (NewTypeError kSymbolToNumber None)
  end.

Definition ToNumber (input : Object) : M double :=
  match input with
  | Prim p => lift (PrimitiveToNumber p)
  | JSReceiver to_primitive =>
      let* p := to_primitive in lift (PrimitiveToNumber p)
  | ArrayBufferObject _ | DataViewObject _ | JSFunction _ => ret kNaN
  end.

(** [DoubleToInteger]: NaN becomes 0, a finite value loses its fraction, an
    infinity stays what it is ([None]). *)
Definition DoubleToInteger (d : double) : option Z :=
  match double_value d with
  | S754_nan => Some 0
  | S754_infinity _ => None
  | _ => double_truncate d
  end.

(** Modelled from the spec: the "index-conversion protocol" ([Object::ToIndex],
    src/objects.h), "converting an arbitrary input into a non-negative integer
    within a defined safe range, failing otherwise" with a RangeError.  The
    input is first converted to a Number, which may run script code and fail
    on its own, and the Number is brought to an integer by [DoubleToInteger];
    an absent argument counts as index 0. *)
Definition ToIndex (input : Object) (error_index : MessageTemplate) : M Z :=
  if IsUndefined input then ret 0
  else
    let* d := ToNumber input in
    match DoubleToInteger d with
    | Some len =>
        if (len <? 0) || (len >? kMaxSafeInteger)
        then throw (NewRangeError error_index (Some len))
        else ret len
    | None => throw (NewRangeError error_index None)
    end.

(** Modelled from the spec: the "big-integer conversion protocol"
    ([BigInt::FromObject], src/objects/bigint.h), which "fails if the value
    cannot be coerced to an integer". *)
Definition PrimitiveToBigInt (p : Primitive) : Completion Z :=
  match p with
  | Boolean b => Normal (if b then 1 else 0)
  | BigInt z => Normal z
  | _ => Throw (NewTypeError kBigIntFromObject None)
  end.

Definition BigInt_FromObject (obj : Object) : M Z :=
  match obj with
  | Prim p => lift (PrimitiveToBigInt p)
  | JSReceiver to_primitive =>
      let* p := to_primitive in lift (PrimitiveToBigInt p)
  | ArrayBufferObject _ | DataViewObject _ | JSFunction _ =>
      throw (NewTypeError kBigIntFromObject None)
  end.

(** Modelled from the spec: [BigInt::AsInt64] and [BigInt::AsUint64] "take the
    low 64 bits of the arbitrary-precision integer's two's-complement
    representation". *)
Definition AsInt64 (z : Z) : Z := to_signed 64 z.
Definition AsUint64 (z : Z) : Z := to_unsigned 64 z.

(** [BigInt::cast] of a handle to a BigInt. *)
Definition BigInt_cast (o : Object) : Z :=
  match o with Prim (BigInt z) => z | _ => 0 end.

(** Modelled from the spec: [Object::BooleanValue], the language's ToBoolean,
    applied to the optional littleEndian argument ("default false"). *)
Definition BooleanValue (o : Object) : bool :=
  match o with
  | Prim Undefined | Prim Null => false
  | Prim (Boolean b) => b
  | Prim (Number d) =>
      match double_value d with
      | S754_zero _ | S754_nan => false
      | _ => true
      end
  | Prim (BigInt z) => negb (z =? 0)
  | _ => true
  end.

(** Modelled from the spec: [TryNumberToSize] (src/conversions.h) converts a
    Number holding a non-negative integer to [size_t] and fails when the
    Number does not fit. *)
Definition TryNumberToSize (cfg : Target) (number : Z) : option Z :=
  if (0 <=? number) && (number <=? kMaxSize cfg) then Some number else None.

(** [NumberToSize] is [TryNumberToSize] under a [CHECK]. *)
Definition NumberToSize (cfg : Target) (number : Z) : M Z :=
  match TryNumberToSize cfg number with
  | Some n => ret n
  | None => fatal
  end.

(** Modelled from the spec: "object construction plumbing" ([JSObject::New],
    src/objects.h).  Allocating the result looks up the prototype of
    new.target, which runs script code when new.target defines it so. *)
Definition JSObject_New (target new_target : Object) : M unit :=
  match new_target with
  | JSFunction get_prototype => get_prototype
  | _ => ret tt
  end.

(** ** Access to the heap *)

(** Dereferencing [data_view->buffer()]. *)
Definition load_buffer (address : nat) : M JSArrayBuffer.t :=
  fun iso =>
    match array_buffers iso !! address with
    | Some b => (Normal b, iso)
    | None => (Fatal, iso)
    end.

(** Writing through [buffer->backing_store()]. *)
Definition store_backing_store (address : nat) (bytes : list Z) : M unit :=
  fun iso =>
    match array_buffers iso !! address with
    | Some b =>
        (Normal tt,
         {| array_buffers :=
              <[address := {| JSArrayBuffer.backing_store := bytes;
                              JSArrayBuffer.was_neutered :=
                                JSArrayBuffer.was_neutered b |}]>
                (array_buffers iso) |})
    | None => (Fatal, iso)
    end.

(** An access of [n] bytes at [offset] lies inside the storage; outside of it
    the behaviour of the C++ code is undefined. *)
Definition check_access (b : JSArrayBuffer.t) (offset : Z) (n : nat) : M unit :=
  DCHECK ((0 <=? offset) && (offset + Z.of_nat n <=? JSArrayBuffer.byte_length b)).

(** ** ES #sec-dataview-constructor *)

Record BuiltinArguments := {
  new_target : Object;
  target : Object;
  (* [args[0]] is the receiver *)
  args : list Object
}.

Definition atOrUndefined (a : BuiltinArguments) (index : nat) : Object :=
  default (Prim Undefined) (args a !! index).

(** The sum of two non-negative integer Numbers below 2^53, in double
    arithmetic: exact below 2^53, rounded to the nearest even significand
    from there on (the sum stays below 2^54). *)
Definition Number_add (a b : Z) : Z :=
  let s := a + b in
  if s <? 2 ^ 53 then s
  else if Z.even s then s
  else if (s + 1) mod 4 =? 0 then s + 1 else s - 1.

Definition DataViewConstructor (a : BuiltinArguments) : M Object :=
  if IsUndefined (new_target a) then (* [[Call]] *)
    throw (NewTypeError kConstructorNotFunction (Some "DataView"))
  else (* [[Construct]] *)
    let buffer := atOrUndefined a 1 in
    let byte_offset := atOrUndefined a 2 in
    let byte_length := atOrUndefined a 3 in
    match buffer with
    | ArrayBufferObject array_buffer =>
        (* 4. Let offset be ? ToIndex(byteOffset). *)
        let* offset := ToIndex byte_offset kInvalidOffset in
        (* 5. If IsDetachedBuffer(buffer) is true, throw a TypeError exception.
              The code does not do this. *)
        (* 6. *)
        let* b := load_buffer array_buffer in
        let buffer_byte_length := JSArrayBuffer.byte_length b in
        (* 7. If offset > bufferByteLength, throw a RangeError exception. *)
        if offset >? buffer_byte_length then
          throw (NewRangeError kInvalidOffset (Some offset))
        else
          let* view_byte_length :=
            if IsUndefined byte_length then
              (* 8. *)
              ret (buffer_byte_length - offset)
            else
              (* 9. *)
              let* view_byte_length := ToIndex byte_length kInvalidDataViewLength in
              if Number_add offset view_byte_length >? buffer_byte_length then
                throw (NewRangeError kInvalidDataViewLength None)
              else ret view_byte_length
          in
          (* 10.  The embedder fields the code clears next are not part of
                  the model. *)
          let* _ := JSObject_New (target a) (new_target a) in
          (* 11. - 14. *)
          ret (DataViewObject
                 {| JSDataView.buffer := array_buffer;
                    JSDataView.byte_length := view_byte_length;
                    JSDataView.byte_offset := offset |})
    | _ => throw (NewTypeError kDataViewNotArrayBuffer None)
    end.

(** [CHECK_RECEIVER(JSDataView, data_view, method)] *)
Definition CHECK_RECEIVER (a : BuiltinArguments) (method : string) : M JSDataView.t :=
  match atOrUndefined a 0 with
  | DataViewObject data_view => ret data_view
  | _ => throw (NewTypeError kIncompatibleMethodReceiver (Some method))
  end.

(** ES6 section 24.2.4.1 get DataView.prototype.buffer *)
Definition DataViewPrototypeGetBuffer (a : BuiltinArguments) : M Object :=
  let* data_view := CHECK_RECEIVER a "get DataView.prototype.buffer" in
  ret (ArrayBufferObject (JSDataView.buffer data_view)).

(** ES6 section 24.2.4.2 get DataView.prototype.byteLength *)
Definition DataViewPrototypeGetByteLength (a : BuiltinArguments) : M Object :=
  let* data_view := CHECK_RECEIVER a "get DataView.prototype.byteLength" in
  ret (Prim (Number (int_to_double (JSDataView.byte_length data_view)))).

(** ES6 section 24.2.4.3 get DataView.prototype.byteOffset *)
Definition DataViewPrototypeGetByteOffset (a : BuiltinArguments) : M Object :=
  let* data_view := CHECK_RECEIVER a "get DataView.prototype.byteOffset" in
  ret (Prim (Number (int_to_double (JSDataView.byte_offset data_view)))).

(** ** The accessor engine *)

(** [AllocateResult<T>]: [NewNumber] for the number types, [BigInt::FromInt64]
    and [BigInt::FromUint64] for the two 64-bit integer types. *)
Definition AllocateResult (T : ElementType) (value : Z) : Object :=
  match T with
  | Int8 | Uint8 | Int16 | Uint16 | Int32 | Uint32 => Number (int_to_double value)
  | Float32 => Number (float_to_double value)
  | Float64 => Number value
  | BigInt64 | BigUint64 => BigInt value
  end.

(** ES6 section 24.2.1.1 GetViewValue (view, requestIndex, isLittleEndian, type) *)
Definition GetViewValue (cfg : Target) (T : ElementType)
    (data_view : JSDataView.t) (request_index : Object)
    (is_little_endian : bool) (method : string) : M Object :=
  let* request_index := ToIndex request_index kInvalidDataViewAccessorOffset in
  match TryNumberToSize cfg request_index with
  | None => throw (NewRangeError kInvalidDataViewAccessorOffset None)
  | Some get_index =>
      let* buffer := load_buffer (JSDataView.buffer data_view) in
      if JSArrayBuffer.was_neutered buffer then
        throw (NewTypeError kDetachedOperation (Some method))
      else
        let* data_view_byte_offset :=
          NumberToSize cfg (JSDataView.byte_offset data_view) in
        let* data_view_byte_length :=
          NumberToSize cfg (JSDataView.byte_length data_view) in
        if (size_add cfg get_index (Z.of_nat (sizeof T)) >? data_view_byte_length)
           || (size_add cfg get_index (Z.of_nat (sizeof T)) <? get_index) (* overflow *)
        then throw (NewRangeError kInvalidDataViewAccessorOffset None)
        else
          let buffer_offset := size_add cfg data_view_byte_offset get_index in
          let* buffer_byte_length :=
            NumberToSize cfg (JSArrayBuffer.byte_length buffer) in
          let* _ := DCHECK (buffer_byte_length
                            >=? size_add cfg buffer_offset (Z.of_nat (sizeof T))) in
          let* _ := check_access buffer buffer_offset (sizeof T) in
          let source := Z.to_nat buffer_offset in
          let scratch := replicate (sizeof T) 0 in
          let bytes :=
            if NeedToFlipBytes cfg is_little_endian
            then FlipBytes (sizeof T) scratch 0 (JSArrayBuffer.backing_store buffer) source
            else CopyBytes (sizeof T) scratch 0 (JSArrayBuffer.backing_store buffer) source in
          ret (AllocateResult T (union_data cfg T bytes))
  end.

(** [DataViewConvertInput<T>]: [BigInt::FromObject] for [int64_t] and
    [uint64_t], [Object::ToNumber] for the other types. *)
Definition DataViewConvertInput (T : ElementType) (input : Object) : M Object :=
  match T with
  | BigInt64 | BigUint64 => let* z := BigInt_FromObject input in ret (Prim (BigInt z))
  | _ => let* d := ToNumber input in ret (Prim (Number d))
  end.

(** [DataViewConvertValue<T>] *)
Definition DataViewConvertValue (T : ElementType) (value : Object) : Z :=
  match T with
  | Int8 => to_signed 8 (DoubleToInt32 (Number_value value))
  | Int16 => to_signed 16 (DoubleToInt32 (Number_value value))
  | Int32 => DoubleToInt32 (Number_value value)
  | Uint8 => to_unsigned 8 (DoubleToUint32 (Number_value value))
  | Uint16 => to_unsigned 16 (DoubleToUint32 (Number_value value))
  | Uint32 => DoubleToUint32 (Number_value value)
  | Float32 => double_to_float (Number_value value)
  | Float64 => Number_value value
  | BigInt64 => AsInt64 (BigInt_cast value)
  | BigUint64 => AsUint64 (BigInt_cast value)
  end.

(** ES6 section 24.2.1.2 SetViewValue (view, requestIndex, isLittleEndian, type,
    value) *)
Definition SetViewValue (cfg : Target) (T : ElementType)
    (data_view : JSDataView.t) (request_index : Object)
    (is_little_endian : bool) (value : Object) (method : string) : M Object :=
  let* request_index := ToIndex request_index kInvalidDataViewAccessorOffset in
  let* value := DataViewConvertInput T value in
  match TryNumberToSize cfg request_index with
  | None => throw (NewRangeError kInvalidDataViewAccessorOffset None)
  | Some get_index =>
      let* buffer := load_buffer (JSDataView.buffer data_view) in
      if JSArrayBuffer.was_neutered buffer then
        throw (NewTypeError kDetachedOperation (Some method))
      else
        let* data_view_byte_offset :=
          NumberToSize cfg (JSDataView.byte_offset data_view) in
        let* data_view_byte_length :=
          NumberToSize cfg (JSDataView.byte_length data_view) in
        if (size_add cfg get_index (Z.of_nat (sizeof T)) >? data_view_byte_length)
           || (size_add cfg get_index (Z.of_nat (sizeof T)) <? get_index) (* overflow *)
        then throw (NewRangeError kInvalidDataViewAccessorOffset None)
        else
          let v_data := DataViewConvertValue T value in
          let v_bytes := union_bytes cfg T v_data in
          let buffer_offset := size_add cfg data_view_byte_offset get_index in
          let* buffer_byte_length :=
            NumberToSize cfg (JSArrayBuffer.byte_length buffer) in
          let* _ := DCHECK (buffer_byte_length
                            >=? size_add cfg buffer_offset (Z.of_nat (sizeof T))) in
          let* _ := check_access buffer buffer_offset (sizeof T) in
          let target := Z.to_nat buffer_offset in
          let* _ :=
            store_backing_store (JSDataView.buffer data_view)
              (if NeedToFlipBytes cfg is_little_endian
               then FlipBytes (sizeof T) (JSArrayBuffer.backing_store buffer) target v_bytes 0
               else CopyBytes (sizeof T) (JSArrayBuffer.backing_store buffer) target v_bytes 0) in
          ret (Prim Undefined)
  end.

(** [DATA_VIEW_PROTOTYPE_GET(Type, type)] *)
Definition DataViewPrototypeGet (cfg : Target) (T : ElementType)
    (a : BuiltinArguments) : M Object :=
  let* data_view :=
    CHECK_RECEIVER a (String.append "DataView.prototype.get" (TypeName T)) in
  let byte_offset := atOrUndefined a 1 in
  let is_little_endian := atOrUndefined a 2 in
  GetViewValue cfg T data_view byte_offset (BooleanValue is_little_endian)
    (String.append "DataView.prototype.get" (TypeName T)).

(** [DATA_VIEW_PROTOTYPE_SET(Type, type)] *)
Definition DataViewPrototypeSet (cfg : Target) (T : ElementType)
    (a : BuiltinArguments) : M Object :=
  let* data_view :=
    CHECK_RECEIVER a (String.append "DataView.prototype.set" (TypeName T)) in
  let byte_offset := atOrUndefined a 1 in
  let value := atOrUndefined a 2 in
  let is_little_endian := atOrUndefined a 3 in
  SetViewValue cfg T data_view byte_offset (BooleanValue is_little_endian) value
    (String.append "DataView.prototype.get" (TypeName T)).

(** * Notions used in the statements *)

(** [static_cast<T>] of an integer. *)
Definition cast (T : ElementType) (value : Z) : Z :=
  if is_signed T then to_signed (value_bits T) value
  else to_unsigned (value_bits T) value.

(** [n] bytes of [store] from position [p] on. *)
Definition read_bytes (store : list Z) (p n : nat) : list Z := take n (drop p store).

(** [store] with [bytes] written from position [p] on. *)
Definition write_bytes (store : list Z) (p : nat) (bytes : list Z) : list Z :=
  take p store ++ bytes ++ drop (p + length bytes) store.

(** The fields of the view are values of [size_t]. *)
Definition view_fields_fit (cfg : Target) (v : JSDataView.t) : Prop :=
  0 <= JSDataView.byte_offset v <= kMaxSize cfg /\
  0 <= JSDataView.byte_length v <= kMaxSize cfg.

(** The invariant established at construction, [0 <= byte_offset <=
    byte_offset + byte_length <= buffer.byte_length()], for a buffer whose
    length is a value of [size_t]. *)
Definition view_in_buffer (cfg : Target) (v : JSDataView.t) (b : JSArrayBuffer.t) : Prop :=
  0 <= JSDataView.byte_offset v /\ 0 <= JSDataView.byte_length v /\
  JSDataView.byte_offset v + JSDataView.byte_length v <= JSArrayBuffer.byte_length b /\
  JSArrayBuffer.byte_length b <= kMaxSize cfg.

Definition is_RangeError {A} (c : Completion A) : bool :=
  match c with Throw (NewRangeError _ _) => true | _ => false end.

Definition is_TypeError {A} (c : Completion A) : bool :=
  match c with Throw (NewTypeError _ _) => true | _ => false end.

Definition is_Normal {A} (c : Completion A) : bool :=
  match c with Normal _ => true | _ => false end.

(** The bytes [GetViewValue] leaves in the scratch array of the union. *)
Definition loaded_bytes (cfg : Target) (is_little_endian : bool)
    (store : list Z) (p n : nat) : list Z :=
  if NeedToFlipBytes cfg is_little_endian
  then reverse (read_bytes store p n) else read_bytes store p n.

(** The storage [SetViewValue] leaves behind. *)
Definition stored_bytes (cfg : Target) (is_little_endian : bool)
    (store : list Z) (p : nat) (bytes : list Z) : list Z :=
  write_bytes store p
    (if NeedToFlipBytes cfg is_little_endian then reverse bytes else bytes).

(** The isolate after a write of [bytes] to the storage of the buffer at
    [address]. *)
Definition with_backing_store (iso : Isolate) (address : nat)
    (b : JSArrayBuffer.t) (bytes : list Z) : Isolate :=
  {| array_buffers :=
       <[address := {| JSArrayBuffer.backing_store := bytes;
                       JSArrayBuffer.was_neutered := JSArrayBuffer.was_neutered b |}]>
         (array_buffers iso) |}.

(** The isolate a write of the converted value [x] at index [i] leaves
    behind, starting from [iso2]. *)
Definition after_set (cfg : Target) (T : ElementType) (v : JSDataView.t) (le : bool)
    (iso2 : Isolate) (i : Z) (x : Object) (b : JSArrayBuffer.t) : Isolate :=
  with_backing_store iso2 (JSDataView.buffer v) b
    (stored_bytes cfg le (JSArrayBuffer.backing_store b)
       (Z.to_nat (JSDataView.byte_offset v + i))
       (union_bytes cfg T (DataViewConvertValue T x))).

(** The low-order [w] bits of an integer in two's complement. *)
Definition low_bits (w n : Z) : Z := Z.land n (Z.ones w).

(** The integer a pattern of [w] bits stands for in two's complement. *)
Definition twos_complement (w pattern : Z) : Z :=
  if Z.testbit pattern (w - 1) then pattern - 2 ^ w else pattern.

(** A well-formed [double]: a pattern of 64 bits. *)
Definition is_double (d : double) : bool := (0 <=? d) && (d <? 2 ^ 64).

(** The converted value handed to the narrowing of [T]: a BigInt for the two
    64-bit integer types, a Number for the others. *)
Definition numeric_for (T : ElementType) (x : Primitive) : bool :=
  match T, x with
  | (BigInt64 | BigUint64), BigInt _ => true
  | (BigInt64 | BigUint64), _ => false
  | _, Number d => is_double d
  | _, _ => false
  end.

(** The narrowing of a converted value to [T] in the words of the
    specification (write, step 5), as the value a read then produces (read,
    step 6): truncation modulo 2^32 and then to the low-order bits of the
    narrower width for the integer types, read back in two's complement for
    the signed ones; rounding to single precision for float32; the double as
    it is for float64; the low 64 bits of the two's-complement representation
    for the 64-bit types. *)
Definition narrow (T : ElementType) (x : Primitive) : Object :=
  match T, x with
  | Int8, Number d => Number (int_to_double (twos_complement 8 (low_bits 8 (DoubleToInt32 d))))
  | Int16, Number d => Number (int_to_double (twos_complement 16 (low_bits 16 (DoubleToInt32 d))))
  | Int32, Number d => Number (int_to_double (DoubleToInt32 d))
  | Uint8, Number d => Number (int_to_double (low_bits 8 (DoubleToUint32 d)))
  | Uint16, Number d => Number (int_to_double (low_bits 16 (DoubleToUint32 d)))
  | Uint32, Number d => Number (int_to_double (DoubleToUint32 d))
  | Float32, Number d => Number (float_to_double (double_to_float d))
  | Float64, Number d => Number d
  | BigInt64, BigInt z => BigInt (twos_complement 64 (low_bits 64 z))
  | BigUint64, BigInt z => BigInt (low_bits 64 z)
  | _, _ => Undefined
  end.

(** The arguments of a call [receiver.method(arguments...)]. *)
Definition Call (receiver : Object) (arguments : list Object) : BuiltinArguments :=
  {| new_target := Prim Undefined; target := Prim Undefined; args := receiver :: arguments |}.

(** Concrete data for the examples: a little-endian 64-bit target and a
    big-endian 32-bit one, an isolate with one attached buffer of 8 zero bytes
    (address 0) and one detached buffer (address 1), and views over them. *)
Definition x64 : Target := {| pointer_size := Pointer64; target_little_endian := true |}.
Definition ppc : Target := {| pointer_size := Pointer32; target_little_endian := false |}.

Definition zeroes8 : JSArrayBuffer.t :=
  {| JSArrayBuffer.backing_store := replicate 8 0; JSArrayBuffer.was_neutered := false |}.

Definition example_isolate : Isolate :=
  {| array_buffers := [zeroes8; JSArrayBuffer.Neuter zeroes8] |}.

Definition whole_view : JSDataView.t :=
  {| JSDataView.buffer := 0; JSDataView.byte_offset := 0; JSDataView.byte_length := 8 |}.

(** A view created while the buffer at address 1 was still attached. *)
Definition stale_view : JSDataView.t :=
  {| JSDataView.buffer := 1; JSDataView.byte_offset := 0; JSDataView.byte_length := 8 |}.

Ltac concrete :=
  first [ reflexivity
        | lia
        | vm_compute; intuition (discriminate || congruence) ].

Ltac case_conditions :=
  repeat match goal with
         | |- context [match TryNumberToSize ?c ?z with _ => _ end] =>
             destruct (TryNumberToSize c z)
         | |- context [if ?c then _ else _] => destruct c
         end.

(** The access leaves the view: the end of the accessed range, taken in
    unbounded integers, lies beyond the length of the view or beyond the
    largest [size_t] (the sum wraps around). *)
Definition leaves_view (cfg : Target) (T : ElementType) (v : JSDataView.t) (i : Z) : Prop :=
  JSDataView.byte_length v < i + Z.of_nat (sizeof T) \/
  kMaxSize cfg < i + Z.of_nat (sizeof T).

(** Script code that detaches the buffer at [address]. *)
Definition Detach (address : nat) : M unit :=
  fun iso =>
    (Normal tt, {| array_buffers := alter JSArrayBuffer.Neuter address (array_buffers iso) |}).

(** An object whose conversion to a primitive detaches the buffer at [address]
    and then answers [result]. *)
Definition detaching_value (address : nat) (result : Primitive) : Object :=
  JSReceiver (let* _ := Detach address in ret result).

(** The arguments of [new target(arguments...)]. *)
Definition Construct (constructor : Object) (arguments : list Object) : BuiltinArguments :=
  {| new_target := constructor; target := constructor;
     args := Prim Undefined :: arguments |}.

(** A constructor function whose prototype lookup runs no script code. *)
Definition plain_function : Object := JSFunction (ret tt).

(** The buffer with its detachment flag set to [flag], storage untouched. *)
Definition with_flag (flag : bool) (b : JSArrayBuffer.t) : JSArrayBuffer.t :=
  {| JSArrayBuffer.backing_store := JSArrayBuffer.backing_store b;
     JSArrayBuffer.was_neutered := flag |}.

(** The isolate with the flag of the buffer at [address] set to [flag]. *)
Definition mark (address : nat) (flag : bool) (iso : Isolate) : Isolate :=
  {| array_buffers := alter (with_flag flag) address (array_buffers iso) |}.

(** The integer a double is truncated to: its value without the fraction, 0
    for NaN and the infinities. *)
Definition truncated (d : double) : Z :=
  match double_truncate d with Some n => n | None => 0 end.

(** Notions used in the further properties. *)

(** The bytes of a value in the order a call asks for: least significant
    byte first when [is_little_endian] is set, most significant first
    otherwise. *)
Definition requested_order (is_little_endian : bool) (bytes : list Z) : list Z :=
  if is_little_endian then bytes else reverse bytes.

(** Every element of the storage is a [uint8_t]. *)
Definition all_bytes (store : list Z) : Prop := Forall (fun x => 0 <= x < 256) store.

(** The storage of every buffer of the isolate holds bytes. *)
Definition heap_of_bytes (iso : Isolate) : Prop :=
  Forall (fun b => all_bytes (JSArrayBuffer.backing_store b)) (array_buffers iso).

(** The byte length and the detachment flag of every buffer, by address. *)
Definition shape (iso : Isolate) : list (nat * bool) :=
  (fun b => (length (JSArrayBuffer.backing_store b), JSArrayBuffer.was_neutered b))
    <$> array_buffers iso.

(** A buffer whose eight bytes are 1, 2, ..., 8, and an isolate holding it at
    address 0. *)
Definition counting8 : JSArrayBuffer.t :=
  {| JSArrayBuffer.backing_store := [1; 2; 3; 4; 5; 6; 7; 8];
     JSArrayBuffer.was_neutered := false |}.

Definition counting_isolate : Isolate := {| array_buffers := [counting8] |}.

(** The outcomes of an access whose arguments have been converted: it
    completes, or it raises the RangeError of the index checks or the
    TypeError of the detachment check.  A failed [DCHECK] and an access
    outside the storage are not among them. *)
Definition checked_outcome {A} (method : string) (c : Completion A) : Prop :=
  match c with
  | Normal _ => True
  | Throw e =>
      e = NewRangeError kInvalidDataViewAccessorOffset None \/
      e = NewTypeError kDetachedOperation (Some method)
  | Fatal => False
  end.

(** The pattern a write stores for the converted value [x], in the words of
    the specification (write, step 5): for the integer types up to 32 bits
    the double truncated to an integer (0 when it is not finite), reduced
    modulo 2^32 and then to the low-order bits of the narrower width; for
    float32 the double rounded to the nearest single-precision value, ties to
    even; for float64 the double as it is; for the 64-bit types the low 64
    bits of the two's-complement representation of the big integer. *)
Definition narrowed_bits (T : ElementType) (x : Primitive) : Z :=
  match T, x with
  | (Int8 | Uint8), Number d => low_bits 8 (low_bits 32 (truncated d))
  | (Int16 | Uint16), Number d => low_bits 16 (low_bits 32 (truncated d))
  | (Int32 | Uint32), Number d => low_bits 32 (truncated d)
  | Float32, Number d => ieee_encode 24 128 (ieee_round 24 128 (double_value d))
  | Float64, Number d => d
  | (BigInt64 | BigUint64), BigInt z => low_bits 64 z
  | _, _ => 0
  end.

(** * Properties *)

(** ** Sizes and fixed-width arithmetic *)

Lemma sizeof_cases (T : ElementType) :
  (sizeof T = 1 \/ sizeof T = 2 \/ sizeof T = 4 \/ sizeof T = 8)%nat.
Proof. destruct T; simpl; auto. Qed.

Lemma sizeof_bounds (T : ElementType) : 1 <= Z.of_nat (sizeof T) <= 8.
Proof. destruct (sizeof_cases T) as [H|[H|[H|H]]]; rewrite H; lia. Qed.

Lemma size_bits_cases (cfg : Target) : size_bits cfg = 32 \/ size_bits cfg = 64.
Proof. unfold size_bits; destruct (pointer_size cfg); auto. Qed.

Lemma kMaxSize_lower (cfg : Target) : 2 ^ 32 - 1 <= kMaxSize cfg.
Proof.
  unfold kMaxSize; destruct (size_bits_cases cfg) as [-> | ->]; lia.
Qed.

Lemma size_modulus (cfg : Target) : 2 ^ size_bits cfg = kMaxSize cfg + 1.
Proof. unfold kMaxSize; lia. Qed.

Lemma TryNumberToSize_Some (cfg : Target) (number n : Z) :
  TryNumberToSize cfg number = Some n <-> n = number /\ 0 <= number <= kMaxSize cfg.
Proof.
  unfold TryNumberToSize.
  destruct (0 <=? number) eqn:E1; destruct (number <=? kMaxSize cfg) eqn:E2;
    simpl; split; intros H; try discriminate; try (inversion H; subst; lia);
    destruct H as [-> H]; try reflexivity; lia.
Qed.

Lemma TryNumberToSize_None (cfg : Target) (number : Z) :
  TryNumberToSize cfg number = None <-> number < 0 \/ kMaxSize cfg < number.
Proof.
  unfold TryNumberToSize.
  destruct (0 <=? number) eqn:E1; destruct (number <=? kMaxSize cfg) eqn:E2;
    simpl; split; intros H; try discriminate; try reflexivity; lia.
Qed.

(** The test of the accessors, [get_index + sizeof(T) > data_view_byte_length
    || get_index + sizeof(T) < get_index], decides whether the access leaves
    the view; the sum is taken in unbounded integers on the right. *)
Lemma bounds_test_spec (cfg : Target) (get_index n len : Z) :
  0 <= get_index <= kMaxSize cfg -> 0 <= len <= kMaxSize cfg -> 1 <= n <= 8 ->
  (size_add cfg get_index n >? len) || (size_add cfg get_index n <? get_index) = true
  <-> len < get_index + n.
Proof.
  intros Hi Hl Hn. unfold size_add. rewrite size_modulus.
  pose proof (kMaxSize_lower cfg) as Hk.
  destruct (Z_lt_ge_dec (get_index + n) (kMaxSize cfg + 1)) as [Hlt | Hge].
  - rewrite Z.mod_small by lia. rewrite orb_true_iff. split.
    + intros [H | H]; lia.
    + intros H. left. lia.
  - replace ((get_index + n) mod (kMaxSize cfg + 1))
      with (get_index + n - (kMaxSize cfg + 1)).
    + rewrite orb_true_iff. split; [lia|]. intros _. right. lia.
    + apply Z.mod_unique with (q := 1); lia.
Qed.

Lemma to_signed_unsigned (bits z : Z) :
  0 < bits -> to_signed bits (to_unsigned bits z) = to_signed bits z.
Proof.
  intros Hb. unfold to_signed, to_unsigned.
  rewrite Zplus_mod_idemp_l. reflexivity.
Qed.

Lemma to_unsigned_signed (bits z : Z) :
  0 < bits -> to_unsigned bits (to_signed bits z) = to_unsigned bits z.
Proof.
  intros Hb. unfold to_signed, to_unsigned.
  assert (Hpow : 2 ^ bits = 2 * 2 ^ (bits - 1)).
  { rewrite <- Z.pow_succ_r by lia. f_equal. lia. }
  assert (Hpos : 0 < 2 ^ (bits - 1)) by (apply Z.pow_pos_nonneg; lia).
  rewrite Zminus_mod_idemp_l. f_equal. lia.
Qed.

(** ** Bytes of a value *)

Lemma length_le_bytes (n : nat) (u : Z) : length (le_bytes n u) = n.
Proof. revert u; induction n as [|n IH]; intros u; simpl; [reflexivity | now rewrite IH]. Qed.

Lemma le_value_le_bytes (n : nat) (u : Z) :
  le_value (le_bytes n u) = u mod 2 ^ (8 * Z.of_nat n).
Proof.
  revert u; induction n as [|n IH]; intros u.
  - simpl. now rewrite Z.mod_1_r.
  - cbn [le_bytes le_value]. rewrite IH.
    replace (8 * Z.of_nat (S n)) with (8 + 8 * Z.of_nat n) by lia.
    rewrite Z.pow_add_r by lia. change (2 ^ 8) with 256.
    rewrite Z.rem_mul_r; [reflexivity | lia | apply Z.pow_pos_nonneg; lia].
Qed.

Lemma host_order_involutive (cfg : Target) (bytes : list Z) :
  host_order cfg (host_order cfg bytes) = bytes.
Proof.
  unfold host_order; destruct (target_little_endian cfg);
    [reflexivity | apply reverse_involutive].
Qed.

Lemma length_host_order (cfg : Target) (bytes : list Z) :
  length (host_order cfg bytes) = length bytes.
Proof.
  unfold host_order; destruct (target_little_endian cfg);
    [reflexivity | apply length_reverse].
Qed.

Lemma length_union_bytes (cfg : Target) (T : ElementType) (data : Z) :
  length (union_bytes cfg T data) = sizeof T.
Proof. unfold union_bytes. now rewrite length_host_order, length_le_bytes. Qed.

Lemma value_bits_pos (T : ElementType) : 0 < value_bits T.
Proof. unfold value_bits. pose proof (sizeof_bounds T). lia. Qed.

(** The union gives back the value it was given, cast to [T]; read at a type
    of the same size, the value comes back cast to that type. *)
Lemma union_data_bytes_as (cfg : Target) (T' T : ElementType) (data : Z) :
  sizeof T' = sizeof T ->
  union_data cfg T' (union_bytes cfg T data) = cast T' data.
Proof.
  intros Hsize. unfold union_data, union_bytes, cast.
  rewrite host_order_involutive, le_value_le_bytes.
  change (8 * Z.of_nat (sizeof T)) with (value_bits T).
  assert (Hbits : value_bits T' = value_bits T) by (unfold value_bits; now rewrite Hsize).
  rewrite Hbits.
  assert (Hmod : to_unsigned (value_bits T) data mod 2 ^ value_bits T
                 = to_unsigned (value_bits T) data).
  { unfold to_unsigned. apply Z.mod_mod, Z.pow_nonzero;
      [lia | pose proof (value_bits_pos T); lia]. }
  rewrite Hmod. destruct (is_signed T').
  - apply to_signed_unsigned, value_bits_pos.
  - exact Hmod.
Qed.

Lemma union_data_bytes (cfg : Target) (T : ElementType) (data : Z) :
  union_data cfg T (union_bytes cfg T data) = cast T data.
Proof. now apply union_data_bytes_as. Qed.

(** ** The copy routines *)

Lemma step_take (target : list Z) (tp : nat) (x : Z) :
  (tp < length target)%nat -> take (S tp) (<[tp := x]> target) = take tp target ++ [x].
Proof.
  intros Hlt.
  rewrite (take_S_r _ _ x).
  - now rewrite take_insert_ge by lia.
  - apply list_lookup_insert_eq. exact Hlt.
Qed.

Lemma CopyBytes_spec (n : nat) :
  forall (target : list Z) (tp : nat) (source : list Z) (sp : nat),
    (tp + n <= length target)%nat -> (sp + n <= length source)%nat ->
    CopyBytes n target tp source sp = write_bytes target tp (read_bytes source sp n).
Proof.
  unfold write_bytes, read_bytes.
  induction n as [|n IH]; intros target tp source sp Ht Hs.
  - cbn [CopyBytes]. rewrite take_0. cbn [length app].
    rewrite Nat.add_0_r. now rewrite take_drop.
  - cbn [CopyBytes]. rewrite IH by (rewrite ?length_insert; lia).
    rewrite step_take by lia.
    rewrite drop_insert_lt by (rewrite length_take, length_drop; lia).
    assert (Hx : source !! sp = Some (source !!! sp)).
    { apply list_lookup_lookup_total_lt. lia. }
    rewrite (drop_S source (source !!! sp) sp Hx).
    cbn [take length]. rewrite <- app_assoc. cbn [app].
    rewrite Nat.add_succ_r. reflexivity.
Qed.

Lemma FlipBytes_loop_spec (n : nat) :
  forall (target : list Z) (tp : nat) (source : list Z) (sp : nat),
    (tp + n <= length target)%nat -> (sp + n <= length source)%nat ->
    FlipBytes_loop n target tp source (sp + (n - 1))
    = write_bytes target tp (reverse (read_bytes source sp n)).
Proof.
  unfold write_bytes, read_bytes.
  induction n as [|n IH]; intros target tp source sp Ht Hs.
  - cbn [FlipBytes_loop]. rewrite take_0, reverse_nil. cbn [length app].
    rewrite Nat.add_0_r. now rewrite take_drop.
  - cbn [FlipBytes_loop].
    replace (sp + (S n - 1))%nat with (sp + n)%nat by lia.
    assert (Hx : drop sp source !! n = Some (source !!! (sp + n)%nat)).
    { rewrite lookup_drop. apply list_lookup_lookup_total_lt. lia. }
    rewrite (take_S_r _ _ _ Hx), reverse_snoc.
    destruct n as [|n].
    + cbn [FlipBytes_loop]. rewrite take_0, reverse_nil. cbn [length app].
      rewrite Nat.add_1_r. apply insert_take_drop. lia.
    + replace (Nat.pred (sp + S n)) with (sp + (S n - 1))%nat by lia.
      rewrite IH by (rewrite ?length_insert; lia).
      rewrite step_take by lia.
      rewrite drop_insert_lt
        by (rewrite length_reverse, length_take, length_drop; lia).
      rewrite <- app_assoc. cbn [app length].
      rewrite (Nat.add_succ_r tp). reflexivity.
Qed.

Lemma FlipBytes_spec (n : nat) (target : list Z) (tp : nat)
    (source : list Z) (sp : nat) :
  (tp + n <= length target)%nat -> (sp + n <= length source)%nat ->
  FlipBytes n target tp source sp
  = write_bytes target tp (reverse (read_bytes source sp n)).
Proof. apply FlipBytes_loop_spec. Qed.

Lemma length_read_bytes (store : list Z) (p n : nat) :
  (p + n <= length store)%nat -> length (read_bytes store p n) = n.
Proof. intros H. unfold read_bytes. rewrite length_take, length_drop. lia. Qed.

Lemma length_write_bytes (store : list Z) (p : nat) (bytes : list Z) :
  (p + length bytes <= length store)%nat ->
  length (write_bytes store p bytes) = length store.
Proof.
  intros H. unfold write_bytes.
  rewrite !length_app, length_take, length_drop. lia.
Qed.

(** What was written is what is read back. *)
Lemma read_write_bytes (store : list Z) (p : nat) (bytes : list Z) :
  (p + length bytes <= length store)%nat ->
  read_bytes (write_bytes store p bytes) p (length bytes) = bytes.
Proof.
  intros H. unfold read_bytes, write_bytes.
  rewrite drop_app_length' by (rewrite length_take; lia).
  apply take_app_length.
Qed.

(** Reading into the scratch array of the union fills all of it. *)
Lemma write_scratch (n : nat) (bytes : list Z) :
  length bytes = n -> write_bytes (replicate n 0) 0 bytes = bytes.
Proof.
  intros H. unfold write_bytes. rewrite take_0. cbn [app].
  rewrite drop_ge by (rewrite length_replicate; lia).
  apply app_nil_r.
Qed.

(** ** The conversion protocols *)

Lemma ToIndex_range (input : Object) (t : MessageTemplate) (iso iso' : Isolate) (i : Z) :
  ToIndex input t iso = (Normal i, iso') -> 0 <= i <= kMaxSafeInteger.
Proof.
  unfold ToIndex. destruct (IsUndefined input).
  - unfold ret. intros H. inversion H. unfold kMaxSafeInteger. lia.
  - unfold bind. destruct (ToNumber input iso) as [[d | e |] iso1]; try discriminate.
    destruct (DoubleToInteger d) as [len|]; [|discriminate].
    destruct ((len <? 0) || (len >? kMaxSafeInteger)) eqn:E; [discriminate|].
    unfold ret. intros H. inversion H. subst.
    apply orb_false_iff in E. lia.
Qed.

(** A Number is converted without running any code. *)
Lemma ToIndex_Number (d : double) (t : MessageTemplate) (i : Z) (iso : Isolate) :
  DoubleToInteger d = Some i -> 0 <= i <= kMaxSafeInteger ->
  ToIndex (Number d) t iso = (Normal i, iso).
Proof.
  intros Hd Hi. unfold ToIndex, bind. cbn. rewrite Hd.
  replace ((i <? 0) || (i >? kMaxSafeInteger)) with false; [reflexivity|].
  symmetry. apply orb_false_iff. lia.
Qed.

(** The index conversion of a primitive runs no code: its completion does not
    depend on the isolate, which it leaves as it is. *)
Lemma ToIndex_Prim (p : Primitive) (t : MessageTemplate) (iso : Isolate) :
  ToIndex (Prim p) t iso = (fst (ToIndex (Prim p) t {| array_buffers := [] |}), iso).
Proof.
  unfold ToIndex, bind, ToNumber, lift.
  destruct (IsUndefined p); [reflexivity|].
  destruct (PrimitiveToNumber p) as [d | e |]; try reflexivity.
  destruct (DoubleToInteger d) as [len|]; [|reflexivity].
  destruct ((len <? 0) || (len >? kMaxSafeInteger)); reflexivity.
Qed.

Lemma NumberToSize_fits (cfg : Target) (number : Z) :
  0 <= number <= kMaxSize cfg -> NumberToSize cfg number = ret number.
Proof.
  intros H. unfold NumberToSize.
  assert (E : TryNumberToSize cfg number = Some number)
    by (apply TryNumberToSize_Some; auto).
  now rewrite E.
Qed.

(** ** Views and buffers *)

Lemma view_in_buffer_fit (cfg : Target) (v : JSDataView.t) (b : JSArrayBuffer.t) :
  view_in_buffer cfg v b -> view_fields_fit cfg v.
Proof. unfold view_in_buffer, view_fields_fit. lia. Qed.

(** *** [GetViewValue], case by case *)

Section GetViewValue_cases.
Variables (cfg : Target) (T : ElementType) (v : JSDataView.t)
  (request_index : Object) (le : bool) (method : string)
  (iso iso1 : Isolate) (i : Z).
Hypothesis Hindex :
  ToIndex request_index kInvalidDataViewAccessorOffset iso = (Normal i, iso1).

Lemma GetViewValue_size_overflow :
  kMaxSize cfg < i ->
  GetViewValue cfg T v request_index le method iso
  = (Throw (NewRangeError kInvalidDataViewAccessorOffset None), iso1).
Proof.
  intros Hbig. unfold GetViewValue, bind. rewrite Hindex.
  assert (E : TryNumberToSize cfg i = None) by (apply TryNumberToSize_None; lia).
  now rewrite E.
Qed.

Variable b : JSArrayBuffer.t.
Hypothesis Hbuffer : array_buffers iso1 !! JSDataView.buffer v = Some b.

Lemma GetViewValue_detached :
  i <= kMaxSize cfg -> JSArrayBuffer.was_neutered b = true ->
  GetViewValue cfg T v request_index le method iso
  = (Throw (NewTypeError kDetachedOperation (Some method)), iso1).
Proof.
  intros Hfit Hdet. pose proof (ToIndex_range _ _ _ _ _ Hindex) as Hi.
  unfold GetViewValue, bind. rewrite Hindex.
  assert (E : TryNumberToSize cfg i = Some i) by (apply TryNumberToSize_Some; lia).
  rewrite E. unfold load_buffer. rewrite Hbuffer, Hdet. reflexivity.
Qed.

Hypothesis Hattached : JSArrayBuffer.was_neutered b = false.

Lemma GetViewValue_out_of_bounds :
  view_fields_fit cfg v -> i <= kMaxSize cfg ->
  JSDataView.byte_length v < i + Z.of_nat (sizeof T) ->
  GetViewValue cfg T v request_index le method iso
  = (Throw (NewRangeError kInvalidDataViewAccessorOffset None), iso1).
Proof.
  intros [Hoff Hlen] Hfit Hout. pose proof (ToIndex_range _ _ _ _ _ Hindex) as Hi.
  unfold GetViewValue, bind. rewrite Hindex.
  assert (E : TryNumberToSize cfg i = Some i) by (apply TryNumberToSize_Some; lia).
  rewrite E. unfold load_buffer. rewrite Hbuffer, Hattached.
  rewrite !NumberToSize_fits by assumption. unfold ret at 1 2.
  apply (bounds_test_spec cfg i (Z.of_nat (sizeof T)) (JSDataView.byte_length v))
    in Hout; [| lia | lia | apply sizeof_bounds].
  now rewrite Hout.
Qed.

Lemma GetViewValue_in_bounds :
  view_in_buffer cfg v b ->
  i + Z.of_nat (sizeof T) <= JSDataView.byte_length v ->
  GetViewValue cfg T v request_index le method iso
  = (Normal (AllocateResult T (union_data cfg T
       (loaded_bytes cfg le (JSArrayBuffer.backing_store b)
          (Z.to_nat (JSDataView.byte_offset v + i)) (sizeof T)))), iso1).
Proof.
  intros Hin Hok. pose proof (ToIndex_range _ _ _ _ _ Hindex) as Hi.
  pose proof (view_in_buffer_fit _ _ _ Hin) as [Hoff Hlen].
  destruct Hin as (Ho & Hl & Hsum & Hmax).
  pose proof (sizeof_bounds T) as Hn.
  unfold GetViewValue, bind. rewrite Hindex.
  assert (E : TryNumberToSize cfg i = Some i) by (apply TryNumberToSize_Some; lia).
  rewrite E. unfold load_buffer. rewrite Hbuffer, Hattached.
  rewrite !NumberToSize_fits by (assumption || (unfold JSArrayBuffer.byte_length in *; lia)).
  unfold ret at 1 2.
  destruct ((size_add cfg i (Z.of_nat (sizeof T)) >? JSDataView.byte_length v)
            || (size_add cfg i (Z.of_nat (sizeof T)) <? i)) eqn:Etest.
  { apply bounds_test_spec in Etest; [lia | lia | lia | exact Hn]. }
  unfold ret at 1.
  assert (Eoff : size_add cfg (JSDataView.byte_offset v) i = JSDataView.byte_offset v + i).
  { unfold size_add. rewrite size_modulus. apply Z.mod_small. lia. }
  assert (Eend : size_add cfg (JSDataView.byte_offset v + i) (Z.of_nat (sizeof T))
                 = JSDataView.byte_offset v + i + Z.of_nat (sizeof T)).
  { unfold size_add. rewrite size_modulus. apply Z.mod_small. lia. }
  rewrite Eoff, Eend. unfold DCHECK, check_access, DCHECK.
  replace (JSArrayBuffer.byte_length b >=? JSDataView.byte_offset v + i + Z.of_nat (sizeof T))
    with true by (symmetry; apply Z.geb_le; lia).
  unfold ret at 1.
  replace ((0 <=? JSDataView.byte_offset v + i)
           && (JSDataView.byte_offset v + i + Z.of_nat (sizeof T) <=? JSArrayBuffer.byte_length b))
    with true by (symmetry; apply andb_true_iff; split; apply Z.leb_le; lia).
  unfold ret. unfold loaded_bytes.
  unfold JSArrayBuffer.byte_length in *.
  destruct (NeedToFlipBytes cfg le).
  - rewrite FlipBytes_spec by (rewrite ?length_replicate; lia).
    rewrite write_scratch; [reflexivity|].
    rewrite length_reverse. apply length_read_bytes. lia.
  - rewrite CopyBytes_spec by (rewrite ?length_replicate; lia).
    rewrite write_scratch; [reflexivity|].
    apply length_read_bytes. lia.
Qed.
End GetViewValue_cases.

Lemma GetViewValue_index_throws (cfg : Target) (T : ElementType) (v : JSDataView.t)
    (request_index : Object) (le : bool) (method : string)
    (iso iso1 : Isolate) (e : Error) :
  ToIndex request_index kInvalidDataViewAccessorOffset iso = (Throw e, iso1) ->
  GetViewValue cfg T v request_index le method iso = (Throw e, iso1).
Proof. intros H. unfold GetViewValue, bind. now rewrite H. Qed.

(** *** [SetViewValue], case by case *)

Lemma SetViewValue_index_throws (cfg : Target) (T : ElementType) (v : JSDataView.t)
    (request_index : Object) (le : bool) (value : Object) (method : string)
    (iso iso1 : Isolate) (e : Error) :
  ToIndex request_index kInvalidDataViewAccessorOffset iso = (Throw e, iso1) ->
  SetViewValue cfg T v request_index le value method iso = (Throw e, iso1).
Proof. intros H. unfold SetViewValue, bind. now rewrite H. Qed.

Section SetViewValue_cases.
Variables (cfg : Target) (T : ElementType) (v : JSDataView.t)
  (request_index : Object) (le : bool) (value : Object) (method : string)
  (iso iso1 : Isolate) (i : Z).
Hypothesis Hindex :
  ToIndex request_index kInvalidDataViewAccessorOffset iso = (Normal i, iso1).

Lemma SetViewValue_value_throws (iso2 : Isolate) (e : Error) :
  DataViewConvertInput T value iso1 = (Throw e, iso2) ->
  SetViewValue cfg T v request_index le value method iso = (Throw e, iso2).
Proof. intros H. unfold SetViewValue, bind. now rewrite Hindex, H. Qed.

Variables (x : Object) (iso2 : Isolate).
Hypothesis Hvalue : DataViewConvertInput T value iso1 = (Normal x, iso2).

Lemma SetViewValue_size_overflow :
  kMaxSize cfg < i ->
  SetViewValue cfg T v request_index le value method iso
  = (Throw (NewRangeError kInvalidDataViewAccessorOffset None), iso2).
Proof.
  intros Hbig. unfold SetViewValue, bind. rewrite Hindex, Hvalue.
  assert (E : TryNumberToSize cfg i = None) by (apply TryNumberToSize_None; lia).
  now rewrite E.
Qed.

Variable b : JSArrayBuffer.t.
Hypothesis Hbuffer : array_buffers iso2 !! JSDataView.buffer v = Some b.

Lemma SetViewValue_detached :
  i <= kMaxSize cfg -> JSArrayBuffer.was_neutered b = true ->
  SetViewValue cfg T v request_index le value method iso
  = (Throw (NewTypeError kDetachedOperation (Some method)), iso2).
Proof.
  intros Hfit Hdet. pose proof (ToIndex_range _ _ _ _ _ Hindex) as Hi.
  unfold SetViewValue, bind. rewrite Hindex, Hvalue.
  assert (E : TryNumberToSize cfg i = Some i) by (apply TryNumberToSize_Some; lia).
  rewrite E. unfold load_buffer. rewrite Hbuffer, Hdet. reflexivity.
Qed.

Hypothesis Hattached : JSArrayBuffer.was_neutered b = false.

Lemma SetViewValue_out_of_bounds :
  view_fields_fit cfg v -> i <= kMaxSize cfg ->
  JSDataView.byte_length v < i + Z.of_nat (sizeof T) ->
  SetViewValue cfg T v request_index le value method iso
  = (Throw (NewRangeError kInvalidDataViewAccessorOffset None), iso2).
Proof.
  intros [Hoff Hlen] Hfit Hout. pose proof (ToIndex_range _ _ _ _ _ Hindex) as Hi.
  unfold SetViewValue, bind. rewrite Hindex, Hvalue.
  assert (E : TryNumberToSize cfg i = Some i) by (apply TryNumberToSize_Some; lia).
  rewrite E. unfold load_buffer. rewrite Hbuffer, Hattached.
  rewrite !NumberToSize_fits by assumption. unfold ret at 1 2.
  apply (bounds_test_spec cfg i (Z.of_nat (sizeof T)) (JSDataView.byte_length v))
    in Hout; [| lia | lia | apply sizeof_bounds].
  now rewrite Hout.
Qed.

Lemma SetViewValue_in_bounds :
  view_in_buffer cfg v b ->
  i + Z.of_nat (sizeof T) <= JSDataView.byte_length v ->
  SetViewValue cfg T v request_index le value method iso
  = (Normal (Prim Undefined),
     with_backing_store iso2 (JSDataView.buffer v) b
       (stored_bytes cfg le (JSArrayBuffer.backing_store b)
          (Z.to_nat (JSDataView.byte_offset v + i))
          (union_bytes cfg T (DataViewConvertValue T x)))).
Proof.
  intros Hin Hok. pose proof (ToIndex_range _ _ _ _ _ Hindex) as Hi.
  pose proof (view_in_buffer_fit _ _ _ Hin) as [Hoff Hlen].
  destruct Hin as (Ho & Hl & Hsum & Hmax).
  pose proof (sizeof_bounds T) as Hn.
  unfold SetViewValue, bind. rewrite Hindex, Hvalue.
  assert (E : TryNumberToSize cfg i = Some i) by (apply TryNumberToSize_Some; lia).
  rewrite E. unfold load_buffer. rewrite Hbuffer, Hattached.
  rewrite !NumberToSize_fits by (assumption || (unfold JSArrayBuffer.byte_length in *; lia)).
  unfold ret at 1 2.
  destruct ((size_add cfg i (Z.of_nat (sizeof T)) >? JSDataView.byte_length v)
            || (size_add cfg i (Z.of_nat (sizeof T)) <? i)) eqn:Etest.
  { apply bounds_test_spec in Etest; [lia | lia | lia | exact Hn]. }
  unfold ret at 1.
  assert (Eoff : size_add cfg (JSDataView.byte_offset v) i = JSDataView.byte_offset v + i).
  { unfold size_add. rewrite size_modulus. apply Z.mod_small. lia. }
  assert (Eend : size_add cfg (JSDataView.byte_offset v + i) (Z.of_nat (sizeof T))
                 = JSDataView.byte_offset v + i + Z.of_nat (sizeof T)).
  { unfold size_add. rewrite size_modulus. apply Z.mod_small. lia. }
  rewrite Eoff, Eend. unfold DCHECK, check_access, DCHECK.
  replace (JSArrayBuffer.byte_length b >=? JSDataView.byte_offset v + i + Z.of_nat (sizeof T))
    with true by (symmetry; apply Z.geb_le; lia).
  unfold ret at 1.
  replace ((0 <=? JSDataView.byte_offset v + i)
           && (JSDataView.byte_offset v + i + Z.of_nat (sizeof T) <=? JSArrayBuffer.byte_length b))
    with true by (symmetry; apply andb_true_iff; split; apply Z.leb_le; lia).
  unfold ret at 1. unfold store_backing_store. rewrite Hbuffer.
  unfold ret, with_backing_store, stored_bytes.
  unfold JSArrayBuffer.byte_length in *.
  pose proof (length_union_bytes cfg T (DataViewConvertValue T x)) as Hub.
  destruct (NeedToFlipBytes cfg le).
  - rewrite FlipBytes_spec by lia.
    unfold read_bytes. rewrite drop_0, take_ge by lia. reflexivity.
  - rewrite CopyBytes_spec by lia.
    unfold read_bytes. rewrite drop_0, take_ge by lia. reflexivity.
Qed.
End SetViewValue_cases.

(** ** A write followed by a read *)

Lemma loaded_stored_bytes (cfg : Target) (le : bool) (store : list Z) (p : nat)
    (bytes : list Z) :
  (p + length bytes <= length store)%nat ->
  loaded_bytes cfg le (stored_bytes cfg le store p bytes) p (length bytes) = bytes.
Proof.
  intros H. unfold loaded_bytes, stored_bytes.
  destruct (NeedToFlipBytes cfg le).
  - rewrite <- (length_reverse bytes).
    rewrite read_write_bytes by (rewrite length_reverse; lia).
    apply reverse_involutive.
  - now apply read_write_bytes.
Qed.

Lemma length_stored_bytes (cfg : Target) (le : bool) (store : list Z) (p : nat)
    (bytes : list Z) :
  (p + length bytes <= length store)%nat ->
  length (stored_bytes cfg le store p bytes) = length store.
Proof.
  intros H. unfold stored_bytes. apply length_write_bytes.
  destruct (NeedToFlipBytes cfg le); rewrite ?length_reverse; lia.
Qed.

Section set_then_get.
Variables (cfg : Target) (T : ElementType) (v : JSDataView.t) (le : bool)
  (index value : Object) (method : string) (iso iso1 iso2 : Isolate)
  (i : Z) (x : Object) (b : JSArrayBuffer.t).
Hypothesis Hindex :
  ToIndex index kInvalidDataViewAccessorOffset iso = (Normal i, iso1).
Hypothesis Hvalue : DataViewConvertInput T value iso1 = (Normal x, iso2).
Hypothesis Hbuffer : array_buffers iso2 !! JSDataView.buffer v = Some b.
Hypothesis Hattached : JSArrayBuffer.was_neutered b = false.
Hypothesis Hview : view_in_buffer cfg v b.
Hypothesis Hbounds : i + Z.of_nat (sizeof T) <= JSDataView.byte_length v.

Lemma set_completes :
  SetViewValue cfg T v index le value method iso = (Normal (Prim Undefined), (after_set cfg T v le iso2 i x b)).
Proof. now apply SetViewValue_in_bounds with (iso1 := iso1). Qed.

(** A read of a type [T'] of the same size at the same index, with the same
    order flag, whose index conversion ends in the isolate the write has
    left, sees the value written, cast to [T']. *)
Lemma get_after_set_as (T' : ElementType) (index' : Object) (method' : string)
    (iso3 : Isolate) :
  sizeof T' = sizeof T ->
  ToIndex index' kInvalidDataViewAccessorOffset iso3 = (Normal i, (after_set cfg T v le iso2 i x b)) ->
  GetViewValue cfg T' v index' le method' iso3
  = (Normal (AllocateResult T' (cast T' (DataViewConvertValue T x))), (after_set cfg T v le iso2 i x b)).
Proof.
  intros Hsize Hindex'.
  pose proof (ToIndex_range _ _ _ _ _ Hindex) as Hi.
  pose proof (sizeof_bounds T) as Hn.
  pose proof (length_union_bytes cfg T (DataViewConvertValue T x)) as Hub.
  destruct Hview as (Ho & Hl & Hsum & Hmax).
  unfold JSArrayBuffer.byte_length in *.
  assert (Hfit : (Z.to_nat (JSDataView.byte_offset v + i)
                  + length (union_bytes cfg T (DataViewConvertValue T x))
                  <= length (JSArrayBuffer.backing_store b))%nat) by lia.
  set (b' := {| JSArrayBuffer.backing_store :=
                  stored_bytes cfg le (JSArrayBuffer.backing_store b)
                    (Z.to_nat (JSDataView.byte_offset v + i))
                    (union_bytes cfg T (DataViewConvertValue T x));
                JSArrayBuffer.was_neutered := JSArrayBuffer.was_neutered b |}).
  rewrite (GetViewValue_in_bounds cfg T' v index' le method' iso3 (after_set cfg T v le iso2 i x b) i Hindex' b').
  - cbn [JSArrayBuffer.backing_store b']. rewrite Hsize. rewrite <- Hub at 1.
    rewrite loaded_stored_bytes by exact Hfit.
    rewrite (union_data_bytes_as cfg T' T) by exact Hsize. reflexivity.
  - unfold after_set, with_backing_store. cbn [array_buffers].
    apply list_lookup_insert_eq. eapply lookup_lt_Some. exact Hbuffer.
  - exact Hattached.
  - unfold view_in_buffer, JSArrayBuffer.byte_length. cbn [JSArrayBuffer.backing_store b'].
    rewrite length_stored_bytes by exact Hfit. lia.
  - rewrite Hsize. exact Hbounds.
Qed.

Lemma get_after_set (index' : Object) (method' : string) (iso3 : Isolate) :
  ToIndex index' kInvalidDataViewAccessorOffset iso3 = (Normal i, (after_set cfg T v le iso2 i x b)) ->
  GetViewValue cfg T v index' le method' iso3
  = (Normal (AllocateResult T (cast T (DataViewConvertValue T x))), (after_set cfg T v le iso2 i x b)).
Proof. now apply get_after_set_as. Qed.
End set_then_get.

(** ** Narrowing *)

Lemma low_bits_unsigned (w n : Z) : 0 <= w -> low_bits w n = to_unsigned w n.
Proof. intros Hw. unfold low_bits, to_unsigned. now apply Z.land_ones. Qed.

Lemma to_unsigned_range (w n : Z) : 0 <= w -> 0 <= to_unsigned w n < 2 ^ w.
Proof. intros Hw. unfold to_unsigned. apply Z.mod_pos_bound, Z.pow_pos_nonneg; lia. Qed.

Lemma to_unsigned_small (w n : Z) : 0 <= n < 2 ^ w -> to_unsigned w n = n.
Proof. intros H. unfold to_unsigned. now apply Z.mod_small. Qed.

Lemma to_signed_range (w n : Z) :
  0 < w -> - 2 ^ (w - 1) <= to_signed w n < 2 ^ (w - 1).
Proof.
  intros Hw. unfold to_signed.
  assert (Hpow : 2 ^ w = 2 * 2 ^ (w - 1)).
  { rewrite <- Z.pow_succ_r by lia. f_equal. lia. }
  assert (Hpos : 0 < 2 ^ (w - 1)) by (apply Z.pow_pos_nonneg; lia).
  pose proof (Z.mod_pos_bound (n + 2 ^ (w - 1)) (2 ^ w)). lia.
Qed.

Lemma to_signed_small (w n : Z) :
  0 < w -> - 2 ^ (w - 1) <= n < 2 ^ (w - 1) -> to_signed w n = n.
Proof.
  intros Hw Hn. unfold to_signed.
  assert (Hpow : 2 ^ w = 2 * 2 ^ (w - 1)).
  { rewrite <- Z.pow_succ_r by lia. f_equal. lia. }
  rewrite Z.mod_small by lia. lia.
Qed.

Lemma to_signed_idem (w n : Z) : 0 < w -> to_signed w (to_signed w n) = to_signed w n.
Proof. intros Hw. apply to_signed_small; [exact Hw | now apply to_signed_range]. Qed.

Lemma to_unsigned_idem (w n : Z) :
  0 <= w -> to_unsigned w (to_unsigned w n) = to_unsigned w n.
Proof. intros Hw. apply to_unsigned_small. now apply to_unsigned_range. Qed.

(** Reading a pattern as a signed integer is the cast to the signed type. *)
Lemma twos_complement_signed (w n : Z) :
  0 < w -> twos_complement w (to_unsigned w n) = to_signed w n.
Proof.
  intros Hw. unfold twos_complement.
  pose proof (to_unsigned_range w n ltac:(lia)) as Hu.
  rewrite <- (to_signed_unsigned w n Hw).
  set (u := to_unsigned w n) in *.
  assert (Hpow : 2 ^ w = 2 * 2 ^ (w - 1)).
  { rewrite <- Z.pow_succ_r by lia. f_equal. lia. }
  assert (Hpos : 0 < 2 ^ (w - 1)) by (apply Z.pow_pos_nonneg; lia).
  unfold to_signed.
  destruct (Z.testbit u (w - 1)) eqn:Ebit.
  - apply Z.testbit_true in Ebit; [|lia].
    assert (Hge : 2 ^ (w - 1) <= u).
    { destruct (Z_lt_ge_dec u (2 ^ (w - 1))) as [Hlt|]; [|lia].
      rewrite Z.div_small in Ebit by lia. discriminate. }
    replace ((u + 2 ^ (w - 1)) mod 2 ^ w) with (u + 2 ^ (w - 1) - 2 ^ w); [lia|].
    apply Z.mod_unique with (q := 1); lia.
  - assert (Hlt : u < 2 ^ (w - 1)).
    { destruct (Z_lt_ge_dec u (2 ^ (w - 1))) as [|Hge]; [assumption|].
      assert (Hone : u / 2 ^ (w - 1) = 1).
      { symmetry. apply Z.div_unique with (r := u - 2 ^ (w - 1)); lia. }
      assert (Htrue : Z.testbit u (w - 1) = true).
      { apply Z.testbit_true; [lia|]. rewrite Hone. reflexivity. }
      congruence. }
    rewrite Z.mod_small by lia. lia.
Qed.

Lemma ieee_encode_binary32_range (x : spec_float) : 0 <= ieee_encode 24 128 x < 2 ^ 32.
Proof.
  destruct x as [s | s | | s m e].
  - destruct s; vm_compute; split; congruence.
  - destruct s; vm_compute; split; congruence.
  - vm_compute; split; congruence.
  - unfold ieee_encode. apply Z.mod_pos_bound. reflexivity.
Qed.

Lemma double_to_float_range (d : double) : 0 <= double_to_float d < 2 ^ 32.
Proof.
  unfold double_to_float.
  destruct (double_value d) eqn:Ev; try apply ieee_encode_binary32_range.
  assert (Hlow : 0 <= d mod 2 ^ 51 < 2 ^ 51) by (apply Z.mod_pos_bound; lia).
  assert (Hq : 0 <= (d mod 2 ^ 51) / 2 ^ 29 < 2 ^ 22).
  { split; [apply Z.div_pos; lia|]. apply Z.div_lt_upper_bound; lia. }
  destruct (Z.odd (d / 2 ^ 63)); lia.
Qed.

Lemma DoubleToInt32_range (d : double) : to_signed 32 (DoubleToInt32 d) = DoubleToInt32 d.
Proof.
  unfold DoubleToInt32. destruct (double_truncate d); [|reflexivity].
  apply to_signed_idem. lia.
Qed.

Lemma DoubleToUint32_range (d : double) : to_unsigned 32 (DoubleToUint32 d) = DoubleToUint32 d.
Proof.
  unfold DoubleToUint32. destruct (double_truncate d); [|reflexivity].
  apply to_unsigned_idem. lia.
Qed.

Lemma AllocateResult_narrow (T : ElementType) (x : Primitive) :
  numeric_for T x = true ->
  AllocateResult T (cast T (DataViewConvertValue T x)) = narrow T x.
Proof.
  intros Hx. unfold cast.
  destruct T; destruct x as [| | ? | d | z |]; try discriminate Hx;
    cbn [AllocateResult DataViewConvertValue narrow is_signed Number_value BigInt_cast];
    change (value_bits Int8) with 8; change (value_bits Uint8) with 8;
    change (value_bits Int16) with 16; change (value_bits Uint16) with 16;
    change (value_bits Int32) with 32; change (value_bits Uint32) with 32;
    change (value_bits Float32) with 32; change (value_bits Float64) with 64;
    change (value_bits BigInt64) with 64; change (value_bits BigUint64) with 64;
    unfold AsInt64, AsUint64;
    rewrite ?low_bits_unsigned, ?twos_complement_signed by lia;
    rewrite ?to_signed_idem, ?to_unsigned_idem by lia;
    rewrite ?DoubleToInt32_range, ?DoubleToUint32_range;
    try reflexivity.
  - (* Float32 *)
    rewrite to_unsigned_small; [reflexivity|]. apply double_to_float_range.
  - (* Float64 *)
    cbn in Hx. unfold is_double in Hx. apply andb_true_iff in Hx.
    rewrite to_unsigned_small; [reflexivity | lia].
Qed.

(** ** The builtins called from script *)

Lemma DataViewPrototypeGet_call (cfg : Target) (T : ElementType) (v : JSDataView.t)
    (arguments : list Object) :
  DataViewPrototypeGet cfg T (Call (DataViewObject v) arguments)
  = GetViewValue cfg T v (default (Prim Undefined) (arguments !! 0%nat))
      (BooleanValue (default (Prim Undefined) (arguments !! 1%nat)))
      (String.append "DataView.prototype.get" (TypeName T)).
Proof. reflexivity. Qed.

Lemma DataViewPrototypeSet_call (cfg : Target) (T : ElementType) (v : JSDataView.t)
    (arguments : list Object) :
  DataViewPrototypeSet cfg T (Call (DataViewObject v) arguments)
  = SetViewValue cfg T v (default (Prim Undefined) (arguments !! 0%nat))
      (BooleanValue (default (Prim Undefined) (arguments !! 2%nat)))
      (default (Prim Undefined) (arguments !! 1%nat))
      (String.append "DataView.prototype.get" (TypeName T)).
Proof. reflexivity. Qed.

Lemma DataViewConvertInput_numeric (T : ElementType) (x : Primitive) (iso : Isolate) :
  numeric_for T x = true ->
  DataViewConvertInput T x iso = (Normal (Prim x), iso).
Proof.
  intros Hx. destruct T; destruct x; try discriminate Hx; reflexivity.
Qed.

(** C3: for every element type, a write of a converted value [x] at an
    in-bounds index of a view over an attached buffer, followed by a read at
    the same index with the same order flag, returns [narrow T x].  The index
    is any argument whose conversion gives [i] and runs no code. *)
Theorem set_then_get_returns_narrowed
    (cfg : Target) (T : ElementType) (v : JSDataView.t) (le : bool)
    (iso : Isolate) (b : JSArrayBuffer.t) (index : Object) (i : Z) (x : Primitive) :
  (forall s, ToIndex index kInvalidDataViewAccessorOffset s = (Normal i, s)) ->
  numeric_for T x = true ->
  array_buffers iso !! JSDataView.buffer v = Some b ->
  JSArrayBuffer.was_neutered b = false ->
  view_in_buffer cfg v b ->
  i + Z.of_nat (sizeof T) <= JSDataView.byte_length v ->
  exists iso',
    DataViewPrototypeSet cfg T
      (Call (DataViewObject v) [index; Prim x; Prim (Boolean le)]) iso
    = (Normal (Prim Undefined), iso') /\
    DataViewPrototypeGet cfg T
      (Call (DataViewObject v) [index; Prim (Boolean le)]) iso'
    = (Normal (narrow T x), iso').
Proof.
  intros Hidx Hx Hbuffer Hattached Hview Hbounds.
  rewrite DataViewPrototypeSet_call.
  cbn [lookup list_lookup from_option id BooleanValue].
  pose proof (DataViewConvertInput_numeric T x iso Hx) as Hval.
  exists (after_set cfg T v le iso i (Prim x) b). split.
  - exact (set_completes cfg T v le index (Prim x) _ iso iso iso i (Prim x) b
             (Hidx iso) Hval Hbuffer Hattached Hview Hbounds).
  - rewrite DataViewPrototypeGet_call.
    cbn [lookup list_lookup from_option id BooleanValue].
    rewrite (get_after_set cfg T v le index iso iso iso i (Prim x) b
               (Hidx iso) Hbuffer Hattached Hview Hbounds index _ _ (Hidx _)).
    now rewrite AllocateResult_narrow.
Qed.

(** An Int16 written and read back in little-endian order at the last index
    in bounds, on a big-endian target. *)
Lemma set_then_get_returns_narrowed_witness :
  exists iso',
    DataViewPrototypeSet ppc Int16
      (Call (DataViewObject whole_view)
         [Prim (Number (int_to_double 6)); Prim (Number (int_to_double (-2)));
          Prim (Boolean true)]) example_isolate
    = (Normal (Prim Undefined), iso') /\
    DataViewPrototypeGet ppc Int16
      (Call (DataViewObject whole_view)
         [Prim (Number (int_to_double 6)); Prim (Boolean true)]) iso'
    = (Normal (narrow Int16 (Number (int_to_double (-2)))), iso').
Proof.
  apply (set_then_get_returns_narrowed ppc Int16 whole_view true example_isolate
           zeroes8 (Number (int_to_double 6)) 6 (Number (int_to_double (-2))));
    concrete.
Defined.

(** C9: on a view over an attached buffer with at least 8 bytes in bounds,
    [setBigInt64(0, -1n)] followed by [getBigUint64(0, false)] returns
    2^64 - 1, a BigInt and not a Number; read back with [getBigInt64] the
    same bytes give -1. *)
Theorem set_int64_minus_one_get_uint64
    (cfg : Target) (v : JSDataView.t) (iso : Isolate) (b : JSArrayBuffer.t) :
  array_buffers iso !! JSDataView.buffer v = Some b ->
  JSArrayBuffer.was_neutered b = false ->
  view_in_buffer cfg v b ->
  8 <= JSDataView.byte_length v ->
  exists iso',
    DataViewPrototypeSet cfg BigInt64
      (Call (DataViewObject v) [Prim (Number (int_to_double 0)); Prim (BigInt (-1))]) iso
    = (Normal (Prim Undefined), iso') /\
    DataViewPrototypeGet cfg BigUint64
      (Call (DataViewObject v) [Prim (Number (int_to_double 0)); Prim (Boolean false)]) iso'
    = (Normal (Prim (BigInt (2 ^ 64 - 1))), iso') /\
    DataViewPrototypeGet cfg BigInt64
      (Call (DataViewObject v) [Prim (Number (int_to_double 0)); Prim (Boolean false)]) iso'
    = (Normal (Prim (BigInt (-1))), iso').
Proof.
  intros Hbuffer Hattached Hview Hlen.
  rewrite DataViewPrototypeSet_call.
  cbn [lookup list_lookup default BooleanValue].
  assert (Hidx : forall s, ToIndex (Number (int_to_double 0))
                    kInvalidDataViewAccessorOffset s = (Normal 0, s)).
  { intros s. apply ToIndex_Number; [reflexivity | unfold kMaxSafeInteger; lia]. }
  assert (Hval : DataViewConvertInput BigInt64 (BigInt (-1)) iso
                 = (Normal (Prim (BigInt (-1))), iso)) by reflexivity.
  assert (Hbounds : 0 + Z.of_nat (sizeof BigInt64) <= JSDataView.byte_length v)
    by (cbn; lia).
  eexists. split; [|split].
  - eapply set_completes; try eassumption. apply Hidx.
  - rewrite DataViewPrototypeGet_call.
    cbn [lookup list_lookup default BooleanValue].
    rewrite (get_after_set_as cfg BigInt64 v false (Number (int_to_double 0))
               iso iso iso 0 (BigInt (-1)) b (Hidx iso) Hbuffer Hattached Hview
               Hbounds BigUint64 _ _ _ eq_refl (Hidx _)).
    reflexivity.
  - rewrite DataViewPrototypeGet_call.
    cbn [lookup list_lookup default BooleanValue].
    rewrite (get_after_set_as cfg BigInt64 v false (Number (int_to_double 0))
               iso iso iso 0 (BigInt (-1)) b (Hidx iso) Hbuffer Hattached Hview
               Hbounds BigInt64 _ _ _ eq_refl (Hidx _)).
    reflexivity.
Qed.

Lemma set_int64_minus_one_get_uint64_witness :
  exists iso',
    DataViewPrototypeSet x64 BigInt64
      (Call (DataViewObject whole_view)
         [Prim (Number (int_to_double 0)); Prim (BigInt (-1))]) example_isolate
    = (Normal (Prim Undefined), iso') /\
    DataViewPrototypeGet x64 BigUint64
      (Call (DataViewObject whole_view)
         [Prim (Number (int_to_double 0)); Prim (Boolean false)]) iso'
    = (Normal (Prim (BigInt (2 ^ 64 - 1))), iso') /\
    DataViewPrototypeGet x64 BigInt64
      (Call (DataViewObject whole_view)
         [Prim (Number (int_to_double 0)); Prim (Boolean false)]) iso'
    = (Normal (Prim (BigInt (-1))), iso').
Proof.
  apply (set_int64_minus_one_get_uint64 x64 whole_view example_isolate zeroes8); concrete.
Defined.

(** ** The bounds check *)

(** An access that stays inside the view does not end in a RangeError. *)
Lemma GetViewValue_within_view (cfg : Target) (T : ElementType) (v : JSDataView.t)
    (request_index : Object) (le : bool) (method : string) (iso iso1 : Isolate)
    (i : Z) (b : JSArrayBuffer.t) :
  ToIndex request_index kInvalidDataViewAccessorOffset iso = (Normal i, iso1) ->
  array_buffers iso1 !! JSDataView.buffer v = Some b ->
  JSArrayBuffer.was_neutered b = false ->
  view_fields_fit cfg v ->
  i + Z.of_nat (sizeof T) <= JSDataView.byte_length v ->
  is_RangeError (fst (GetViewValue cfg T v request_index le method iso)) = false.
Proof.
  intros Hindex Hbuffer Hattached [Hoff Hlen] Hok.
  pose proof (ToIndex_range _ _ _ _ _ Hindex) as Hi.
  pose proof (sizeof_bounds T) as Hn.
  unfold GetViewValue, bind. rewrite Hindex.
  assert (E : TryNumberToSize cfg i = Some i) by (apply TryNumberToSize_Some; lia).
  rewrite E. unfold load_buffer. rewrite Hbuffer, Hattached.
  rewrite !NumberToSize_fits by assumption. unfold ret at 1 2.
  destruct ((size_add cfg i (Z.of_nat (sizeof T)) >? JSDataView.byte_length v)
            || (size_add cfg i (Z.of_nat (sizeof T)) <? i)) eqn:Etest.
  { apply bounds_test_spec in Etest; [lia | lia | lia | exact Hn]. }
  cbv [NumberToSize DCHECK check_access ret fatal]. case_conditions; reflexivity.
Qed.

Lemma SetViewValue_within_view (cfg : Target) (T : ElementType) (v : JSDataView.t)
    (request_index : Object) (le : bool) (value : Object) (method : string)
    (iso iso1 iso2 : Isolate) (i : Z) (x : Object) (b : JSArrayBuffer.t) :
  ToIndex request_index kInvalidDataViewAccessorOffset iso = (Normal i, iso1) ->
  DataViewConvertInput T value iso1 = (Normal x, iso2) ->
  array_buffers iso2 !! JSDataView.buffer v = Some b ->
  JSArrayBuffer.was_neutered b = false ->
  view_fields_fit cfg v ->
  i + Z.of_nat (sizeof T) <= JSDataView.byte_length v ->
  is_RangeError (fst (SetViewValue cfg T v request_index le value method iso)) = false.
Proof.
  intros Hindex Hvalue Hbuffer Hattached [Hoff Hlen] Hok.
  pose proof (ToIndex_range _ _ _ _ _ Hindex) as Hi.
  pose proof (sizeof_bounds T) as Hn.
  unfold SetViewValue, bind. rewrite Hindex, Hvalue.
  assert (E : TryNumberToSize cfg i = Some i) by (apply TryNumberToSize_Some; lia).
  rewrite E. unfold load_buffer. rewrite Hbuffer, Hattached.
  rewrite !NumberToSize_fits by assumption. unfold ret at 1 2.
  destruct ((size_add cfg i (Z.of_nat (sizeof T)) >? JSDataView.byte_length v)
            || (size_add cfg i (Z.of_nat (sizeof T)) <? i)) eqn:Etest.
  { apply bounds_test_spec in Etest; [lia | lia | lia | exact Hn]. }
  cbv [NumberToSize DCHECK check_access ret fatal].
  case_conditions; try reflexivity;
    cbv [store_backing_store]; rewrite Hbuffer; reflexivity.
Qed.

Lemma GetViewValue_RangeError_iff (cfg : Target) (T : ElementType) (v : JSDataView.t)
    (request_index : Object) (le : bool) (method : string) (iso iso1 : Isolate)
    (i : Z) (b : JSArrayBuffer.t) :
  ToIndex request_index kInvalidDataViewAccessorOffset iso = (Normal i, iso1) ->
  array_buffers iso1 !! JSDataView.buffer v = Some b ->
  JSArrayBuffer.was_neutered b = false ->
  view_fields_fit cfg v ->
  is_RangeError (fst (GetViewValue cfg T v request_index le method iso)) = true
  <-> leaves_view cfg T v i.
Proof.
  intros Hindex Hbuffer Hattached Hfit. unfold leaves_view.
  pose proof (sizeof_bounds T) as Hn. pose proof Hfit as [Hoff Hlen].
  destruct (Z_lt_ge_dec (kMaxSize cfg) i) as [Hbig | Hsmall].
  - rewrite (GetViewValue_size_overflow cfg T v _ le method _ _ _ Hindex Hbig).
    cbn. split; [lia | reflexivity].
  - destruct (Z_lt_ge_dec (JSDataView.byte_length v) (i + Z.of_nat (sizeof T)))
      as [Hout | Hin].
    + rewrite (GetViewValue_out_of_bounds cfg T v _ le method _ _ _ Hindex b)
        by (assumption || lia).
      cbn. split; [lia | reflexivity].
    + rewrite (GetViewValue_within_view cfg T v _ le method _ _ _ b Hindex)
        by (assumption || lia).
      split; [discriminate | lia].
Qed.

Lemma SetViewValue_RangeError_iff (cfg : Target) (T : ElementType) (v : JSDataView.t)
    (request_index : Object) (le : bool) (value : Object) (method : string)
    (iso iso1 iso2 : Isolate) (i : Z) (x : Object) (b : JSArrayBuffer.t) :
  ToIndex request_index kInvalidDataViewAccessorOffset iso = (Normal i, iso1) ->
  DataViewConvertInput T value iso1 = (Normal x, iso2) ->
  array_buffers iso2 !! JSDataView.buffer v = Some b ->
  JSArrayBuffer.was_neutered b = false ->
  view_fields_fit cfg v ->
  is_RangeError (fst (SetViewValue cfg T v request_index le value method iso)) = true
  <-> leaves_view cfg T v i.
Proof.
  intros Hindex Hvalue Hbuffer Hattached Hfit. unfold leaves_view.
  pose proof (sizeof_bounds T) as Hn. pose proof Hfit as [Hoff Hlen].
  destruct (Z_lt_ge_dec (kMaxSize cfg) i) as [Hbig | Hsmall].
  - rewrite (SetViewValue_size_overflow cfg T v _ le value method _ _ _ Hindex _ _ Hvalue Hbig).
    cbn. split; [lia | reflexivity].
  - destruct (Z_lt_ge_dec (JSDataView.byte_length v) (i + Z.of_nat (sizeof T)))
      as [Hout | Hin].
    + rewrite (SetViewValue_out_of_bounds cfg T v _ le value method _ _ _ Hindex _ _ Hvalue b)
        by (assumption || lia).
      cbn. split; [lia | reflexivity].
    + rewrite (SetViewValue_within_view cfg T v _ le value method _ _ _ _ _ b Hindex Hvalue)
        by (assumption || lia).
      split; [discriminate | lia].
Qed.

(** C1 (amended): for a view whose buffer is attached when the access reaches
    the check -- and, for a write, once the value has been converted -- an
    access of type [T] at the converted index [i] raises a RangeError exactly
    when [i + sizeof(T)] exceeds the recorded length of the view or overflows
    [size_t].  For a view of length [L] the access at [L - sizeof(T)]
    completes, the access at [L - sizeof(T) + 1] raises a RangeError, and so
    does every access whose sum overflows. *)
Theorem access_raises_RangeError_iff
    (cfg : Target) (T : ElementType) (v : JSDataView.t) (request_index : Object)
    (le : bool) (value : Object) (method : string) (iso iso1 iso2 : Isolate)
    (i : Z) (x : Object) (b1 b2 : JSArrayBuffer.t) :
  ToIndex request_index kInvalidDataViewAccessorOffset iso = (Normal i, iso1) ->
  DataViewConvertInput T value iso1 = (Normal x, iso2) ->
  array_buffers iso1 !! JSDataView.buffer v = Some b1 ->
  JSArrayBuffer.was_neutered b1 = false ->
  array_buffers iso2 !! JSDataView.buffer v = Some b2 ->
  JSArrayBuffer.was_neutered b2 = false ->
  view_fields_fit cfg v ->
  let read := fst (GetViewValue cfg T v request_index le method iso) in
  let write := fst (SetViewValue cfg T v request_index le value method iso) in
  let L := JSDataView.byte_length v in
  let n := Z.of_nat (sizeof T) in
  (is_RangeError read = true <-> leaves_view cfg T v i) /\
  (is_RangeError write = true <-> leaves_view cfg T v i) /\
  (i = L - n -> view_in_buffer cfg v b1 -> is_Normal read = true) /\
  (i = L - n -> view_in_buffer cfg v b2 -> is_Normal write = true) /\
  (i = L - n + 1 -> is_RangeError read = true /\ is_RangeError write = true) /\
  (kMaxSize cfg < i + n -> is_RangeError read = true /\ is_RangeError write = true).
Proof.
  intros Hindex Hvalue Hb1 Ha1 Hb2 Ha2 Hfit read write L n.
  pose proof (GetViewValue_RangeError_iff cfg T v request_index le method
                iso iso1 i b1 Hindex Hb1 Ha1 Hfit) as Hread.
  pose proof (SetViewValue_RangeError_iff cfg T v request_index le value method
                iso iso1 iso2 i x b2 Hindex Hvalue Hb2 Ha2 Hfit) as Hwrite.
  fold read in Hread. fold write in Hwrite.
  split; [exact Hread|]. split; [exact Hwrite|].
  split; [|split; [|split]].
  - intros Hi Hin. subst read.
    rewrite (GetViewValue_in_bounds cfg T v request_index le method iso iso1 i
               Hindex b1 Hb1 Ha1 Hin); [reflexivity | subst L n; lia].
  - intros Hi Hin. subst write.
    rewrite (SetViewValue_in_bounds cfg T v request_index le value method iso iso1 i
               Hindex x iso2 Hvalue b2 Hb2 Ha2 Hin); [reflexivity | subst L n; lia].
  - intros Hi. split; [apply Hread | apply Hwrite]; left; subst L n; lia.
  - intros Hi. split; [apply Hread | apply Hwrite]; right; subst n; lia.
Qed.

(** On a target with a 32-bit [size_t], an Int16 access at index 2^32 - 1 of
    a view of 8 bytes makes the sum wrap around to 1; it raises the
    RangeError. *)
Lemma access_raises_RangeError_iff_witness :
  size_add ppc (2 ^ 32 - 1) (Z.of_nat (sizeof Int16)) = 1 /\
  is_RangeError
    (fst (GetViewValue ppc Int16 whole_view (Number (int_to_double (2 ^ 32 - 1))) false
            "DataView.prototype.getInt16" example_isolate)) = true /\
  is_RangeError
    (fst (SetViewValue ppc Int16 whole_view (Number (int_to_double (2 ^ 32 - 1))) false
            (Number (int_to_double 5)) "DataView.prototype.getInt16" example_isolate))
  = true.
Proof.
  split; [reflexivity|].
  refine (proj2 (proj2 (proj2 (proj2 (proj2
            (access_raises_RangeError_iff ppc Int16 whole_view
               (Number (int_to_double (2 ^ 32 - 1))) false (Number (int_to_double 5))
               "DataView.prototype.getInt16" example_isolate example_isolate
               example_isolate (2 ^ 32 - 1) (Number (int_to_double 5)) zeroes8 zeroes8
               _ _ _ _ _ _ _))))) _); concrete.
Defined.

(** C1 as stated does not hold for a view whose buffer is detached, nor for a
    write whose value cannot be converted.  [stale_view] has length 8 and its
    buffer is detached: reading an Int8 at the converted index 8, one past the
    last index in bounds, raises the TypeError of the detachment check and no
    RangeError, and reading at index 7 = 8 - sizeof(Int8) does not complete.
    On the attached buffer of [whole_view], writing a Symbol at index 8 raises
    the TypeError of the value conversion. *)
Lemma detached_or_unconverted_access_is_TypeError :
  let read8 := fst (DataViewPrototypeGet x64 Int8
                      (Call (DataViewObject stale_view) [Prim (Number (int_to_double 8))])
                      example_isolate) in
  let read7 := fst (DataViewPrototypeGet x64 Int8
                      (Call (DataViewObject stale_view) [Prim (Number (int_to_double 7))])
                      example_isolate) in
  let write8 := fst (DataViewPrototypeSet x64 Int8
                       (Call (DataViewObject whole_view)
                          [Prim (Number (int_to_double 8)); Prim Symbol])
                       example_isolate) in
  ToIndex (Number (int_to_double 8)) kInvalidDataViewAccessorOffset example_isolate
    = (Normal 8, example_isolate) /\
  JSDataView.byte_length stale_view < 8 + Z.of_nat (sizeof Int8) /\
  read8 = Throw (NewTypeError kDetachedOperation (Some "DataView.prototype.getInt8")) /\
  is_RangeError read8 = false /\
  read7 = Throw (NewTypeError kDetachedOperation (Some "DataView.prototype.getInt8")) /\
  is_Normal read7 = false /\
  JSDataView.byte_length whole_view < 8 + Z.of_nat (sizeof Int8) /\
  write8 = Throw (NewTypeError kSymbolToNumber None) /\
  is_RangeError write8 = false.
Proof. cbv zeta. repeat split; try reflexivity; cbn; lia. Qed.

(** ** Detached buffers *)

Lemma getters_ignore_isolate (v : JSDataView.t) (arguments : list Object) (iso : Isolate) :
  DataViewPrototypeGetByteLength (Call (DataViewObject v) arguments) iso
    = (Normal (Prim (Number (int_to_double (JSDataView.byte_length v)))), iso) /\
  DataViewPrototypeGetByteOffset (Call (DataViewObject v) arguments) iso
    = (Normal (Prim (Number (int_to_double (JSDataView.byte_offset v)))), iso) /\
  DataViewPrototypeGetBuffer (Call (DataViewObject v) arguments) iso
    = (Normal (ArrayBufferObject (JSDataView.buffer v)), iso).
Proof. repeat split. Qed.

(** A read that completes, repeated after the buffer has been detached,
    raises the TypeError of the detachment check: the flag is read anew. *)
Lemma read_after_detach (cfg : Target) (T : ElementType) (v : JSDataView.t)
    (p : Primitive) (le : bool) (method : string) (s : Isolate) :
  is_Normal (fst (GetViewValue cfg T v (Prim p) le method s)) = true ->
  GetViewValue cfg T v (Prim p) le method (snd (Detach (JSDataView.buffer v) s))
  = (Throw (NewTypeError kDetachedOperation (Some method)),
     snd (Detach (JSDataView.buffer v) s)).
Proof.
  intros Hok. unfold GetViewValue, bind in Hok. rewrite ToIndex_Prim in Hok.
  destruct (fst (ToIndex p kInvalidDataViewAccessorOffset {| array_buffers := [] |}))
    as [i | e |] eqn:Ei; try discriminate Hok.
  destruct (TryNumberToSize cfg i) as [get_index|] eqn:Es; try discriminate Hok.
  apply TryNumberToSize_Some in Es as [-> Hfit].
  unfold load_buffer in Hok.
  destruct (array_buffers s !! JSDataView.buffer v) as [b|] eqn:Eb; try discriminate Hok.
  apply GetViewValue_detached with (i := i) (b := JSArrayBuffer.Neuter b).
  - rewrite ToIndex_Prim, Ei. reflexivity.
  - unfold Detach. cbn [snd array_buffers].
    rewrite list_lookup_alter_eq, Eb. reflexivity.
  - lia.
  - reflexivity.
Qed.

(** C2 (amended): when the buffer of the view is detached at the time the call
    checks it, every accessor call whose index conversion (and, for a write,
    value conversion) has completed with an index that fits [size_t] raises a
    TypeError.  The flag is read from the isolate the conversions leave
    behind, on every call: a read that has completed raises the TypeError when
    it is repeated after the buffer was detached.  The byteLength and
    byteOffset getters return the recorded fields whatever the state of the
    buffer. *)
Theorem detached_buffer_raises_TypeError
    (cfg : Target) (T : ElementType) (v : JSDataView.t) (index value little_endian : Object)
    (iso iso1 iso2 : Isolate) (i : Z) (x : Object) (b1 b2 : JSArrayBuffer.t) :
  ToIndex index kInvalidDataViewAccessorOffset iso = (Normal i, iso1) ->
  i <= kMaxSize cfg ->
  DataViewConvertInput T value iso1 = (Normal x, iso2) ->
  array_buffers iso1 !! JSDataView.buffer v = Some b1 ->
  JSArrayBuffer.was_neutered b1 = true ->
  array_buffers iso2 !! JSDataView.buffer v = Some b2 ->
  JSArrayBuffer.was_neutered b2 = true ->
  let get := DataViewPrototypeGet cfg T (Call (DataViewObject v) [index; little_endian]) iso in
  let set := DataViewPrototypeSet cfg T
               (Call (DataViewObject v) [index; value; little_endian]) iso in
  get = (Throw (NewTypeError kDetachedOperation
                  (Some (String.append "DataView.prototype.get" (TypeName T)))), iso1) /\
  is_TypeError (fst get) = true /\
  set = (Throw (NewTypeError kDetachedOperation
                  (Some (String.append "DataView.prototype.get" (TypeName T)))), iso2) /\
  is_TypeError (fst set) = true /\
  (forall (p : Primitive) (s : Isolate),
     is_Normal (fst (DataViewPrototypeGet cfg T
                       (Call (DataViewObject v) [Prim p; little_endian]) s)) = true ->
     is_TypeError (fst (DataViewPrototypeGet cfg T
                          (Call (DataViewObject v) [Prim p; little_endian])
                          (snd (Detach (JSDataView.buffer v) s)))) = true) /\
  (forall s : Isolate,
     DataViewPrototypeGetByteLength (Call (DataViewObject v) []) s
       = (Normal (Prim (Number (int_to_double (JSDataView.byte_length v)))), s) /\
     DataViewPrototypeGetByteOffset (Call (DataViewObject v) []) s
       = (Normal (Prim (Number (int_to_double (JSDataView.byte_offset v)))), s)).
Proof.
  intros Hindex Hfit Hvalue Hb1 Hd1 Hb2 Hd2 get set. subst get set.
  rewrite DataViewPrototypeGet_call, DataViewPrototypeSet_call.
  cbn [lookup list_lookup from_option id].
  rewrite (GetViewValue_detached cfg T v index _ _ iso iso1 i Hindex b1 Hb1 Hfit Hd1).
  rewrite (SetViewValue_detached cfg T v index _ value _ iso iso1 i Hindex x iso2
             Hvalue b2 Hb2 Hfit Hd2).
  do 4 (split; [reflexivity|]). split.
  - intros p s Hok. rewrite DataViewPrototypeGet_call in *.
    cbn [lookup list_lookup from_option id] in *.
    now rewrite (read_after_detach _ _ _ _ _ _ _ Hok).
  - intros s. split; apply getters_ignore_isolate.
Qed.

Lemma detached_buffer_raises_TypeError_witness :
  let index : Object := Number (int_to_double 0) in
  let value : Object := Number (int_to_double 1) in
  let get := DataViewPrototypeGet x64 Uint8 (Call (DataViewObject stale_view) [index; Prim Undefined])
               example_isolate in
  let set := DataViewPrototypeSet x64 Uint8
               (Call (DataViewObject stale_view) [index; value; Prim Undefined])
               example_isolate in
  get = (Throw (NewTypeError kDetachedOperation
                  (Some (String.append "DataView.prototype.get" (TypeName Uint8)))),
         example_isolate) /\
  is_TypeError (fst get) = true /\
  set = (Throw (NewTypeError kDetachedOperation
                  (Some (String.append "DataView.prototype.get" (TypeName Uint8)))),
         example_isolate) /\
  is_TypeError (fst set) = true /\
  (forall (p : Primitive) (s : Isolate),
     is_Normal (fst (DataViewPrototypeGet x64 Uint8
                       (Call (DataViewObject stale_view) [Prim p; Prim Undefined]) s)) = true ->
     is_TypeError (fst (DataViewPrototypeGet x64 Uint8
                          (Call (DataViewObject stale_view) [Prim p; Prim Undefined])
                          (snd (Detach (JSDataView.buffer stale_view) s)))) = true) /\
  (forall s : Isolate,
     DataViewPrototypeGetByteLength (Call (DataViewObject stale_view) []) s
       = (Normal (Prim (Number (int_to_double 8))), s) /\
     DataViewPrototypeGetByteOffset (Call (DataViewObject stale_view) []) s
       = (Normal (Prim (Number (int_to_double 0))), s)).
Proof.
  apply (detached_buffer_raises_TypeError x64 Uint8 stale_view
           (Number (int_to_double 0)) (Number (int_to_double 1)) (Prim Undefined)
           example_isolate example_isolate example_isolate 0
           (Number (int_to_double 1)) (JSArrayBuffer.Neuter zeroes8)
           (JSArrayBuffer.Neuter zeroes8)); concrete.
Defined.

(** C2 as stated does not hold for every call: the index is converted, and
    tested against [size_t], before the buffer is looked at.  On the detached
    buffer of [stale_view], a read or a write at index -1 raises the
    RangeError of the index conversion, and on a 32-bit target a read at index
    2^32 raises the RangeError of the conversion to [size_t]; none of them is
    a TypeError. *)
Lemma detached_buffer_index_RangeError :
  let read := fst (DataViewPrototypeGet x64 Int8
                     (Call (DataViewObject stale_view) [Prim (Number (int_to_double (-1)))])
                     example_isolate) in
  let write := fst (DataViewPrototypeSet x64 Int8
                      (Call (DataViewObject stale_view)
                         [Prim (Number (int_to_double (-1))); Prim (Number (int_to_double 1))])
                      example_isolate) in
  let read32 := fst (DataViewPrototypeGet ppc Int8
                       (Call (DataViewObject stale_view)
                          [Prim (Number (int_to_double (2 ^ 32)))])
                       example_isolate) in
  array_buffers example_isolate !! JSDataView.buffer stale_view
    = Some (JSArrayBuffer.Neuter zeroes8) /\
  JSArrayBuffer.was_neutered (JSArrayBuffer.Neuter zeroes8) = true /\
  read = Throw (NewRangeError kInvalidDataViewAccessorOffset (Some (-1))) /\
  is_TypeError read = false /\
  write = Throw (NewRangeError kInvalidDataViewAccessorOffset (Some (-1))) /\
  is_TypeError write = false /\
  read32 = Throw (NewRangeError kInvalidDataViewAccessorOffset None) /\
  is_TypeError read32 = false.
Proof. cbv zeta. repeat split. Qed.

(** C10: when a setter raises the TypeError of the detachment check, the
    operation it names is the getter, "DataView.prototype.get<Type>": that is
    the method string every setter passes to [SetViewValue], and it is not the
    name of the setter. *)
Theorem setter_reports_getter_name
    (cfg : Target) (T : ElementType) (v : JSDataView.t) (arguments : list Object)
    (iso iso1 iso2 : Isolate) (i : Z) (x : Object) (b : JSArrayBuffer.t) :
  ToIndex (default (Prim Undefined) (arguments !! 0%nat))
    kInvalidDataViewAccessorOffset iso = (Normal i, iso1) ->
  i <= kMaxSize cfg ->
  DataViewConvertInput T (default (Prim Undefined) (arguments !! 1%nat)) iso1
    = (Normal x, iso2) ->
  array_buffers iso2 !! JSDataView.buffer v = Some b ->
  JSArrayBuffer.was_neutered b = true ->
  DataViewPrototypeSet cfg T (Call (DataViewObject v) arguments)
    = SetViewValue cfg T v (default (Prim Undefined) (arguments !! 0%nat))
        (BooleanValue (default (Prim Undefined) (arguments !! 2%nat)))
        (default (Prim Undefined) (arguments !! 1%nat))
        (String.append "DataView.prototype.get" (TypeName T)) /\
  fst (DataViewPrototypeSet cfg T (Call (DataViewObject v) arguments) iso)
    = Throw (NewTypeError kDetachedOperation
               (Some (String.append "DataView.prototype.get" (TypeName T)))) /\
  String.append "DataView.prototype.get" (TypeName T)
    <> String.append "DataView.prototype.set" (TypeName T).
Proof.
  intros Hindex Hfit Hvalue Hb Hd. split; [reflexivity|]. split.
  - rewrite DataViewPrototypeSet_call.
    now rewrite (SetViewValue_detached cfg T v _ _ _ _ iso iso1 i Hindex x iso2
                   Hvalue b Hb Hfit Hd).
  - destruct T; discriminate.
Qed.

Lemma setter_reports_getter_name_witness :
  let arguments : list Object :=
    [Prim (Number (int_to_double 0)); Prim (Number (int_to_double 1))] in
  DataViewPrototypeSet x64 Uint16 (Call (DataViewObject stale_view) arguments)
    = SetViewValue x64 Uint16 stale_view (default (Prim Undefined) (arguments !! 0%nat))
        (BooleanValue (default (Prim Undefined) (arguments !! 2%nat)))
        (default (Prim Undefined) (arguments !! 1%nat))
        (String.append "DataView.prototype.get" (TypeName Uint16)) /\
  fst (DataViewPrototypeSet x64 Uint16 (Call (DataViewObject stale_view) arguments)
         example_isolate)
    = Throw (NewTypeError kDetachedOperation
               (Some (String.append "DataView.prototype.get" (TypeName Uint16)))) /\
  String.append "DataView.prototype.get" (TypeName Uint16)
    <> String.append "DataView.prototype.set" (TypeName Uint16).
Proof.
  apply (setter_reports_getter_name x64 Uint16 stale_view
           [Prim (Number (int_to_double 0)); Prim (Number (int_to_double 1))]
           example_isolate example_isolate example_isolate 0
           (Number (int_to_double 1)) (JSArrayBuffer.Neuter zeroes8)); concrete.
Defined.

(** ** Order of the conversions and the checks in a write *)

Lemma SetViewValue_leaves_view (cfg : Target) (T : ElementType) (v : JSDataView.t)
    (request_index : Object) (le : bool) (value : Object) (method : string)
    (iso iso1 iso2 : Isolate) (i : Z) (x : Object) (b : JSArrayBuffer.t) :
  ToIndex request_index kInvalidDataViewAccessorOffset iso = (Normal i, iso1) ->
  DataViewConvertInput T value iso1 = (Normal x, iso2) ->
  array_buffers iso2 !! JSDataView.buffer v = Some b ->
  JSArrayBuffer.was_neutered b = false ->
  view_fields_fit cfg v ->
  leaves_view cfg T v i ->
  SetViewValue cfg T v request_index le value method iso
  = (Throw (NewRangeError kInvalidDataViewAccessorOffset None), iso2).
Proof.
  intros Hindex Hvalue Hbuffer Hattached Hfit Hleaves.
  pose proof Hfit as [Hoff Hlen]. pose proof (sizeof_bounds T) as Hn.
  destruct (Z_lt_ge_dec (kMaxSize cfg) i) as [Hbig | Hsmall].
  - now apply SetViewValue_size_overflow with (iso1 := iso1) (i := i) (x := x).
  - apply SetViewValue_out_of_bounds with (iso1 := iso1) (i := i) (x := x) (b := b);
      try assumption; [lia|]. destruct Hleaves; lia.
Qed.

(** C7: in a write the value is converted after the index and before the
    detachment and bounds checks -- by [BigInt::FromObject] for the 64-bit
    integer types, by [ToNumber] for the others.  A failing index conversion
    ends the call before the value is touched; an exception of the value
    conversion is the outcome of the call whatever the state of the buffer and
    the index; and when the detachment check or the bounds check fails
    afterwards, the call ends in the isolate the value conversion has left:
    its effects stay, and nothing was written. *)
Theorem value_converted_before_checks
    (cfg : Target) (T : ElementType) (v : JSDataView.t) (index : Object) (le : bool)
    (value : Object) (method : string) (iso : Isolate) :
  match T with
  | BigInt64 | BigUint64 =>
      DataViewConvertInput T value
        = (let* z := BigInt_FromObject value in ret (Prim (BigInt z)))
  | _ =>
      DataViewConvertInput T value
        = (let* d := ToNumber value in ret (Prim (Number d)))
  end /\
  (forall e iso1,
     ToIndex index kInvalidDataViewAccessorOffset iso = (Throw e, iso1) ->
     SetViewValue cfg T v index le value method iso = (Throw e, iso1)) /\
  (forall i iso1,
     ToIndex index kInvalidDataViewAccessorOffset iso = (Normal i, iso1) ->
     (forall e iso2,
        DataViewConvertInput T value iso1 = (Throw e, iso2) ->
        SetViewValue cfg T v index le value method iso = (Throw e, iso2)) /\
     (forall x iso2 b,
        DataViewConvertInput T value iso1 = (Normal x, iso2) ->
        array_buffers iso2 !! JSDataView.buffer v = Some b ->
        (JSArrayBuffer.was_neutered b = true -> i <= kMaxSize cfg ->
         SetViewValue cfg T v index le value method iso
         = (Throw (NewTypeError kDetachedOperation (Some method)), iso2)) /\
        (JSArrayBuffer.was_neutered b = false -> view_fields_fit cfg v ->
         leaves_view cfg T v i ->
         SetViewValue cfg T v index le value method iso
         = (Throw (NewRangeError kInvalidDataViewAccessorOffset None), iso2)))).
Proof.
  split; [destruct T; reflexivity|]. split.
  - intros e iso1 H. now apply SetViewValue_index_throws.
  - intros i iso1 Hindex. split.
    + intros e iso2 H. now apply SetViewValue_value_throws with (iso1 := iso1) (i := i).
    + intros x iso2 b Hvalue Hbuffer. split.
      * intros Hd Hfit.
        now apply SetViewValue_detached with (iso1 := iso1) (i := i) (x := x) (b := b).
      * intros Ha Hfit Hleaves.
        now apply SetViewValue_leaves_view with (iso1 := iso1) (i := i) (x := x) (b := b).
Qed.

(** The value of the write detaches the buffer it is written to: the call
    raises the TypeError of the detachment check, and the buffer stays
    detached. *)
Lemma value_converted_before_checks_witness :
  SetViewValue x64 Int8 whole_view (Number (int_to_double 0)) false
    (detaching_value 0 (Number (int_to_double 1))) "DataView.prototype.getInt8"
    example_isolate
  = (Throw (NewTypeError kDetachedOperation (Some "DataView.prototype.getInt8")),
     {| array_buffers := [JSArrayBuffer.Neuter zeroes8; JSArrayBuffer.Neuter zeroes8] |}).
Proof.
  refine (proj1 (proj2 (proj2 (proj2
            (value_converted_before_checks x64 Int8 whole_view (Number (int_to_double 0))
               false (detaching_value 0 (Number (int_to_double 1)))
               "DataView.prototype.getInt8" example_isolate))
            0 example_isolate _)
            (Number (int_to_double 1))
            {| array_buffers := [JSArrayBuffer.Neuter zeroes8; JSArrayBuffer.Neuter zeroes8] |}
            (JSArrayBuffer.Neuter zeroes8) _ _) _ _); concrete.
Defined.

(** ** Construction *)

(** The sum the length check compares is exact enough: rounding only happens
    from 2^53 on, above every buffer length. *)
Lemma Number_add_test (o n len : Z) :
  0 <= o -> 0 <= n -> len <= kMaxSafeInteger ->
  (Number_add o n >? len) = true <-> len < o + n.
Proof.
  unfold kMaxSafeInteger, Number_add. intros Ho Hn Hlen.
  destruct (o + n <? 2 ^ 53) eqn:Esmall.
  - split; lia.
  - apply Z.ltb_ge in Esmall.
    destruct (Z.even (o + n)) eqn:Eeven; [split; lia|].
    assert (Hodd : o + n <> 2 ^ 53).
    { intros Heq. rewrite Heq in Eeven. discriminate. }
    destruct ((o + n + 1) mod 4 =? 0); split; lia.
Qed.

Section DataViewConstructor_cases.
Variables (a : BuiltinArguments) (iso iso1 : Isolate) (address : nat)
  (b : JSArrayBuffer.t) (o : Z).
Hypothesis Hconstruct : IsUndefined (new_target a) = false.
Hypothesis Hbuffer_arg : atOrUndefined a 1 = ArrayBufferObject address.
Hypothesis Hoffset : ToIndex (atOrUndefined a 2) kInvalidOffset iso = (Normal o, iso1).
Hypothesis Hbuffer : array_buffers iso1 !! address = Some b.

Lemma DataViewConstructor_invalid_offset :
  JSArrayBuffer.byte_length b < o ->
  DataViewConstructor a iso = (Throw (NewRangeError kInvalidOffset (Some o)), iso1).
Proof.
  intros Hout. unfold DataViewConstructor. rewrite Hconstruct, Hbuffer_arg.
  unfold bind. rewrite Hoffset. unfold load_buffer. rewrite Hbuffer.
  replace (o >? JSArrayBuffer.byte_length b) with true by (symmetry; lia).
  reflexivity.
Qed.

Lemma DataViewConstructor_default_length (iso3 : Isolate) :
  o <= JSArrayBuffer.byte_length b ->
  IsUndefined (atOrUndefined a 3) = true ->
  JSObject_New (target a) (new_target a) iso1 = (Normal tt, iso3) ->
  DataViewConstructor a iso
  = (Normal (DataViewObject
       {| JSDataView.buffer := address;
          JSDataView.byte_offset := o;
          JSDataView.byte_length := JSArrayBuffer.byte_length b - o |}), iso3).
Proof.
  intros Hin Hundef Hnew. unfold DataViewConstructor. rewrite Hconstruct, Hbuffer_arg.
  unfold bind. rewrite Hoffset. unfold load_buffer. rewrite Hbuffer.
  replace (o >? JSArrayBuffer.byte_length b) with false by (symmetry; lia).
  rewrite Hundef. unfold ret at 1. rewrite Hnew. reflexivity.
Qed.

Variables (iso2 : Isolate) (n : Z).
Hypothesis Hlength_arg : IsUndefined (atOrUndefined a 3) = false.
Hypothesis Hlength :
  ToIndex (atOrUndefined a 3) kInvalidDataViewLength iso1 = (Normal n, iso2).
Hypothesis Hsafe : JSArrayBuffer.byte_length b <= kMaxSafeInteger.

Lemma DataViewConstructor_invalid_length :
  o <= JSArrayBuffer.byte_length b -> JSArrayBuffer.byte_length b < o + n ->
  DataViewConstructor a iso = (Throw (NewRangeError kInvalidDataViewLength None), iso2).
Proof.
  intros Hin Hout. unfold DataViewConstructor. rewrite Hconstruct, Hbuffer_arg.
  unfold bind. rewrite Hoffset. unfold load_buffer. rewrite Hbuffer.
  replace (o >? JSArrayBuffer.byte_length b) with false by (symmetry; lia).
  rewrite Hlength_arg, Hlength.
  pose proof (ToIndex_range _ _ _ _ _ Hoffset) as Ho.
  pose proof (ToIndex_range _ _ _ _ _ Hlength) as Hn.
  apply (Number_add_test o n) in Hout; [| lia | lia | exact Hsafe].
  rewrite Hout. reflexivity.
Qed.

Lemma DataViewConstructor_valid (iso3 : Isolate) :
  o + n <= JSArrayBuffer.byte_length b ->
  JSObject_New (target a) (new_target a) iso2 = (Normal tt, iso3) ->
  DataViewConstructor a iso
  = (Normal (DataViewObject
       {| JSDataView.buffer := address;
          JSDataView.byte_offset := o;
          JSDataView.byte_length := n |}), iso3).
Proof.
  intros Hin Hnew.
  pose proof (ToIndex_range _ _ _ _ _ Hoffset) as Ho.
  pose proof (ToIndex_range _ _ _ _ _ Hlength) as Hn.
  unfold DataViewConstructor. rewrite Hconstruct, Hbuffer_arg.
  unfold bind. rewrite Hoffset. unfold load_buffer. rewrite Hbuffer.
  replace (o >? JSArrayBuffer.byte_length b) with false by (symmetry; lia).
  rewrite Hlength_arg, Hlength.
  destruct (Number_add o n >? JSArrayBuffer.byte_length b) eqn:Etest.
  { apply Number_add_test in Etest; lia. }
  unfold ret at 1. rewrite Hnew. reflexivity.
Qed.
End DataViewConstructor_cases.

(** C4: with the offset converted to [o] and an explicitly supplied length
    converted to [n], construction over a buffer of byte length [L] succeeds
    exactly when [0 <= o <= L] and [o + n <= L]; [o > L] raises
    RangeError(kInvalidOffset), otherwise [o + n > L] raises
    RangeError(kInvalidDataViewLength); on success the view records [o] and
    [n], and the isolate is the one the conversions and the allocation have
    left.  [L] is the length read after the conversion of the offset. *)
Theorem constructor_bounds
    (a : BuiltinArguments) (iso iso1 iso2 iso3 : Isolate) (address : nat)
    (b : JSArrayBuffer.t) (o n : Z) :
  IsUndefined (new_target a) = false ->
  atOrUndefined a 1 = ArrayBufferObject address ->
  ToIndex (atOrUndefined a 2) kInvalidOffset iso = (Normal o, iso1) ->
  array_buffers iso1 !! address = Some b ->
  JSArrayBuffer.byte_length b <= kMaxSafeInteger ->
  IsUndefined (atOrUndefined a 3) = false ->
  ToIndex (atOrUndefined a 3) kInvalidDataViewLength iso1 = (Normal n, iso2) ->
  JSObject_New (target a) (new_target a) iso2 = (Normal tt, iso3) ->
  let L := JSArrayBuffer.byte_length b in
  let r := DataViewConstructor a iso in
  (is_Normal (fst r) = true <-> 0 <= o <= L /\ o + n <= L) /\
  (L < o -> r = (Throw (NewRangeError kInvalidOffset (Some o)), iso1)) /\
  (o <= L -> L < o + n -> r = (Throw (NewRangeError kInvalidDataViewLength None), iso2)) /\
  (o <= L -> o + n <= L ->
   r = (Normal (DataViewObject
          {| JSDataView.buffer := address;
             JSDataView.byte_offset := o;
             JSDataView.byte_length := n |}), iso3)).
Proof.
  intros Hconstruct Hbuffer_arg Hoffset Hbuffer Hsafe Hlength_arg Hlength Hnew L r.
  pose proof (ToIndex_range _ _ _ _ _ Hoffset) as Ho.
  pose proof (ToIndex_range _ _ _ _ _ Hlength) as Hn.
  assert (H1 : L < o -> r = (Throw (NewRangeError kInvalidOffset (Some o)), iso1)).
  { intros H. subst r. eapply DataViewConstructor_invalid_offset; eassumption. }
  assert (H2 : o <= L -> L < o + n ->
               r = (Throw (NewRangeError kInvalidDataViewLength None), iso2)).
  { intros Hin H. subst r. eapply DataViewConstructor_invalid_length; eassumption. }
  assert (H3 : o <= L -> o + n <= L ->
               r = (Normal (DataViewObject
                      {| JSDataView.buffer := address;
                         JSDataView.byte_offset := o;
                         JSDataView.byte_length := n |}), iso3)).
  { intros Hin H. subst r. eapply DataViewConstructor_valid; eassumption. }
  split; [|auto].
  destruct (Z_lt_ge_dec L o) as [Hbad | Hgood].
  - rewrite (H1 Hbad). cbn. split; [discriminate | lia].
  - destruct (Z_lt_ge_dec L (o + n)) as [Hbad | Hgood'].
    + rewrite (H2 ltac:(lia) Hbad). cbn. split; [discriminate | lia].
    + rewrite (H3 ltac:(lia) ltac:(lia)). cbn. split; [lia | reflexivity].
Qed.

(** [new DataView(buffer, 2, 6)] over the buffer of 8 bytes. *)
Lemma constructor_bounds_witness :
  DataViewConstructor
    (Construct plain_function
       [ArrayBufferObject 0; Prim (Number (int_to_double 2));
        Prim (Number (int_to_double 6))]) example_isolate
  = (Normal (DataViewObject
       {| JSDataView.buffer := 0;
          JSDataView.byte_offset := 2;
          JSDataView.byte_length := 6 |}), example_isolate).
Proof.
  refine (proj2 (proj2 (proj2
            (constructor_bounds
               (Construct plain_function
                  [ArrayBufferObject 0; Prim (Number (int_to_double 2));
                   Prim (Number (int_to_double 6))])
               example_isolate example_isolate example_isolate example_isolate
               0%nat zeroes8 2 6 _ _ _ _ _ _ _ _))) _ _); concrete.
Defined.

(** *** Construction and the detachment flag *)

(** Construction from primitive arguments looks at the isolate only for the
    byte length of the buffer. *)
Lemma DataViewConstructor_reads_length (address : nat) (byte_offset byte_length : Primitive)
    (iso iso' : Isolate) :
  JSArrayBuffer.byte_length <$> (array_buffers iso !! address)
    = JSArrayBuffer.byte_length <$> (array_buffers iso' !! address) ->
  fst (DataViewConstructor
         (Construct plain_function
            [ArrayBufferObject address; Prim byte_offset; Prim byte_length]) iso)
  = fst (DataViewConstructor
           (Construct plain_function
              [ArrayBufferObject address; Prim byte_offset; Prim byte_length]) iso').
Proof.
  intros Hsame. unfold DataViewConstructor, Construct, plain_function, atOrUndefined.
  cbn [new_target target args IsUndefined lookup list_lookup from_option id].
  unfold bind. rewrite (ToIndex_Prim byte_offset _ iso), (ToIndex_Prim byte_offset _ iso').
  destruct (fst (ToIndex byte_offset kInvalidOffset {| array_buffers := [] |}))
    as [o | e |]; try reflexivity.
  unfold load_buffer.
  destruct (array_buffers iso !! address) as [b|];
    destruct (array_buffers iso' !! address) as [b'|]; try discriminate Hsame;
    [|reflexivity].
  cbn in Hsame. injection Hsame as Hlen. rewrite Hlen.
  destruct (o >? JSArrayBuffer.byte_length b'); [reflexivity|].
  destruct (match byte_length with Undefined => true | _ => false end); [reflexivity|].
  rewrite (ToIndex_Prim byte_length _ iso), (ToIndex_Prim byte_length _ iso').
  destruct (fst (ToIndex byte_length kInvalidDataViewLength {| array_buffers := [] |}))
    as [n | e |]; try reflexivity.
  destruct (Number_add o n >? JSArrayBuffer.byte_length b'); reflexivity.
Qed.

(** C8: construction never looks at the detachment flag.  With primitive
    arguments its outcome is the same whatever the flag of any buffer; and
    once the offset is converted, construction over a detached buffer goes on
    to the length checks against the current byte length: it ends in the
    RangeError of one of them or in a view, not in the TypeError of a detached
    buffer. *)
Theorem constructor_ignores_detachment
    (a : BuiltinArguments) (iso iso1 : Isolate) (address : nat)
    (b : JSArrayBuffer.t) (o : Z) :
  IsUndefined (new_target a) = false ->
  atOrUndefined a 1 = ArrayBufferObject address ->
  ToIndex (atOrUndefined a 2) kInvalidOffset iso = (Normal o, iso1) ->
  array_buffers iso1 !! address = Some b ->
  JSArrayBuffer.was_neutered b = true ->
  let L := JSArrayBuffer.byte_length b in
  let r := DataViewConstructor a iso in
  (forall (marked : nat) (flag : bool) (byte_offset byte_length : Primitive) (s : Isolate),
     fst (DataViewConstructor
            (Construct plain_function
               [ArrayBufferObject address; Prim byte_offset; Prim byte_length])
            (mark marked flag s))
     = fst (DataViewConstructor
              (Construct plain_function
                 [ArrayBufferObject address; Prim byte_offset; Prim byte_length]) s)) /\
  (L < o -> r = (Throw (NewRangeError kInvalidOffset (Some o)), iso1)) /\
  (o <= L -> IsUndefined (atOrUndefined a 3) = true ->
   forall iso3, JSObject_New (target a) (new_target a) iso1 = (Normal tt, iso3) ->
   r = (Normal (DataViewObject
          {| JSDataView.buffer := address;
             JSDataView.byte_offset := o;
             JSDataView.byte_length := L - o |}), iso3)) /\
  (o <= L -> IsUndefined (atOrUndefined a 3) = false -> L <= kMaxSafeInteger ->
   forall n iso2,
     ToIndex (atOrUndefined a 3) kInvalidDataViewLength iso1 = (Normal n, iso2) ->
     (L < o + n -> r = (Throw (NewRangeError kInvalidDataViewLength None), iso2)) /\
     (o + n <= L ->
      forall iso3, JSObject_New (target a) (new_target a) iso2 = (Normal tt, iso3) ->
      r = (Normal (DataViewObject
             {| JSDataView.buffer := address;
                JSDataView.byte_offset := o;
                JSDataView.byte_length := n |}), iso3))).
Proof.
  intros Hconstruct Hbuffer_arg Hoffset Hbuffer Hdetached L r. subst r L.
  split; [|split; [|split]].
  - intros marked flag byte_offset byte_length s.
    apply DataViewConstructor_reads_length.
    unfold mark. cbn [array_buffers].
    destruct (decide (marked = address)) as [-> | Hne].
    + rewrite list_lookup_alter_eq. now destruct (array_buffers s !! address).
    + now rewrite list_lookup_alter_ne.
  - intros Hout. eapply DataViewConstructor_invalid_offset; eassumption.
  - intros Hin Hundef iso3 Hnew.
    eapply DataViewConstructor_default_length; eassumption.
  - intros Hin Hdef Hsafe n iso2 Hlength. split.
    + intros Hout. eapply DataViewConstructor_invalid_length; eassumption.
    + intros Hok iso3 Hnew. eapply DataViewConstructor_valid; eassumption.
Qed.

(** [new DataView(buffer)] over the detached buffer of the example isolate
    gives the empty view. *)
Lemma constructor_ignores_detachment_witness :
  DataViewConstructor (Construct plain_function [ArrayBufferObject 1]) example_isolate
  = (Normal (DataViewObject
       {| JSDataView.buffer := 1;
          JSDataView.byte_offset := 0;
          JSDataView.byte_length := 0 |}), example_isolate).
Proof.
  refine (proj1 (proj2 (proj2
            (constructor_ignores_detachment
               (Construct plain_function [ArrayBufferObject 1])
               example_isolate example_isolate 1%nat (JSArrayBuffer.Neuter zeroes8) 0
               _ _ _ _ _))) _ _ example_isolate _); concrete.
Defined.

(** ** The IEEE-754 model

    The promotion of a single-precision value to double precision is exact,
    and so is the conversion of an integer below 2^53 in magnitude: both come
    back unchanged. *)

Lemma digits2_pos_bounds (m : positive) :
  2 ^ (Zpos (digits2_pos m) - 1) <= Zpos m < 2 ^ Zpos (digits2_pos m).
Proof.
  induction m as [p IH | p IH |]; cbn [digits2_pos].
  - rewrite Pos2Z.inj_succ.
    replace (Z.succ (Zpos (digits2_pos p)) - 1) with (Zpos (digits2_pos p) - 1 + 1) by lia.
    rewrite Z.pow_succ_r, Z.pow_add_r by lia. lia.
  - rewrite Pos2Z.inj_succ.
    replace (Z.succ (Zpos (digits2_pos p)) - 1) with (Zpos (digits2_pos p) - 1 + 1) by lia.
    rewrite Z.pow_succ_r, Z.pow_add_r by lia. lia.
  - cbn. lia.
Qed.

Lemma digits2_pos_unique (m : positive) (d : Z) :
  2 ^ (d - 1) <= Zpos m < 2 ^ d -> Zpos (digits2_pos m) = d.
Proof.
  intros [Hlo Hhi]. pose proof (digits2_pos_bounds m) as [Hlo' Hhi'].
  assert (Hd : 0 < d).
  { destruct (Z_lt_ge_dec 0 d) as [|Hneg]; [assumption|].
    assert (2 ^ d <= 1).
    { destruct (Z.eq_dec d 0) as [-> | Hne]; [reflexivity|].
      rewrite Z.pow_neg_r by lia. lia. }
    lia. }
  destruct (Z.lt_trichotomy (Zpos (digits2_pos m)) d) as [Hlt | [Heq | Hgt]].
  - assert (2 ^ Zpos (digits2_pos m) <= 2 ^ (d - 1)) by (apply Z.pow_le_mono_r; lia). lia.
  - exact Heq.
  - assert (2 ^ d <= 2 ^ (Zpos (digits2_pos m) - 1)) by (apply Z.pow_le_mono_r; lia). lia.
Qed.

Lemma Zpos_iter_xO (m k : positive) : Zpos (Pos.iter xO m k) = Zpos m * 2 ^ Zpos k.
Proof.
  rewrite <- Z.shiftl_mul_pow2 by lia. cbn [Z.shiftl].
  apply (Pos.iter_swap_gen _ _ Zpos xO (Z.mul 2)). reflexivity.
Qed.

Lemma iter_pos_iter {A} (f : A -> A) (p : positive) (x : A) :
  SpecFloat.iter_pos f p x = Pos.iter f x p.
Proof.
  revert x. induction p as [p IH | p IH |]; intros x; cbn [SpecFloat.iter_pos Pos.iter].
  - rewrite !IH. now rewrite <- !Pos.iter_swap.
  - now rewrite !IH.
  - reflexivity.
Qed.

Lemma shr_1_even (M : positive) :
  shr_1 (Build_shr_record (Zpos (xO M)) false false) = Build_shr_record (Zpos M) false false.
Proof. reflexivity. Qed.

Lemma iter_shr_1_exact (p M : positive) :
  Pos.iter shr_1 (Build_shr_record (Zpos M * 2 ^ Zpos p) false false) p
  = Build_shr_record (Zpos M) false false.
Proof.
  revert M. induction p as [|p IH] using Pos.peano_ind; intros M.
  - cbn [Pos.iter]. change (2 ^ 1) with 2. rewrite Z.mul_comm. reflexivity.
  - rewrite Pos.iter_succ, <- Pos.iter_swap.
    replace (Zpos M * 2 ^ Zpos (Pos.succ p)) with (Zpos (xO (Pos.iter xO M p))).
    + cbn [shr_1 orb]. rewrite Zpos_iter_xO. apply IH.
    + rewrite Pos2Z.inj_succ, Z.pow_succ_r by lia.
      change (Zpos (xO (Pos.iter xO M p))) with (2 * Zpos (Pos.iter xO M p)).
      rewrite Zpos_iter_xO. lia.
Qed.

Lemma digits2_pos_shift (M k : positive) :
  Zpos (digits2_pos (Pos.iter xO M k)) = Zpos (digits2_pos M) + Zpos k.
Proof.
  apply digits2_pos_unique. rewrite Zpos_iter_xO.
  pose proof (digits2_pos_bounds M) as [Hlo Hhi].
  replace (Zpos (digits2_pos M) + Zpos k - 1) with (Zpos (digits2_pos M) - 1 + Zpos k) by lia.
  rewrite !Z.pow_add_r by lia.
  assert (0 < 2 ^ Zpos k) by (apply Z.pow_pos_nonneg; lia). nia.
Qed.

Section rounding.
Variables prec emax : Z.

Lemma binary_round_aux_canonical (s : bool) (m : positive) (e : Z) :
  canonical_mantissa prec emax m e = true -> e <= emax - prec ->
  binary_round_aux prec emax s (Zpos m) e loc_Exact = S754_finite s m e.
Proof.
  unfold canonical_mantissa. intros Hcan Hmax. apply Z.eqb_eq in Hcan.
  unfold binary_round_aux, shr_fexp. cbn [Zdigits2 shr_record_of_loc].
  rewrite Hcan, Z.sub_diag. cbn [shr loc_of_shr_record shr_m round_nearest_even Zdigits2
                                   shr_record_of_loc].
  rewrite Hcan, Z.sub_diag. cbn [shr shr_m].
  apply Z.leb_le in Hmax. now rewrite Hmax.
Qed.

Lemma binary_round_aux_shift (s : bool) (M k : positive) (e : Z) :
  canonical_mantissa prec emax M (e + Zpos k) = true -> e + Zpos k <= emax - prec ->
  binary_round_aux prec emax s (Zpos (Pos.iter xO M k)) e loc_Exact
  = S754_finite s M (e + Zpos k).
Proof.
  intros Hcan Hmax. pose proof Hcan as Hcan'. unfold canonical_mantissa in Hcan'.
  apply Z.eqb_eq in Hcan'.
  unfold binary_round_aux, shr_fexp. cbn [Zdigits2 shr_record_of_loc].
  rewrite digits2_pos_shift.
  replace (Zpos (digits2_pos M) + Zpos k + e) with (Zpos (digits2_pos M) + (e + Zpos k)) by lia.
  rewrite Hcan'. replace (e + Zpos k - e) with (Zpos k) by lia.
  cbn [shr]. rewrite iter_pos_iter, Zpos_iter_xO, iter_shr_1_exact.
  cbn [loc_of_shr_record shr_m round_nearest_even Zdigits2 shr_record_of_loc].
  rewrite Hcan', Z.sub_diag. cbn [shr shr_m].
  apply Z.leb_le in Hmax. now rewrite Hmax.
Qed.

(** Widening: the exponent the format asks for is below the one given. *)
Lemma binary_round_widen (s : bool) (m k : positive) (e : Z) :
  fexp prec emax (Zpos (digits2_pos m) + e) = e - Zpos k -> e - Zpos k <= emax - prec ->
  binary_round prec emax s m e = S754_finite s (Pos.iter xO m k) (e - Zpos k).
Proof.
  intros Hfexp Hmax. unfold binary_round, shl_align. rewrite Hfexp.
  replace (e - Zpos k - e) with (Zneg k) by lia.
  apply binary_round_aux_canonical; [|exact Hmax].
  unfold canonical_mantissa. apply Z.eqb_eq. rewrite digits2_pos_shift.
  replace (Zpos (digits2_pos m) + Zpos k + (e - Zpos k)) with (Zpos (digits2_pos m) + e) by lia.
  exact Hfexp.
Qed.

(** Narrowing without loss: the bits shifted out are zeroes. *)
Lemma binary_round_narrow (s : bool) (M k : positive) (e : Z) :
  canonical_mantissa prec emax M (e + Zpos k) = true -> e + Zpos k <= emax - prec ->
  binary_round prec emax s (Pos.iter xO M k) e = S754_finite s M (e + Zpos k).
Proof.
  intros Hcan Hmax. pose proof Hcan as Hcan'. unfold canonical_mantissa in Hcan'.
  apply Z.eqb_eq in Hcan'.
  unfold binary_round, shl_align. rewrite digits2_pos_shift.
  replace (Zpos (digits2_pos M) + Zpos k + e) with (Zpos (digits2_pos M) + (e + Zpos k)) by lia.
  rewrite Hcan'. replace (e + Zpos k - e) with (Zpos k) by lia.
  now apply binary_round_aux_shift.
Qed.
End rounding.

Lemma canonical32_facts (M : positive) (E : Z) :
  canonical_mantissa 24 128 M E = true ->
  -149 <= E /\ Zpos (digits2_pos M) <= 24 /\
  (E = -149 \/ Zpos (digits2_pos M) = 24).
Proof.
  unfold canonical_mantissa, fexp, emin. intros H. apply Z.eqb_eq in H. lia.
Qed.

Lemma decode64_encode64 (s : bool) (m : positive) (e : Z) :
  Zpos (digits2_pos m) = 53 -> -1074 <= e <= 971 ->
  ieee_decode 53 1024 (ieee_encode 53 1024 (S754_finite s m e)) = S754_finite s m e.
Proof.
  intros Hd He. pose proof (digits2_pos_bounds m) as Hm. rewrite Hd in Hm.
  change (53 - 1) with 52 in Hm.
  unfold ieee_encode, ieee_decode, emin.
  change (53 - 1) with 52. change (3 - 1024 - 53) with (-1074).
  change (2 * 1024) with 2048. change (2 ^ 52 * 2048) with (2 ^ 63).
  change (2 * 2 ^ 63) with (2 ^ 64). change (2048 - 1) with 2047.
  set (sq := if s then 1 else 0).
  replace (if s then 2 ^ 63 else 0) with (sq * 2 ^ 63) by (subst sq; now destruct s).
  assert (Hsq : sq = 0 \/ sq = 1) by (subst sq; destruct s; auto).
  set (bits := (sq * 2 ^ 63 + (e - -1074) * 2 ^ 52 + Zpos m) mod 2 ^ 64).
  assert (Hbits : bits = sq * 2 ^ 63 + (e + 1075) * 2 ^ 52 + (Zpos m - 2 ^ 52)).
  { subst bits. rewrite Z.mod_small by lia. lia. }
  assert (Hfrac : bits mod 2 ^ 52 = Zpos m - 2 ^ 52).
  { symmetry. apply Z.mod_unique with (q := sq * 2048 + (e + 1075)); lia. }
  assert (Hhigh : bits / 2 ^ 52 = sq * 2048 + (e + 1075)).
  { symmetry. apply Z.div_unique with (r := Zpos m - 2 ^ 52); lia. }
  assert (Hbiased : (bits / 2 ^ 52) mod 2048 = e + 1075).
  { rewrite Hhigh. symmetry. apply Z.mod_unique with (q := sq); lia. }
  assert (Hsign : Z.odd (bits / 2 ^ 63) = s).
  { replace (bits / 2 ^ 63) with sq.
    - subst sq. destruct s; reflexivity.
    - apply Z.div_unique with (r := (e + 1075) * 2 ^ 52 + (Zpos m - 2 ^ 52)); lia. }
  rewrite Hfrac, Hbiased, Hsign.
  replace (e + 1075 =? 2047) with false by (symmetry; lia).
  replace (e + 1075 =? 0) with false by (symmetry; lia).
  replace (2 ^ 52 + (Zpos m - 2 ^ 52)) with (Zpos m) by lia.
  f_equal. lia.
Qed.

(** A finite single-precision value survives the way to double precision and
    back. *)
Lemma finite_float_exact (s : bool) (M : positive) (E : Z) :
  canonical_mantissa 24 128 M E = true -> E <= 104 ->
  ieee_round 24 128
    (ieee_decode 53 1024 (ieee_encode 53 1024 (ieee_round 53 1024 (S754_finite s M E))))
  = S754_finite s M E.
Proof.
  intros Hcan Hmax. pose proof (canonical32_facts M E Hcan) as (Hmin & Hd & _).
  pose proof (Pos2Z.is_pos (digits2_pos M)) as Hdpos.
  set (k := Z.to_pos (53 - Zpos (digits2_pos M))).
  assert (Hk : Zpos k = 53 - Zpos (digits2_pos M)) by (subst k; rewrite Z2Pos.id; lia).
  cbn [ieee_round].
  rewrite (binary_round_widen 53 1024 s M k E);
    [| unfold fexp, emin; lia | lia].
  rewrite decode64_encode64; [| rewrite digits2_pos_shift; lia | lia].
  cbn [ieee_round].
  replace E with (E - Zpos k + Zpos k) at 2 by lia.
  apply binary_round_narrow.
  - replace (E - Zpos k + Zpos k) with E by lia. exact Hcan.
  - lia.
Qed.

Lemma float_fields (f : Z) :
  0 <= f < 2 ^ 32 ->
  exists sq biased frac,
    f = sq * 2 ^ 31 + biased * 2 ^ 23 + frac /\
    (sq = 0 \/ sq = 1) /\ 0 <= biased < 256 /\ 0 <= frac < 2 ^ 23 /\
    f mod 2 ^ 23 = frac /\ (f / 2 ^ 23) mod 256 = biased /\
    Z.odd (f / (2 ^ 23 * 256)) = (sq =? 1).
Proof.
  intros Hf.
  exists (f / 2 ^ 31), ((f / 2 ^ 23) mod 256), (f mod 2 ^ 23).
  assert (Hsq : 0 <= f / 2 ^ 31 < 2).
  { split; [apply Z.div_pos; lia | apply Z.div_lt_upper_bound; lia]. }
  pose proof (Z.mod_pos_bound (f / 2 ^ 23) 256 ltac:(lia)) as Hb.
  pose proof (Z.mod_pos_bound f (2 ^ 23) ltac:(lia)) as Hfr.
  pose proof (Z.div_mod f (2 ^ 23) ltac:(lia)) as H1.
  pose proof (Z.div_mod (f / 2 ^ 23) 256 ltac:(lia)) as H2.
  assert (H3 : f / 2 ^ 23 / 256 = f / 2 ^ 31).
  { rewrite Z.div_div by lia. reflexivity. }
  repeat split; try lia.
  change (2 ^ 23 * 256) with (2 ^ 31).
  assert (Hcase : f / 2 ^ 31 = 0 \/ f / 2 ^ 31 = 1) by lia.
  destruct Hcase as [-> | ->]; reflexivity.
Qed.

Lemma digits2_pos_below (m : positive) (d : Z) :
  0 <= d -> Zpos m < 2 ^ d -> Zpos (digits2_pos m) <= d.
Proof.
  intros Hd Hm. pose proof (digits2_pos_bounds m) as [Hlo _].
  destruct (Z_le_gt_dec (Zpos (digits2_pos m)) d) as [|Hgt]; [assumption|].
  assert (2 ^ d <= 2 ^ (Zpos (digits2_pos m) - 1)) by (apply Z.pow_le_mono_r; lia). lia.
Qed.

(** Every single-precision value that is not a NaN is a fixed point of the
    promotion to double followed by the rounding to single. *)
Lemma double_to_float_exact (f : float) :
  0 <= f < 2 ^ 32 -> float_value f <> S754_nan ->
  double_to_float (float_to_double f) = f.
Proof.
  intros Hf Hnan.
  destruct (float_fields f Hf) as (sq & E & frac & Heq & Hsq & HE & Hfrac & Hmod & Hbiased & Hodd).
  assert (Hsign : (if sq =? 1 then 2 ^ 31 else 0) = sq * 2 ^ 31)
    by (destruct Hsq as [-> | ->]; reflexivity).
  enough (Hx : ieee_encode 24 128 (float_value f) = f /\
               ieee_round 24 128
                 (ieee_decode 53 1024 (ieee_encode 53 1024 (ieee_round 53 1024 (float_value f))))
               = float_value f).
  { destruct Hx as [Henc Hround].
    assert (Hpromoted : float_to_double f
                        = ieee_encode 53 1024 (ieee_round 53 1024 (float_value f))).
    { unfold float_to_double. destruct (float_value f); try reflexivity. congruence. }
    rewrite Hpromoted. unfold double_to_float, double_value.
    destruct (ieee_decode 53 1024
                (ieee_encode 53 1024 (ieee_round 53 1024 (float_value f)))) eqn:Ey;
      try (rewrite Hround; exact Henc).
    cbn [ieee_round] in Hround. congruence. }
  revert Hnan. unfold float_value, ieee_decode, emin.
  change (24 - 1) with 23. change (2 * 128) with 256. change (3 - 128 - 24) with (-149).
  change (256 - 1) with 255.
  rewrite Hmod, Hbiased, Hodd.
  destruct (E =? 255) eqn:E255.
  { apply Z.eqb_eq in E255. destruct (frac =? 0) eqn:Efrac; [|congruence].
    apply Z.eqb_eq in Efrac. intros _. split.
    - unfold ieee_encode. change (24 - 1) with 23. change (2 * 128) with 256.
      change (2 ^ 23 * 256) with (2 ^ 31). rewrite Hsign. lia.
    - destruct (sq =? 1); reflexivity. }
  destruct (E =? 0) eqn:E0.
  { apply Z.eqb_eq in E0. destruct frac as [|m|m] eqn:Em; intros _.
    - split.
      + unfold ieee_encode. change (24 - 1) with 23. change (2 * 128) with 256.
        change (2 ^ 23 * 256) with (2 ^ 31). rewrite Hsign. lia.
      + destruct (sq =? 1); reflexivity.
    - assert (Hd : Zpos (digits2_pos m) <= 23) by (apply digits2_pos_below; lia).
      pose proof (Pos2Z.is_pos (digits2_pos m)) as Hdpos.
      split.
      + unfold ieee_encode, emin. change (24 - 1) with 23. change (2 * 128) with 256.
        change (2 ^ 23 * 256) with (2 ^ 31). change (3 - 128 - 24) with (-149).
        rewrite Hsign. change (2 * 2 ^ 31) with (2 ^ 32).
        rewrite Z.mod_small; lia.
      + apply finite_float_exact; [|lia].
        unfold canonical_mantissa, fexp, emin. apply Z.eqb_eq. lia.
    - lia. }
  apply Z.eqb_neq in E255, E0.
  destruct (2 ^ 23 + frac) as [|m|m] eqn:Em; try lia. intros _.
  assert (Hd : Zpos (digits2_pos m) = 24) by (apply digits2_pos_unique; lia).
  split.
  - unfold ieee_encode, emin. change (24 - 1) with 23. change (2 * 128) with 256.
    change (2 ^ 23 * 256) with (2 ^ 31). change (3 - 128 - 24) with (-149).
    rewrite Hsign. change (2 * 2 ^ 31) with (2 ^ 32).
    rewrite Z.mod_small; lia.
  - apply finite_float_exact; [|lia].
    unfold canonical_mantissa, fexp, emin. apply Z.eqb_eq. lia.
Qed.

(** An integer below 2^53 in magnitude is a double, exactly. *)
Lemma double_truncate_int_to_double (n : Z) :
  - 2 ^ 53 < n < 2 ^ 53 -> double_truncate (int_to_double n) = Some n.
Proof.
  intros Hn. unfold int_to_double, double_truncate, double_value, binary_normalize.
  assert (Hpos : forall (s : bool) (p : positive), Zpos p < 2 ^ 53 ->
            exists m e, binary_round 53 1024 s p 0 = S754_finite s m e /\
                        Zpos (digits2_pos m) = 53 /\ -52 <= e <= 0 /\
                        Zpos m = Zpos p * 2 ^ (- e)).
  { intros s p Hp.
    assert (Hd : Zpos (digits2_pos p) <= 53) by (apply digits2_pos_below; lia).
    pose proof (Pos2Z.is_pos (digits2_pos p)) as Hdpos.
    destruct (Z.eq_dec (Zpos (digits2_pos p)) 53) as [Heq | Hne].
    - exists p, 0. repeat split; try lia.
      unfold binary_round, shl_align.
      replace (fexp 53 1024 (Zpos (digits2_pos p) + 0)) with 0
        by (unfold fexp, emin; lia).
      cbn [Z.sub Z.opp Z.add]. apply binary_round_aux_canonical; [|lia].
      unfold canonical_mantissa, fexp, emin. apply Z.eqb_eq. lia.
    - set (k := Z.to_pos (53 - Zpos (digits2_pos p))).
      assert (Hk : Zpos k = 53 - Zpos (digits2_pos p)) by (subst k; rewrite Z2Pos.id; lia).
      exists (Pos.iter xO p k), (0 - Zpos k). repeat split; try lia.
      + apply binary_round_widen; [unfold fexp, emin; lia | lia].
      + rewrite digits2_pos_shift. lia.
      + rewrite Zpos_iter_xO. replace (- (0 - Zpos k)) with (Zpos k) by lia.
        reflexivity. }
  destruct n as [|p|p].
  - reflexivity.
  - destruct (Hpos false p ltac:(lia)) as (m & e & -> & Hd & He & Hm).
    rewrite decode64_encode64 by lia.
    destruct (0 <=? e) eqn:E0.
    + apply Z.leb_le in E0. assert (e = 0) as -> by lia.
      change (- 0) with 0 in Hm. rewrite Z.pow_0_r in *. f_equal. lia.
    + rewrite Hm, Z.div_mul; [reflexivity|]. apply Z.pow_nonzero; lia.
  - destruct (Hpos true p ltac:(lia)) as (m & e & -> & Hd & He & Hm).
    rewrite decode64_encode64 by lia.
    destruct (0 <=? e) eqn:E0.
    + apply Z.leb_le in E0. assert (e = 0) as -> by lia.
      change (- 0) with 0 in Hm. rewrite Z.pow_0_r in *. f_equal. lia.
    + rewrite Hm, Z.div_mul; [reflexivity|]. apply Z.pow_nonzero; lia.
Qed.

Lemma DoubleToInteger_int_to_double (n : Z) :
  - 2 ^ 53 < n < 2 ^ 53 -> DoubleToInteger (int_to_double n) = Some n.
Proof.
  intros Hn. pose proof (double_truncate_int_to_double n Hn) as Ht.
  unfold DoubleToInteger. unfold double_truncate in Ht.
  destruct (double_value (int_to_double n)) eqn:Ev; try discriminate Ht.
  - unfold double_truncate. now rewrite Ev.
  - unfold double_truncate. now rewrite Ev.
Qed.

Lemma DoubleToInt32_int_to_double (n : Z) :
  - 2 ^ 31 <= n < 2 ^ 31 -> DoubleToInt32 (int_to_double n) = n.
Proof.
  intros Hn. unfold DoubleToInt32.
  rewrite double_truncate_int_to_double by lia.
  apply to_signed_small; lia.
Qed.

Lemma DoubleToUint32_int_to_double (n : Z) :
  0 <= n < 2 ^ 32 -> DoubleToUint32 (int_to_double n) = n.
Proof.
  intros Hn. unfold DoubleToUint32.
  rewrite double_truncate_int_to_double by lia.
  apply to_unsigned_small; lia.
Qed.

(** ** Narrowing of the converted value *)

Lemma le_bytes_mod (n : nat) (u : Z) :
  le_bytes n (u mod 2 ^ (8 * Z.of_nat n)) = le_bytes n u.
Proof.
  revert u. induction n as [|n IH]; intros u; [reflexivity|].
  cbn [le_bytes].
  replace (8 * Z.of_nat (S n)) with (8 + 8 * Z.of_nat n) by lia.
  rewrite Z.pow_add_r by lia. change (2 ^ 8) with 256.
  assert (Hpos : 0 < 2 ^ (8 * Z.of_nat n)) by (apply Z.pow_pos_nonneg; lia).
  rewrite Z.rem_mul_r by lia.
  set (rest := (u / 256) mod 2 ^ (8 * Z.of_nat n)).
  assert (Hbyte : 0 <= u mod 256 < 256) by (apply Z.mod_pos_bound; lia).
  assert (Hlow : (u mod 256 + 256 * rest) mod 256 = u mod 256).
  { symmetry. apply Z.mod_unique with (q := rest); lia. }
  assert (Hhigh : (u mod 256 + 256 * rest) / 256 = rest).
  { symmetry. apply Z.div_unique with (r := u mod 256); lia. }
  rewrite Hlow, Hhigh. subst rest. now rewrite IH.
Qed.

(** A cast to a narrower unsigned type sees only the low-order bits, so an
    earlier cast to a wider signed type does not show. *)
Lemma to_unsigned_of_signed (w w' n : Z) :
  0 < w <= w' -> to_unsigned w (to_signed w' n) = to_unsigned w n.
Proof.
  intros Hw. unfold to_unsigned, to_signed.
  assert (Hsplit : 2 ^ w' = 2 ^ (w' - w) * 2 ^ w).
  { rewrite <- Z.pow_add_r by lia. f_equal. lia. }
  assert (Hpos : 0 < 2 ^ w) by (apply Z.pow_pos_nonneg; lia).
  assert (Hpos' : 0 < 2 ^ w') by (apply Z.pow_pos_nonneg; lia).
  rewrite (Z.mod_eq (n + 2 ^ (w' - 1)) (2 ^ w')) by lia.
  rewrite Hsplit at 1.
  replace (n + 2 ^ (w' - 1)
           - 2 ^ (w' - w) * 2 ^ w * ((n + 2 ^ (w' - 1)) / 2 ^ w') - 2 ^ (w' - 1))
    with (n + (- (2 ^ (w' - w) * ((n + 2 ^ (w' - 1)) / 2 ^ w'))) * 2 ^ w) by ring.
  apply Z_mod_plus_full.
Qed.

Lemma to_unsigned_of_unsigned (w w' n : Z) :
  0 < w <= w' -> to_unsigned w (to_unsigned w' n) = to_unsigned w n.
Proof.
  intros Hw. unfold to_unsigned.
  assert (Hsplit : 2 ^ w' = 2 ^ (w' - w) * 2 ^ w).
  { rewrite <- Z.pow_add_r by lia. f_equal. lia. }
  assert (Hpos : 0 < 2 ^ w) by (apply Z.pow_pos_nonneg; lia).
  assert (Hpos' : 0 < 2 ^ w') by (apply Z.pow_pos_nonneg; lia).
  rewrite (Z.mod_eq n (2 ^ w')) by lia.
  rewrite Hsplit at 1.
  replace (n - 2 ^ (w' - w) * 2 ^ w * (n / 2 ^ w'))
    with (n + (- (2 ^ (w' - w) * (n / 2 ^ w'))) * 2 ^ w) by ring.
  apply Z_mod_plus_full.
Qed.

Lemma DoubleToInt32_truncated (d : double) : DoubleToInt32 d = to_signed 32 (truncated d).
Proof. unfold DoubleToInt32, truncated. now destruct (double_truncate d). Qed.

Lemma DoubleToUint32_truncated (d : double) : DoubleToUint32 d = to_unsigned 32 (truncated d).
Proof. unfold DoubleToUint32, truncated. now destruct (double_truncate d). Qed.

(** ** Byte order *)

Lemma read_bytes_all (bytes : list Z) : read_bytes bytes 0 (length bytes) = bytes.
Proof. unfold read_bytes. rewrite drop_0. now apply take_ge. Qed.

Lemma CopyBytes_scratch (bytes : list Z) :
  CopyBytes (length bytes) (replicate (length bytes) 0) 0 bytes 0 = bytes.
Proof.
  rewrite CopyBytes_spec by (rewrite ?length_replicate; lia).
  rewrite read_bytes_all. now apply write_scratch.
Qed.

Lemma FlipBytes_scratch (bytes : list Z) :
  FlipBytes (length bytes) (replicate (length bytes) 0) 0 bytes 0 = reverse bytes.
Proof.
  rewrite FlipBytes_spec by (rewrite ?length_replicate; lia).
  rewrite read_bytes_all. apply write_scratch. apply length_reverse.
Qed.

(** ** Constructed views *)

(** A view the constructor returns lies inside the buffer it was given: the
    invariant the accessors rely on holds until the buffer is detached. *)
Lemma constructed_view_in_buffer (cfg : Target) (a : BuiltinArguments)
    (iso iso1 iso2 iso3 iso' : Isolate) (address : nat) (b : JSArrayBuffer.t)
    (o n : Z) (view : JSDataView.t) :
  IsUndefined (new_target a) = false ->
  atOrUndefined a 1 = ArrayBufferObject address ->
  ToIndex (atOrUndefined a 2) kInvalidOffset iso = (Normal o, iso1) ->
  array_buffers iso1 !! address = Some b ->
  JSArrayBuffer.byte_length b <= kMaxSafeInteger ->
  JSArrayBuffer.byte_length b <= kMaxSize cfg ->
  IsUndefined (atOrUndefined a 3) = false ->
  ToIndex (atOrUndefined a 3) kInvalidDataViewLength iso1 = (Normal n, iso2) ->
  JSObject_New (target a) (new_target a) iso2 = (Normal tt, iso3) ->
  DataViewConstructor a iso = (Normal (DataViewObject view), iso') ->
  JSDataView.buffer view = address /\ view_in_buffer cfg view b.
Proof.
  intros Hconstruct Hbuffer_arg Hoffset Hbuffer Hsafe Hsize Hlength_arg Hlength Hnew Hresult.
  pose proof (ToIndex_range _ _ _ _ _ Hoffset) as Ho.
  pose proof (ToIndex_range _ _ _ _ _ Hlength) as Hn.
  destruct (Z_lt_ge_dec (JSArrayBuffer.byte_length b) o) as [Hbad | Hgood].
  { rewrite (DataViewConstructor_invalid_offset a iso iso1 address b o) in Hresult
      by assumption. discriminate. }
  destruct (Z_lt_ge_dec (JSArrayBuffer.byte_length b) (o + n)) as [Hbad | Hgood'].
  { rewrite (DataViewConstructor_invalid_length a iso iso1 address b o
               Hconstruct Hbuffer_arg Hoffset Hbuffer iso2 n Hlength_arg Hlength Hsafe)
      in Hresult by lia. discriminate. }
  rewrite (DataViewConstructor_valid a iso iso1 address b o
             Hconstruct Hbuffer_arg Hoffset Hbuffer iso2 n Hlength_arg Hlength Hsafe iso3)
    in Hresult by (assumption || lia).
  inversion Hresult; subst. unfold view_in_buffer. cbn. lia.
Qed.

(** ** The scenarios of the specification, run *)

(** A buffer of 8 zero bytes and a view over all of it: after
    [setUint32(0, 0x01020304, false)] the bytes read 1, 2, 3, 4, so
    [getUint8(0)] is 1, [getUint8(1)] is 2 and [getUint32(0, true)] is
    0x04030201 -- on a little-endian and on a big-endian target alike. *)
Lemma concrete_scenario (cfg : Target) :
  cfg = x64 \/ cfg = ppc ->
  exists iso',
    DataViewPrototypeSet cfg Uint32
      (Call (DataViewObject whole_view)
         [Prim (Number (int_to_double 0)); Prim (Number (int_to_double 0x01020304));
          Prim (Boolean false)]) example_isolate
    = (Normal (Prim Undefined), iso') /\
    JSArrayBuffer.backing_store <$> (array_buffers iso' !! 0%nat)
    = Some [1; 2; 3; 4; 0; 0; 0; 0] /\
    fst (DataViewPrototypeGet cfg Uint8
           (Call (DataViewObject whole_view) [Prim (Number (int_to_double 0))]) iso')
    = Normal (Prim (Number (int_to_double 1))) /\
    fst (DataViewPrototypeGet cfg Uint8
           (Call (DataViewObject whole_view) [Prim (Number (int_to_double 1))]) iso')
    = Normal (Prim (Number (int_to_double 2))) /\
    fst (DataViewPrototypeGet cfg Uint32
           (Call (DataViewObject whole_view)
              [Prim (Number (int_to_double 0)); Prim (Boolean true)]) iso')
    = Normal (Prim (Number (int_to_double 0x04030201))).
Proof.
  intros Hcfg.
  exists {| array_buffers :=
              [{| JSArrayBuffer.backing_store := [1; 2; 3; 4; 0; 0; 0; 0];
                  JSArrayBuffer.was_neutered := false |};
               JSArrayBuffer.Neuter zeroes8] |}.
  destruct Hcfg as [-> | ->]; repeat split; vm_compute; reflexivity.
Qed.

(** Two views over the same buffer see each other's writes: a write through
    a view at offset 4 is read through the view over the whole buffer. *)
Lemma overlapping_views_alias :
  let tail_view := {| JSDataView.buffer := 0; JSDataView.byte_offset := 4;
                      JSDataView.byte_length := 4 |} in
  exists iso',
    DataViewPrototypeSet x64 Int16
      (Call (DataViewObject tail_view)
         [Prim (Number (int_to_double 2)); Prim (Number (int_to_double (-2)))])
      example_isolate
    = (Normal (Prim Undefined), iso') /\
    fst (DataViewPrototypeGet x64 Int16
           (Call (DataViewObject whole_view) [Prim (Number (int_to_double 6))]) iso')
    = Normal (Prim (Number (int_to_double (-2)))).
Proof.
  exists {| array_buffers :=
              [{| JSArrayBuffer.backing_store := [0; 0; 0; 0; 0; 0; 255; 254];
                  JSArrayBuffer.was_neutered := false |};
               JSArrayBuffer.Neuter zeroes8] |}.
  split; vm_compute; reflexivity.
Qed.

(** * Further properties of the builtins *)

(** ** Reads and writes in terms of the bytes of the buffer *)

Lemma union_data_loaded (cfg : Target) (T : ElementType) (le : bool) (bytes : list Z) :
  union_data cfg T (if NeedToFlipBytes cfg le then reverse bytes else bytes)
  = cast T (le_value (requested_order le bytes)).
Proof.
  unfold union_data, cast, host_order, NeedToFlipBytes, requested_order.
  destruct (target_little_endian cfg), le; cbn [negb];
    rewrite ?reverse_involutive; reflexivity.
Qed.

Lemma union_bytes_stored (cfg : Target) (T : ElementType) (le : bool) (data : Z) :
  (if NeedToFlipBytes cfg le then reverse (union_bytes cfg T data)
   else union_bytes cfg T data)
  = requested_order le (le_bytes (sizeof T) (to_unsigned (value_bits T) data)).
Proof.
  unfold union_bytes, host_order, NeedToFlipBytes, requested_order.
  destruct (target_little_endian cfg), le; cbn [negb];
    rewrite ?reverse_involutive; reflexivity.
Qed.

Lemma length_requested_order (le : bool) (bytes : list Z) :
  length (requested_order le bytes) = length bytes.
Proof. unfold requested_order. destruct le; [reflexivity | apply length_reverse]. Qed.

Lemma requested_order_involutive (le : bool) (bytes : list Z) :
  requested_order le (requested_order le bytes) = bytes.
Proof. unfold requested_order. destruct le; [reflexivity | apply reverse_involutive]. Qed.

Lemma lookup_write_bytes_outside (store : list Z) (p : nat) (bytes : list Z) (j : nat) :
  (p + length bytes <= length store)%nat ->
  (j < p \/ p + length bytes <= j)%nat ->
  write_bytes store p bytes !! j = store !! j.
Proof.
  intros Hfit Hj. unfold write_bytes. destruct Hj as [Hlt | Hge].
  - rewrite lookup_app_l by (rewrite length_take; lia).
    apply lookup_take_lt. exact Hlt.
  - rewrite lookup_app_r by (rewrite length_take; lia).
    rewrite lookup_app_r by (rewrite length_take; lia).
    rewrite lookup_drop, length_take. f_equal. lia.
Qed.

Lemma lookup_write_bytes_inside (store : list Z) (p : nat) (bytes : list Z) (k : nat) :
  (p + length bytes <= length store)%nat ->
  (k < length bytes)%nat ->
  write_bytes store p bytes !! (p + k)%nat = bytes !! k.
Proof.
  intros Hfit Hk. unfold write_bytes.
  rewrite lookup_app_r by (rewrite length_take; lia).
  rewrite length_take. replace (p + k - p `min` length store)%nat with k by lia.
  apply lookup_app_l. exact Hk.
Qed.

Lemma read_bytes_write_bytes_disjoint (store : list Z) (p : nat) (bytes : list Z)
    (q m : nat) :
  (p + length bytes <= length store)%nat ->
  (q + m <= p \/ p + length bytes <= q)%nat ->
  read_bytes (write_bytes store p bytes) q m = read_bytes store q m.
Proof.
  intros Hfit Hdisjoint. unfold read_bytes. apply list_eq. intros j.
  rewrite !lookup_take, !lookup_drop.
  destruct (decide (j < m)%nat) as [Hj | Hj]; [|reflexivity].
  apply lookup_write_bytes_outside; [exact Hfit | lia].
Qed.

Lemma write_read_bytes (store : list Z) (p n : nat) :
  (p + n <= length store)%nat -> write_bytes store p (read_bytes store p n) = store.
Proof.
  intros Hfit. unfold write_bytes, read_bytes.
  rewrite length_take, length_drop.
  replace (p + n `min` (length store - p))%nat with (p + n)%nat by lia.
  rewrite app_assoc, take_take_drop. apply take_drop.
Qed.

(** X1: a read changes nothing: [GetViewValue] ends in the isolate the
    conversion of its index has left, whatever its outcome, and the three
    property getters end in the isolate they were called in.  An accessor
    called with a primitive index leaves the isolate as it found it. *)
Theorem reads_leave_isolate
    (cfg : Target) (T : ElementType) (v : JSDataView.t) (request_index : Object)
    (le : bool) (method : string) (a : BuiltinArguments) (receiver : Object)
    (p : Primitive) (arguments : list Object) (iso : Isolate) :
  snd (GetViewValue cfg T v request_index le method iso)
    = snd (ToIndex request_index kInvalidDataViewAccessorOffset iso) /\
  snd (DataViewPrototypeGet cfg T (Call receiver (Prim p :: arguments)) iso) = iso /\
  snd (DataViewPrototypeGetBuffer a iso) = iso /\
  snd (DataViewPrototypeGetByteLength a iso) = iso /\
  snd (DataViewPrototypeGetByteOffset a iso) = iso.
Proof.
  assert (Hget : forall v' index le' method',
            snd (GetViewValue cfg T v' index le' method' iso)
            = snd (ToIndex index kInvalidDataViewAccessorOffset iso)).
  { intros v' index le' method'. unfold GetViewValue, bind.
    destruct (ToIndex index kInvalidDataViewAccessorOffset iso) as [[i | e |] iso1];
      try reflexivity.
    cbn [snd]. destruct (TryNumberToSize cfg i) as [get_index|]; [|reflexivity].
    unfold load_buffer.
    destruct (array_buffers iso1 !! JSDataView.buffer v') as [b|]; [|reflexivity].
    destruct (JSArrayBuffer.was_neutered b); [reflexivity|].
    cbv [NumberToSize DCHECK check_access ret fatal throw].
    case_conditions; reflexivity. }
  split; [apply Hget|]. split.
  - unfold DataViewPrototypeGet, CHECK_RECEIVER, Call, atOrUndefined, bind.
    cbn [args lookup list_lookup from_option id].
    destruct receiver as [q | address | view | to_primitive | get_prototype];
      try reflexivity.
    cbv [ret]. rewrite Hget. now rewrite ToIndex_Prim.
  - unfold DataViewPrototypeGetBuffer, DataViewPrototypeGetByteLength,
      DataViewPrototypeGetByteOffset, CHECK_RECEIVER, bind.
    repeat split; destruct (atOrUndefined a 0); reflexivity.
Qed.

(** X2: a read in bounds returns the integer spelled by the [sizeof(T)] bytes
    of the buffer at [byte_offset + index], taken in the requested order and
    cast to [T]: little-endian when the flag is set, big-endian otherwise.
    Neither the byte order of the target nor anything else in the buffer has
    a part in it. *)
Theorem read_decodes_requested_order
    (cfg : Target) (T : ElementType) (v : JSDataView.t) (request_index : Object)
    (le : bool) (method : string) (iso iso1 : Isolate) (i : Z) (b : JSArrayBuffer.t) :
  ToIndex request_index kInvalidDataViewAccessorOffset iso = (Normal i, iso1) ->
  array_buffers iso1 !! JSDataView.buffer v = Some b ->
  JSArrayBuffer.was_neutered b = false ->
  view_in_buffer cfg v b ->
  i + Z.of_nat (sizeof T) <= JSDataView.byte_length v ->
  GetViewValue cfg T v request_index le method iso
  = (Normal (AllocateResult T (cast T (le_value (requested_order le
       (read_bytes (JSArrayBuffer.backing_store b)
          (Z.to_nat (JSDataView.byte_offset v + i)) (sizeof T)))))), iso1).
Proof.
  intros Hindex Hbuffer Hattached Hview Hbounds.
  rewrite (GetViewValue_in_bounds cfg T v request_index le method iso iso1 i
             Hindex b Hbuffer Hattached Hview Hbounds).
  unfold loaded_bytes. now rewrite union_data_loaded.
Qed.

Lemma read_decodes_requested_order_witness :
  GetViewValue ppc Uint16 whole_view (Number (int_to_double 3)) true
    "DataView.prototype.getUint16"
    {| array_buffers :=
         [{| JSArrayBuffer.backing_store := [0; 0; 0; 0x34; 0x12; 0; 0; 0];
             JSArrayBuffer.was_neutered := false |}] |}
  = (Normal (Prim (Number (int_to_double 0x1234))),
     {| array_buffers :=
         [{| JSArrayBuffer.backing_store := [0; 0; 0; 0x34; 0x12; 0; 0; 0];
             JSArrayBuffer.was_neutered := false |}] |}).
Proof.
  apply (read_decodes_requested_order ppc Uint16 whole_view
           (Number (int_to_double 3)) true "DataView.prototype.getUint16"
           _ _ 3
           {| JSArrayBuffer.backing_store := [0; 0; 0; 0x34; 0x12; 0; 0; 0];
              JSArrayBuffer.was_neutered := false |}); concrete.
Defined.

(** X3: a write in bounds stores the low-order [sizeof(T)] bytes of the
    converted value at [byte_offset + index], in the requested order, on
    either kind of target, and returns undefined. *)
Theorem write_encodes_requested_order
    (cfg : Target) (T : ElementType) (v : JSDataView.t) (request_index : Object)
    (le : bool) (value : Object) (method : string) (iso iso1 iso2 : Isolate)
    (i : Z) (x : Object) (b : JSArrayBuffer.t) :
  ToIndex request_index kInvalidDataViewAccessorOffset iso = (Normal i, iso1) ->
  DataViewConvertInput T value iso1 = (Normal x, iso2) ->
  array_buffers iso2 !! JSDataView.buffer v = Some b ->
  JSArrayBuffer.was_neutered b = false ->
  view_in_buffer cfg v b ->
  i + Z.of_nat (sizeof T) <= JSDataView.byte_length v ->
  SetViewValue cfg T v request_index le value method iso
  = (Normal (Prim Undefined),
     with_backing_store iso2 (JSDataView.buffer v) b
       (write_bytes (JSArrayBuffer.backing_store b)
          (Z.to_nat (JSDataView.byte_offset v + i))
          (requested_order le
             (le_bytes (sizeof T)
                (to_unsigned (value_bits T) (DataViewConvertValue T x)))))).
Proof.
  intros Hindex Hvalue Hbuffer Hattached Hview Hbounds.
  rewrite (SetViewValue_in_bounds cfg T v request_index le value method iso iso1 i
             Hindex x iso2 Hvalue b Hbuffer Hattached Hview Hbounds).
  unfold stored_bytes. now rewrite union_bytes_stored.
Qed.

Lemma write_encodes_requested_order_witness :
  SetViewValue x64 Int16 whole_view (Number (int_to_double 5)) false
    (Number (int_to_double (-2))) "DataView.prototype.getInt16" example_isolate
  = (Normal (Prim Undefined),
     {| array_buffers :=
          [{| JSArrayBuffer.backing_store := [0; 0; 0; 0; 0; 255; 254; 0];
              JSArrayBuffer.was_neutered := false |};
           JSArrayBuffer.Neuter zeroes8] |}).
Proof.
  apply (write_encodes_requested_order x64 Int16 whole_view
           (Number (int_to_double 5)) false (Number (int_to_double (-2)))
           "DataView.prototype.getInt16" example_isolate example_isolate
           example_isolate 5 (Number (int_to_double (-2))) zeroes8); concrete.
Defined.

(** ** What a write leaves alone *)

Lemma with_backing_store_lookup (iso : Isolate) (address : nat) (b : JSArrayBuffer.t)
    (bytes : list Z) :
  array_buffers iso !! address = Some b ->
  array_buffers (with_backing_store iso address b bytes) !! address
  = Some {| JSArrayBuffer.backing_store := bytes;
            JSArrayBuffer.was_neutered := JSArrayBuffer.was_neutered b |}.
Proof.
  intros Hb. unfold with_backing_store. cbn [array_buffers].
  apply list_lookup_insert_eq. eapply lookup_lt_Some. exact Hb.
Qed.

Lemma with_backing_store_id (iso : Isolate) (address : nat) (b : JSArrayBuffer.t) :
  array_buffers iso !! address = Some b ->
  with_backing_store iso address b (JSArrayBuffer.backing_store b) = iso.
Proof.
  intros Hb. unfold with_backing_store. destruct iso as [buffers]. cbn [array_buffers] in *.
  f_equal. apply list_insert_id. rewrite Hb. now destruct b.
Qed.

Lemma write_position (cfg : Target) (T : ElementType) (v : JSDataView.t)
    (b : JSArrayBuffer.t) (i : Z) :
  view_in_buffer cfg v b -> 0 <= i ->
  i + Z.of_nat (sizeof T) <= JSDataView.byte_length v ->
  (Z.to_nat (JSDataView.byte_offset v + i) + sizeof T
   <= length (JSArrayBuffer.backing_store b))%nat.
Proof.
  intros (Ho & Hl & Hsum & Hmax) Hi Hbounds.
  unfold JSArrayBuffer.byte_length in *. lia.
Qed.

(** X4: a write in bounds touches the [sizeof(T)] bytes at
    [byte_offset + index] of the buffer of its view and nothing else: every
    other byte of that buffer, its length, its detachment flag, and every
    other buffer of the isolate are as the conversions left them. *)
Theorem write_touches_only_its_bytes
    (cfg : Target) (T : ElementType) (v : JSDataView.t) (request_index : Object)
    (le : bool) (value : Object) (method : string) (iso iso1 iso2 : Isolate)
    (i : Z) (x : Object) (b : JSArrayBuffer.t) :
  ToIndex request_index kInvalidDataViewAccessorOffset iso = (Normal i, iso1) ->
  DataViewConvertInput T value iso1 = (Normal x, iso2) ->
  array_buffers iso2 !! JSDataView.buffer v = Some b ->
  JSArrayBuffer.was_neutered b = false ->
  view_in_buffer cfg v b ->
  i + Z.of_nat (sizeof T) <= JSDataView.byte_length v ->
  let after := snd (SetViewValue cfg T v request_index le value method iso) in
  let p := Z.to_nat (JSDataView.byte_offset v + i) in
  exists b',
    array_buffers after !! JSDataView.buffer v = Some b' /\
    JSArrayBuffer.was_neutered b' = false /\
    length (JSArrayBuffer.backing_store b') = length (JSArrayBuffer.backing_store b) /\
    (forall j : nat, (j < p \/ p + sizeof T <= j)%nat ->
       JSArrayBuffer.backing_store b' !! j = JSArrayBuffer.backing_store b !! j) /\
    (forall address : nat, address <> JSDataView.buffer v ->
       array_buffers after !! address = array_buffers iso2 !! address) /\
    length (array_buffers after) = length (array_buffers iso2).
Proof.
  intros Hindex Hvalue Hbuffer Hattached Hview Hbounds after p. subst after.
  pose proof (ToIndex_range _ _ _ _ _ Hindex) as Hi.
  pose proof (write_position cfg T v b i Hview ltac:(lia) Hbounds) as Hfit.
  rewrite (SetViewValue_in_bounds cfg T v request_index le value method iso iso1 i
             Hindex x iso2 Hvalue b Hbuffer Hattached Hview Hbounds).
  cbn [snd]. unfold stored_bytes. rewrite union_bytes_stored.
  set (bytes := requested_order le _).
  assert (Hlen : length bytes = sizeof T).
  { subst bytes. now rewrite length_requested_order, length_le_bytes. }
  eexists. split; [apply with_backing_store_lookup; exact Hbuffer|].
  cbn [JSArrayBuffer.backing_store JSArrayBuffer.was_neutered].
  split; [exact Hattached|]. split; [apply length_write_bytes; fold p; lia|].
  split; [|split].
  - intros j Hj. apply lookup_write_bytes_outside; fold p; lia.
  - intros address Hne. unfold with_backing_store. cbn [array_buffers].
    apply list_lookup_insert_ne. congruence.
  - unfold with_backing_store. cbn [array_buffers]. apply length_insert.
Qed.

Lemma write_touches_only_its_bytes_witness :
  let after := snd (SetViewValue x64 Int16 whole_view (Number (int_to_double 5)) false
                      (Number (int_to_double (-2))) "DataView.prototype.getInt16"
                      example_isolate) in
  exists b',
    array_buffers after !! 0%nat = Some b' /\
    JSArrayBuffer.was_neutered b' = false /\
    length (JSArrayBuffer.backing_store b') = 8%nat /\
    (forall j : nat, (j < 5 \/ 5 + 2 <= j)%nat ->
       JSArrayBuffer.backing_store b' !! j = JSArrayBuffer.backing_store zeroes8 !! j) /\
    (forall address : nat, address <> 0%nat ->
       array_buffers after !! address = array_buffers example_isolate !! address) /\
    length (array_buffers after) = 2%nat.
Proof.
  apply (write_touches_only_its_bytes x64 Int16 whole_view
           (Number (int_to_double 5)) false (Number (int_to_double (-2)))
           "DataView.prototype.getInt16" example_isolate example_isolate
           example_isolate 5 (Number (int_to_double (-2))) zeroes8); concrete.
Defined.

(** ** Views over the same buffer *)

(** X5: views over the same buffer share its bytes.  A value written through
    one view is what a read of a type of the same size, with the same order
    flag, returns through any other view of that buffer whose index names the
    same byte of the buffer: the value written, cast to the type read. *)
Theorem overlapping_views_share_bytes
    (cfg : Target) (T T' : ElementType) (v v' : JSDataView.t) (le : bool)
    (index value index' : Object) (method method' : string)
    (iso iso1 iso2 : Isolate) (i i' : Z) (x : Object) (b : JSArrayBuffer.t) :
  ToIndex index kInvalidDataViewAccessorOffset iso = (Normal i, iso1) ->
  DataViewConvertInput T value iso1 = (Normal x, iso2) ->
  array_buffers iso2 !! JSDataView.buffer v = Some b ->
  JSArrayBuffer.was_neutered b = false ->
  view_in_buffer cfg v b ->
  i + Z.of_nat (sizeof T) <= JSDataView.byte_length v ->
  JSDataView.buffer v' = JSDataView.buffer v ->
  view_in_buffer cfg v' b ->
  i' + Z.of_nat (sizeof T') <= JSDataView.byte_length v' ->
  JSDataView.byte_offset v' + i' = JSDataView.byte_offset v + i ->
  sizeof T' = sizeof T ->
  let after := snd (SetViewValue cfg T v index le value method iso) in
  ToIndex index' kInvalidDataViewAccessorOffset after = (Normal i', after) ->
  fst (SetViewValue cfg T v index le value method iso) = Normal (Prim Undefined) /\
  GetViewValue cfg T' v' index' le method' after
  = (Normal (AllocateResult T' (cast T' (DataViewConvertValue T x))), after).
Proof.
  intros Hindex Hvalue Hbuffer Hattached Hview Hbounds Hsame Hview' Hbounds' Hbyte Hsize.
  pose proof (ToIndex_range _ _ _ _ _ Hindex) as Hi.
  pose proof (write_position cfg T v b i Hview ltac:(lia) Hbounds) as Hfit.
  rewrite (SetViewValue_in_bounds cfg T v index le value method iso iso1 i
             Hindex x iso2 Hvalue b Hbuffer Hattached Hview Hbounds).
  cbn [fst snd]. intros Hindex'. split; [reflexivity|].
  pose proof (length_union_bytes cfg T (DataViewConvertValue T x)) as Hub.
  set (store' := stored_bytes cfg le (JSArrayBuffer.backing_store b)
                   (Z.to_nat (JSDataView.byte_offset v + i))
                   (union_bytes cfg T (DataViewConvertValue T x))) in *.
  set (b' := {| JSArrayBuffer.backing_store := store';
                JSArrayBuffer.was_neutered := JSArrayBuffer.was_neutered b |}).
  assert (Hlen : length store' = length (JSArrayBuffer.backing_store b)).
  { subst store'. apply length_stored_bytes. lia. }
  rewrite (GetViewValue_in_bounds cfg T' v' index' le method' _ _ i' Hindex' b').
  - cbn [JSArrayBuffer.backing_store b']. rewrite Hbyte, Hsize. subst store'.
    rewrite <- Hub at 1. rewrite loaded_stored_bytes by lia.
    now rewrite (union_data_bytes_as cfg T' T) by exact Hsize.
  - rewrite Hsame. apply with_backing_store_lookup. exact Hbuffer.
  - exact Hattached.
  - destruct Hview' as (Ho & Hl & Hsum & Hmax).
    unfold view_in_buffer, JSArrayBuffer.byte_length in *.
    cbn [JSArrayBuffer.backing_store b']. rewrite Hlen. lia.
  - exact Hbounds'.
Qed.

Lemma overlapping_views_share_bytes_witness :
  let tail_view := {| JSDataView.buffer := 0; JSDataView.byte_offset := 4;
                      JSDataView.byte_length := 4 |} in
  let after := snd (SetViewValue ppc Int16 tail_view (Number (int_to_double 2)) true
                      (Number (int_to_double (-2))) "DataView.prototype.getInt16"
                      example_isolate) in
  fst (SetViewValue ppc Int16 tail_view (Number (int_to_double 2)) true
         (Number (int_to_double (-2))) "DataView.prototype.getInt16" example_isolate)
  = Normal (Prim Undefined) /\
  GetViewValue ppc Uint16 whole_view (Number (int_to_double 6)) true
    "DataView.prototype.getUint16" after
  = (Normal (Prim (Number (int_to_double 65534))), after).
Proof.
  apply (overlapping_views_share_bytes ppc Int16 Uint16
           {| JSDataView.buffer := 0; JSDataView.byte_offset := 4;
              JSDataView.byte_length := 4 |} whole_view true
           (Number (int_to_double 2)) (Number (int_to_double (-2)))
           (Number (int_to_double 6)) "DataView.prototype.getInt16"
           "DataView.prototype.getUint16" example_isolate example_isolate
           example_isolate 2 6 (Number (int_to_double (-2))) zeroes8); concrete.
Defined.

(** X6: a write is not seen by a read of other bytes.  A read in bounds
    through a view of another buffer, or of a range of the same buffer that
    does not meet the range written, returns after the write what it returned
    before it. *)
Theorem disjoint_write_not_seen
    (cfg : Target) (T T' : ElementType) (v v' : JSDataView.t) (le le' : bool)
    (index value index' : Object) (method method' : string)
    (iso iso1 iso2 : Isolate) (i i' : Z) (x : Object) (b b' : JSArrayBuffer.t) :
  ToIndex index kInvalidDataViewAccessorOffset iso = (Normal i, iso1) ->
  DataViewConvertInput T value iso1 = (Normal x, iso2) ->
  array_buffers iso2 !! JSDataView.buffer v = Some b ->
  JSArrayBuffer.was_neutered b = false ->
  view_in_buffer cfg v b ->
  i + Z.of_nat (sizeof T) <= JSDataView.byte_length v ->
  (forall s, ToIndex index' kInvalidDataViewAccessorOffset s = (Normal i', s)) ->
  array_buffers iso2 !! JSDataView.buffer v' = Some b' ->
  JSArrayBuffer.was_neutered b' = false ->
  view_in_buffer cfg v' b' ->
  i' + Z.of_nat (sizeof T') <= JSDataView.byte_length v' ->
  JSDataView.buffer v' <> JSDataView.buffer v \/
  JSDataView.byte_offset v' + i' + Z.of_nat (sizeof T') <= JSDataView.byte_offset v + i \/
  JSDataView.byte_offset v + i + Z.of_nat (sizeof T) <= JSDataView.byte_offset v' + i' ->
  let after := snd (SetViewValue cfg T v index le value method iso) in
  fst (SetViewValue cfg T v index le value method iso) = Normal (Prim Undefined) /\
  is_Normal (fst (GetViewValue cfg T' v' index' le' method' iso2)) = true /\
  fst (GetViewValue cfg T' v' index' le' method' after)
  = fst (GetViewValue cfg T' v' index' le' method' iso2).
Proof.
  intros Hindex Hvalue Hbuffer Hattached Hview Hbounds Hindex' Hbuffer' Hattached'
    Hview' Hbounds' Hapart.
  pose proof (ToIndex_range _ _ _ _ _ Hindex) as Hi.
  pose proof (ToIndex_range _ _ _ _ _ (Hindex' iso2)) as Hi'.
  pose proof (write_position cfg T v b i Hview ltac:(lia) Hbounds) as Hfit.
  pose proof (write_position cfg T' v' b' i' Hview' ltac:(lia) Hbounds') as Hfit'.
  rewrite (SetViewValue_in_bounds cfg T v index le value method iso iso1 i
             Hindex x iso2 Hvalue b Hbuffer Hattached Hview Hbounds).
  cbn [fst snd]. split; [reflexivity|].
  rewrite (GetViewValue_in_bounds cfg T' v' index' le' method' iso2 iso2 i'
             (Hindex' iso2) b' Hbuffer' Hattached' Hview' Hbounds').
  cbn [fst]. split; [reflexivity|].
  pose proof (length_union_bytes cfg T (DataViewConvertValue T x)) as Hub.
  set (bytes := union_bytes cfg T (DataViewConvertValue T x)) in *.
  set (p := Z.to_nat (JSDataView.byte_offset v + i)) in *.
  set (after := with_backing_store iso2 (JSDataView.buffer v) b
                  (stored_bytes cfg le (JSArrayBuffer.backing_store b) p bytes)).
  destruct (decide (JSDataView.buffer v' = JSDataView.buffer v)) as [Hsame | Hother].
  - assert (b' = b) as -> by congruence.
    assert (Hranges : JSDataView.byte_offset v' + i' + Z.of_nat (sizeof T')
                        <= JSDataView.byte_offset v + i \/
                      JSDataView.byte_offset v + i + Z.of_nat (sizeof T)
                        <= JSDataView.byte_offset v' + i')
      by (destruct Hapart as [Hne | Hranges]; [contradiction | exact Hranges]).
    set (b'' := {| JSArrayBuffer.backing_store :=
                     stored_bytes cfg le (JSArrayBuffer.backing_store b) p bytes;
                   JSArrayBuffer.was_neutered := JSArrayBuffer.was_neutered b |}).
    assert (Hlen : length (JSArrayBuffer.backing_store b'')
                   = length (JSArrayBuffer.backing_store b)).
    { cbn [JSArrayBuffer.backing_store b'']. apply length_stored_bytes. lia. }
    rewrite (GetViewValue_in_bounds cfg T' v' index' le' method' after after i'
               (Hindex' after) b'').
    + cbn [fst JSArrayBuffer.backing_store b'']. do 3 f_equal.
      unfold loaded_bytes, stored_bytes.
      destruct Hview as (Ho & _), Hview' as (Ho' & _).
      rewrite read_bytes_write_bytes_disjoint; [reflexivity | |].
      * destruct (NeedToFlipBytes cfg le); rewrite ?length_reverse; lia.
      * destruct (NeedToFlipBytes cfg le); rewrite ?length_reverse; subst p; lia.
    + rewrite Hsame. apply with_backing_store_lookup. exact Hbuffer.
    + exact Hattached.
    + destruct Hview' as (Ho' & Hl' & Hsum' & Hmax').
      unfold view_in_buffer, JSArrayBuffer.byte_length in *. rewrite Hlen. lia.
    + exact Hbounds'.
  - rewrite (GetViewValue_in_bounds cfg T' v' index' le' method' after after i'
               (Hindex' after) b'); try assumption; [reflexivity|].
    subst after. unfold with_backing_store. cbn [array_buffers].
    rewrite list_lookup_insert_ne by congruence. exact Hbuffer'.
Qed.

Lemma disjoint_write_not_seen_witness :
  let after := snd (SetViewValue x64 Int16 whole_view (Number (int_to_double 2)) true
                      (Number (int_to_double (-2))) "DataView.prototype.getInt16"
                      counting_isolate) in
  fst (SetViewValue x64 Int16 whole_view (Number (int_to_double 2)) true
         (Number (int_to_double (-2))) "DataView.prototype.getInt16" counting_isolate)
  = Normal (Prim Undefined) /\
  is_Normal (fst (GetViewValue x64 Uint32 whole_view (Number (int_to_double 4)) false
                    "DataView.prototype.getUint32" counting_isolate)) = true /\
  fst (GetViewValue x64 Uint32 whole_view (Number (int_to_double 4)) false
         "DataView.prototype.getUint32" after)
  = fst (GetViewValue x64 Uint32 whole_view (Number (int_to_double 4)) false
           "DataView.prototype.getUint32" counting_isolate).
Proof.
  apply (disjoint_write_not_seen x64 Int16 Uint32 whole_view whole_view true false
           (Number (int_to_double 2)) (Number (int_to_double (-2)))
           (Number (int_to_double 4)) "DataView.prototype.getInt16"
           "DataView.prototype.getUint32" counting_isolate counting_isolate
           counting_isolate 2 4 (Number (int_to_double (-2))) counting8 counting8);
    try (intros s; reflexivity); concrete.
Defined.

(** ** A read followed by a write *)

Lemma le_value_range (bytes : list Z) :
  all_bytes bytes -> 0 <= le_value bytes < 2 ^ (8 * Z.of_nat (length bytes)).
Proof.
  unfold all_bytes. induction 1 as [|x rest Hx Hrest IH].
  - cbn. lia.
  - cbn [le_value length].
    replace (8 * Z.of_nat (S (length rest))) with (8 + 8 * Z.of_nat (length rest)) by lia.
    rewrite Z.pow_add_r by lia. change (2 ^ 8) with 256. lia.
Qed.

Lemma le_bytes_le_value (bytes : list Z) :
  all_bytes bytes -> le_bytes (length bytes) (le_value bytes) = bytes.
Proof.
  unfold all_bytes. induction 1 as [|x rest Hx Hrest IH]; [reflexivity|].
  cbn [le_value length le_bytes].
  assert (Hlow : (x + 256 * le_value rest) mod 256 = x).
  { symmetry. apply Z.mod_unique with (q := le_value rest); lia. }
  assert (Hhigh : (x + 256 * le_value rest) / 256 = le_value rest).
  { symmetry. apply Z.div_unique with (r := x); lia. }
  now rewrite Hlow, Hhigh, IH.
Qed.

Lemma all_bytes_read_bytes (store : list Z) (p n : nat) :
  all_bytes store -> all_bytes (read_bytes store p n).
Proof. intros H. unfold all_bytes, read_bytes. now apply Forall_take, Forall_drop. Qed.

Lemma all_bytes_requested_order (le : bool) (bytes : list Z) :
  all_bytes bytes -> all_bytes (requested_order le bytes).
Proof.
  intros H. unfold requested_order, all_bytes. destruct le; [exact H|].
  now apply Forall_reverse.
Qed.

Lemma all_bytes_le_bytes (n : nat) (u : Z) : all_bytes (le_bytes n u).
Proof.
  unfold all_bytes. revert u. induction n as [|n IH]; intros u; cbn [le_bytes].
  - constructor.
  - constructor; [apply Z.mod_pos_bound; lia | apply IH].
Qed.

(** The value a read hands out, converted as a write converts it, is the
    pattern read. *)
Lemma DataViewConvertValue_AllocateResult (T : ElementType) (u : Z) :
  0 <= u < 2 ^ value_bits T ->
  (T = Float32 -> float_value u <> S754_nan) ->
  to_unsigned (value_bits T) (DataViewConvertValue T (AllocateResult T (cast T u))) = u.
Proof.
  intros Hu Hnan. unfold cast.
  destruct T; cbn [is_signed AllocateResult DataViewConvertValue Number_value BigInt_cast];
    unfold value_bits in *; cbn [sizeof] in *;
    change (8 * Z.of_nat 1) with 8 in *; change (8 * Z.of_nat 2) with 16 in *;
    change (8 * Z.of_nat 4) with 32 in *; change (8 * Z.of_nat 8) with 64 in *;
    unfold AsInt64, AsUint64.
  - (* Int8 *)
    pose proof (to_signed_range 8 u ltac:(lia)).
    rewrite DoubleToInt32_int_to_double by lia.
    rewrite to_signed_idem, to_unsigned_signed by lia. now apply to_unsigned_small.
  - (* Uint8 *)
    pose proof (to_unsigned_range 8 u ltac:(lia)).
    rewrite DoubleToUint32_int_to_double by lia.
    rewrite !to_unsigned_idem by lia. now apply to_unsigned_small.
  - (* Int16 *)
    pose proof (to_signed_range 16 u ltac:(lia)).
    rewrite DoubleToInt32_int_to_double by lia.
    rewrite to_signed_idem, to_unsigned_signed by lia. now apply to_unsigned_small.
  - (* Uint16 *)
    pose proof (to_unsigned_range 16 u ltac:(lia)).
    rewrite DoubleToUint32_int_to_double by lia.
    rewrite !to_unsigned_idem by lia. now apply to_unsigned_small.
  - (* Int32 *)
    pose proof (to_signed_range 32 u ltac:(lia)).
    rewrite DoubleToInt32_int_to_double by lia.
    rewrite to_unsigned_signed by lia. now apply to_unsigned_small.
  - (* Uint32 *)
    pose proof (to_unsigned_range 32 u ltac:(lia)).
    rewrite DoubleToUint32_int_to_double by lia.
    rewrite !to_unsigned_idem by lia. now apply to_unsigned_small.
  - (* Float32 *)
    rewrite (to_unsigned_small 32 u) by lia.
    rewrite double_to_float_exact by (lia || auto). now apply to_unsigned_small.
  - (* Float64 *)
    rewrite !to_unsigned_idem by lia. now apply to_unsigned_small.
  - (* BigInt64 *)
    rewrite to_signed_idem, to_unsigned_signed by lia. now apply to_unsigned_small.
  - (* BigUint64 *)
    rewrite !to_unsigned_idem by lia. now apply to_unsigned_small.
Qed.

Lemma DataViewConvertInput_AllocateResult (T : ElementType) (k : Z) (iso : Isolate) :
  DataViewConvertInput T (AllocateResult T k) iso = (Normal (AllocateResult T k), iso).
Proof. destruct T; reflexivity. Qed.

(** X7: writing back what was read changes nothing.  The value a read in
    bounds returns, written at the same index with the same order flag and
    type, completes and leaves every byte of the buffer as it was, on a
    buffer that holds bytes.  For float32 the four bytes must not spell a
    NaN, whose payload the conversions do not keep. *)
Theorem write_back_restores_bytes
    (cfg : Target) (T : ElementType) (v : JSDataView.t) (le : bool)
    (index : Object) (method : string) (iso : Isolate) (i : Z) (b : JSArrayBuffer.t) :
  (forall s, ToIndex index kInvalidDataViewAccessorOffset s = (Normal i, s)) ->
  array_buffers iso !! JSDataView.buffer v = Some b ->
  JSArrayBuffer.was_neutered b = false ->
  view_in_buffer cfg v b ->
  i + Z.of_nat (sizeof T) <= JSDataView.byte_length v ->
  all_bytes (JSArrayBuffer.backing_store b) ->
  (T = Float32 ->
   float_value (le_value (requested_order le
     (read_bytes (JSArrayBuffer.backing_store b)
        (Z.to_nat (JSDataView.byte_offset v + i)) (sizeof T)))) <> S754_nan) ->
  exists r,
    GetViewValue cfg T v index le method iso = (Normal r, iso) /\
    SetViewValue cfg T v index le r method iso = (Normal (Prim Undefined), iso).
Proof.
  intros Hindex Hbuffer Hattached Hview Hbounds Hbytes Hnan.
  pose proof (ToIndex_range _ _ _ _ _ (Hindex iso)) as Hi.
  pose proof (write_position cfg T v b i Hview ltac:(lia) Hbounds) as Hfit.
  set (p := Z.to_nat (JSDataView.byte_offset v + i)) in *.
  set (bytes := requested_order le (read_bytes (JSArrayBuffer.backing_store b) p (sizeof T)))
    in *.
  assert (Hlen : length bytes = sizeof T).
  { subst bytes. rewrite length_requested_order. now apply length_read_bytes. }
  assert (Hall : all_bytes bytes).
  { subst bytes. now apply all_bytes_requested_order, all_bytes_read_bytes. }
  pose proof (le_value_range bytes Hall) as Hrange. rewrite Hlen in Hrange.
  change (8 * Z.of_nat (sizeof T)) with (value_bits T) in Hrange.
  exists (AllocateResult T (cast T (le_value bytes))). split.
  - rewrite (GetViewValue_in_bounds cfg T v index le method iso iso i
               (Hindex iso) b Hbuffer Hattached Hview Hbounds).
    unfold loaded_bytes. now rewrite union_data_loaded.
  - rewrite (SetViewValue_in_bounds cfg T v index le _ method iso iso i
               (Hindex iso) _ iso (DataViewConvertInput_AllocateResult T _ iso)
               b Hbuffer Hattached Hview Hbounds).
    f_equal. unfold stored_bytes. rewrite union_bytes_stored.
    rewrite DataViewConvertValue_AllocateResult by assumption.
    rewrite <- Hlen, le_bytes_le_value by exact Hall.
    subst bytes. rewrite requested_order_involutive.
    fold p. rewrite write_read_bytes by lia.
    now apply with_backing_store_id.
Qed.

Lemma write_back_restores_bytes_witness :
  exists r,
    GetViewValue ppc Float32 whole_view (Number (int_to_double 3)) true
      "DataView.prototype.getFloat32" counting_isolate = (Normal r, counting_isolate) /\
    SetViewValue ppc Float32 whole_view (Number (int_to_double 3)) true r
      "DataView.prototype.getFloat32" counting_isolate
    = (Normal (Prim Undefined), counting_isolate).
Proof.
  apply (write_back_restores_bytes ppc Float32 whole_view true
           (Number (int_to_double 3)) "DataView.prototype.getFloat32"
           counting_isolate 3 counting8);
    try (intros s; reflexivity); try (repeat constructor; lia);
    try (intros _; vm_compute; discriminate); concrete.
Defined.

(** X8: a read in bounds returns a value of its type.  For the integer types
    up to 32 bits it is a Number holding exactly an integer of the range of
    the type, for the two 64-bit types a BigInt of the range of the type, and
    for the two floating-point types a Number. *)
Theorem read_result_in_range
    (cfg : Target) (T : ElementType) (v : JSDataView.t) (request_index : Object)
    (le : bool) (method : string) (iso iso1 : Isolate) (i : Z) (b : JSArrayBuffer.t) :
  ToIndex request_index kInvalidDataViewAccessorOffset iso = (Normal i, iso1) ->
  array_buffers iso1 !! JSDataView.buffer v = Some b ->
  JSArrayBuffer.was_neutered b = false ->
  view_in_buffer cfg v b ->
  i + Z.of_nat (sizeof T) <= JSDataView.byte_length v ->
  exists k,
    (if is_signed T then - 2 ^ (value_bits T - 1) <= k < 2 ^ (value_bits T - 1)
     else 0 <= k < 2 ^ value_bits T) /\
    match T with
    | Float32 =>
        GetViewValue cfg T v request_index le method iso
        = (Normal (Prim (Number (float_to_double k))), iso1)
    | Float64 =>
        GetViewValue cfg T v request_index le method iso
        = (Normal (Prim (Number k)), iso1)
    | BigInt64 | BigUint64 =>
        GetViewValue cfg T v request_index le method iso
        = (Normal (Prim (BigInt k)), iso1)
    | _ =>
        GetViewValue cfg T v request_index le method iso
        = (Normal (Prim (Number (int_to_double k))), iso1) /\
        double_truncate (int_to_double k) = Some k
    end.
Proof.
  intros Hindex Hbuffer Hattached Hview Hbounds.
  rewrite (GetViewValue_in_bounds cfg T v request_index le method iso iso1 i
             Hindex b Hbuffer Hattached Hview Hbounds).
  unfold union_data. set (pattern := le_value _).
  pose proof (to_signed_range (value_bits T) pattern (value_bits_pos T)) as Hs.
  pose proof (to_unsigned_range (value_bits T) pattern ltac:(pose proof (value_bits_pos T); lia))
    as Hu.
  destruct T; cbn [is_signed] in *; eexists; (split; [eassumption|]);
    cbn [AllocateResult]; try reflexivity;
    (split; [reflexivity|]); apply double_truncate_int_to_double;
    unfold value_bits in *; cbn [sizeof] in *; lia.
Qed.

Lemma read_result_in_range_witness :
  exists k,
    - 2 ^ 15 <= k < 2 ^ 15 /\
    GetViewValue x64 Int16 whole_view (Number (int_to_double 6)) true
      "DataView.prototype.getInt16" counting_isolate
    = (Normal (Prim (Number (int_to_double k))), counting_isolate) /\
    double_truncate (int_to_double k) = Some k.
Proof.
  apply (read_result_in_range x64 Int16 whole_view (Number (int_to_double 6)) true
           "DataView.prototype.getInt16" counting_isolate counting_isolate 6 counting8);
    concrete.
Defined.

(** ** The accessors on every path *)

(** The bytes the two copy routines leave in the scratch array of a read. *)
Lemma scratch_after_read (cfg : Target) (le : bool) (store : list Z) (p n : nat) :
  (p + n <= length store)%nat ->
  (if NeedToFlipBytes cfg le
   then FlipBytes n (replicate n 0) 0 store p
   else CopyBytes n (replicate n 0) 0 store p)
  = loaded_bytes cfg le store p n.
Proof.
  intros Hfit. unfold loaded_bytes. destruct (NeedToFlipBytes cfg le).
  - rewrite FlipBytes_spec by (rewrite ?length_replicate; lia).
    apply write_scratch. rewrite length_reverse. now apply length_read_bytes.
  - rewrite CopyBytes_spec by (rewrite ?length_replicate; lia).
    apply write_scratch. now apply length_read_bytes.
Qed.

(** The storage the two copy routines leave behind in a write. *)
Lemma storage_after_write (cfg : Target) (le : bool) (store : list Z) (p : nat)
    (bytes : list Z) :
  (p + length bytes <= length store)%nat ->
  (if NeedToFlipBytes cfg le
   then FlipBytes (length bytes) store p bytes 0
   else CopyBytes (length bytes) store p bytes 0)
  = stored_bytes cfg le store p bytes.
Proof.
  intros Hfit. unfold stored_bytes. destruct (NeedToFlipBytes cfg le).
  - rewrite FlipBytes_spec by lia. now rewrite read_bytes_all.
  - rewrite CopyBytes_spec by lia. now rewrite read_bytes_all.
Qed.

(** Every path through a write: it ends in the isolate the conversions have
    left, or it completes and has stored the bytes of the value inside the
    storage of the buffer. *)
Lemma SetViewValue_outcome (cfg : Target) (T : ElementType) (v : JSDataView.t)
    (request_index : Object) (le : bool) (value : Object) (method : string)
    (iso iso1 iso2 : Isolate) (i : Z) (x : Object) :
  ToIndex request_index kInvalidDataViewAccessorOffset iso = (Normal i, iso1) ->
  DataViewConvertInput T value iso1 = (Normal x, iso2) ->
  (is_Normal (fst (SetViewValue cfg T v request_index le value method iso)) = false /\
   snd (SetViewValue cfg T v request_index le value method iso) = iso2) \/
  exists (b : JSArrayBuffer.t) (p : nat),
    array_buffers iso2 !! JSDataView.buffer v = Some b /\
    JSArrayBuffer.was_neutered b = false /\
    (p + sizeof T <= length (JSArrayBuffer.backing_store b))%nat /\
    SetViewValue cfg T v request_index le value method iso
    = (Normal (Prim Undefined),
       with_backing_store iso2 (JSDataView.buffer v) b
         (write_bytes (JSArrayBuffer.backing_store b) p
            (requested_order le
               (le_bytes (sizeof T)
                  (to_unsigned (value_bits T) (DataViewConvertValue T x)))))).
Proof.
  intros Hindex Hvalue. unfold SetViewValue, bind. rewrite Hindex, Hvalue.
  destruct (TryNumberToSize cfg i) as [get_index|]; [|left; split; reflexivity].
  unfold load_buffer.
  destruct (array_buffers iso2 !! JSDataView.buffer v) as [b|] eqn:Hbuffer;
    [|left; split; reflexivity].
  destruct (JSArrayBuffer.was_neutered b) eqn:Hattached; [left; split; reflexivity|].
  unfold NumberToSize.
  destruct (TryNumberToSize cfg (JSDataView.byte_offset v)) as [offset|];
    [|left; split; reflexivity].
  destruct (TryNumberToSize cfg (JSDataView.byte_length v)) as [len|];
    [|left; split; reflexivity].
  cbv [ret].
  destruct ((size_add cfg get_index (Z.of_nat (sizeof T)) >? len)
            || (size_add cfg get_index (Z.of_nat (sizeof T)) <? get_index));
    [left; split; reflexivity|].
  destruct (TryNumberToSize cfg (JSArrayBuffer.byte_length b)) as [buffer_length|];
    [|left; split; reflexivity].
  cbv [ret DCHECK].
  destruct (buffer_length >=? size_add cfg (size_add cfg offset get_index)
                                 (Z.of_nat (sizeof T)));
    [|left; split; reflexivity].
  cbv [ret check_access DCHECK].
  destruct ((0 <=? size_add cfg offset get_index)
            && (size_add cfg offset get_index + Z.of_nat (sizeof T)
                <=? JSArrayBuffer.byte_length b)) eqn:Haccess;
    [|left; split; reflexivity].
  apply andb_true_iff in Haccess as [Hlow Hhigh].
  apply Z.leb_le in Hlow, Hhigh. unfold JSArrayBuffer.byte_length in Hhigh.
  set (p' := Z.to_nat (size_add cfg offset get_index)).
  right. exists b, p'.
  split; [reflexivity|]. split; [exact Hattached|]. split; [subst p'; lia|].
  cbv [ret store_backing_store]. rewrite Hbuffer.
  f_equal. unfold with_backing_store. do 3 f_equal.
  pose proof (length_union_bytes cfg T (DataViewConvertValue T x)) as Hub.
  assert (Hcopy : forall n bytes, length bytes = n ->
            (p' + n <= length (JSArrayBuffer.backing_store b))%nat ->
            (if NeedToFlipBytes cfg le
             then FlipBytes n (JSArrayBuffer.backing_store b) p' bytes 0
             else CopyBytes n (JSArrayBuffer.backing_store b) p' bytes 0)
            = stored_bytes cfg le (JSArrayBuffer.backing_store b) p' bytes).
  { intros n bytes <- Hn. now apply storage_after_write. }
  rewrite (Hcopy _ _ Hub) by (subst p'; lia).
  unfold stored_bytes. now rewrite union_bytes_stored.
Qed.

Lemma all_bytes_write_bytes (store : list Z) (p : nat) (bytes : list Z) :
  all_bytes store -> all_bytes bytes -> all_bytes (write_bytes store p bytes).
Proof.
  unfold all_bytes, write_bytes. intros Hs Hb.
  apply Forall_app. split; [now apply Forall_take|].
  apply Forall_app. split; [exact Hb | now apply Forall_drop].
Qed.

(** X9: whatever its outcome, a write keeps the shape of the heap: it leaves
    the byte length and the detachment flag of every buffer as the
    conversions of its arguments have left them, and what it stores are
    bytes.  A failing write stores nothing at all. *)
Theorem write_keeps_heap_shape
    (cfg : Target) (T : ElementType) (v : JSDataView.t) (request_index : Object)
    (le : bool) (value : Object) (method : string) (iso iso1 iso2 : Isolate)
    (i : Z) (x : Object) :
  ToIndex request_index kInvalidDataViewAccessorOffset iso = (Normal i, iso1) ->
  DataViewConvertInput T value iso1 = (Normal x, iso2) ->
  let r := SetViewValue cfg T v request_index le value method iso in
  shape (snd r) = shape iso2 /\
  (heap_of_bytes iso2 -> heap_of_bytes (snd r)) /\
  (is_Normal (fst r) = false -> snd r = iso2).
Proof.
  intros Hindex Hvalue r. subst r.
  destruct (SetViewValue_outcome cfg T v request_index le value method iso iso1 iso2
              i x Hindex Hvalue) as [[Hfail ->] | (b & p & Hbuffer & Hattached & Hfit & ->)].
  - auto.
  - cbn [fst snd]. set (bytes := requested_order le _).
    assert (Hlen : length bytes = sizeof T).
    { subst bytes. now rewrite length_requested_order, length_le_bytes. }
    split; [|split].
    + unfold shape, with_backing_store. cbn [array_buffers].
      rewrite list_fmap_insert. apply list_insert_id.
      rewrite list_lookup_fmap, Hbuffer.
      cbn [fmap option_fmap option_map JSArrayBuffer.backing_store
             JSArrayBuffer.was_neutered].
      now rewrite length_write_bytes by lia.
    + unfold heap_of_bytes, with_backing_store. cbn [array_buffers]. intros Hheap.
      apply Forall_insert; [exact Hheap|]. cbn [JSArrayBuffer.backing_store].
      apply all_bytes_write_bytes.
      * exact (proj1 (Forall_lookup _ _) Hheap _ _ Hbuffer).
      * subst bytes. apply all_bytes_requested_order, all_bytes_le_bytes.
    + discriminate.
Qed.

Lemma write_keeps_heap_shape_witness :
  let r := SetViewValue x64 Float64 whole_view (Number (int_to_double 0)) true
             (Number (int_to_double 3)) "DataView.prototype.getFloat64"
             counting_isolate in
  shape (snd r) = shape counting_isolate /\
  (heap_of_bytes counting_isolate -> heap_of_bytes (snd r)) /\
  (is_Normal (fst r) = false -> snd r = counting_isolate).
Proof.
  apply (write_keeps_heap_shape x64 Float64 whole_view (Number (int_to_double 0)) true
           (Number (int_to_double 3)) "DataView.prototype.getFloat64"
           counting_isolate counting_isolate counting_isolate 0
           (Number (int_to_double 3))); concrete.
Defined.

(** ** Safety of the accessors *)

Lemma GetViewValue_checked (cfg : Target) (T : ElementType) (v : JSDataView.t)
    (request_index : Object) (le : bool) (method : string) (iso iso1 : Isolate)
    (i : Z) (b : JSArrayBuffer.t) :
  ToIndex request_index kInvalidDataViewAccessorOffset iso = (Normal i, iso1) ->
  array_buffers iso1 !! JSDataView.buffer v = Some b ->
  JSArrayBuffer.was_neutered b = true \/ view_in_buffer cfg v b ->
  checked_outcome method (fst (GetViewValue cfg T v request_index le method iso)).
Proof.
  intros Hindex Hbuffer Hstate.
  destruct (Z_lt_ge_dec (kMaxSize cfg) i) as [Hbig | Hsmall].
  { rewrite (GetViewValue_size_overflow cfg T v _ le method _ _ _ Hindex Hbig).
    cbn. auto. }
  destruct (JSArrayBuffer.was_neutered b) eqn:Hflag.
  { rewrite (GetViewValue_detached cfg T v _ le method _ _ _ Hindex b Hbuffer
               ltac:(lia) Hflag).
    cbn. auto. }
  destruct Hstate as [Hd | Hview]; [discriminate|].
  destruct (Z_lt_ge_dec (JSDataView.byte_length v) (i + Z.of_nat (sizeof T)))
    as [Hout | Hin].
  - rewrite (GetViewValue_out_of_bounds cfg T v _ le method _ _ _ Hindex b Hbuffer
               Hflag (view_in_buffer_fit _ _ _ Hview) ltac:(lia) Hout).
    cbn. auto.
  - rewrite (GetViewValue_in_bounds cfg T v _ le method _ _ _ Hindex b Hbuffer
               Hflag Hview ltac:(lia)).
    exact I.
Qed.

Lemma SetViewValue_checked (cfg : Target) (T : ElementType) (v : JSDataView.t)
    (request_index : Object) (le : bool) (value : Object) (method : string)
    (iso iso1 iso2 : Isolate) (i : Z) (x : Object) (b : JSArrayBuffer.t) :
  ToIndex request_index kInvalidDataViewAccessorOffset iso = (Normal i, iso1) ->
  DataViewConvertInput T value iso1 = (Normal x, iso2) ->
  array_buffers iso2 !! JSDataView.buffer v = Some b ->
  JSArrayBuffer.was_neutered b = true \/ view_in_buffer cfg v b ->
  checked_outcome method (fst (SetViewValue cfg T v request_index le value method iso)).
Proof.
  intros Hindex Hvalue Hbuffer Hstate.
  destruct (Z_lt_ge_dec (kMaxSize cfg) i) as [Hbig | Hsmall].
  { rewrite (SetViewValue_size_overflow cfg T v _ le value method _ _ _ Hindex _ _
               Hvalue Hbig).
    cbn. auto. }
  destruct (JSArrayBuffer.was_neutered b) eqn:Hflag.
  { rewrite (SetViewValue_detached cfg T v _ le value method _ _ _ Hindex _ _ Hvalue
               b Hbuffer ltac:(lia) Hflag).
    cbn. auto. }
  destruct Hstate as [Hd | Hview]; [discriminate|].
  destruct (Z_lt_ge_dec (JSDataView.byte_length v) (i + Z.of_nat (sizeof T)))
    as [Hout | Hin].
  - rewrite (SetViewValue_out_of_bounds cfg T v _ le value method _ _ _ Hindex _ _
               Hvalue b Hbuffer Hflag (view_in_buffer_fit _ _ _ Hview) ltac:(lia) Hout).
    cbn. auto.
  - rewrite (SetViewValue_in_bounds cfg T v _ le value method _ _ _ Hindex _ _
               Hvalue b Hbuffer Hflag Hview ltac:(lia)).
    exact I.
Qed.

(** X10: the accessors never reach outside the storage.  Through a view that
    lies inside its buffer, or whose buffer is detached, at the time of the
    checks, a read or a write whose arguments have been converted completes or
    raises the RangeError of the index checks or the TypeError of the
    detachment check, whatever the index: no [CHECK] or [DCHECK] fails and no
    byte outside the storage is read or written. *)
Theorem accessors_stay_in_storage
    (cfg : Target) (T : ElementType) (v : JSDataView.t) (request_index : Object)
    (le : bool) (value : Object) (method : string) (iso iso1 iso2 : Isolate)
    (i : Z) (x : Object) (b1 b2 : JSArrayBuffer.t) :
  ToIndex request_index kInvalidDataViewAccessorOffset iso = (Normal i, iso1) ->
  DataViewConvertInput T value iso1 = (Normal x, iso2) ->
  array_buffers iso1 !! JSDataView.buffer v = Some b1 ->
  JSArrayBuffer.was_neutered b1 = true \/ view_in_buffer cfg v b1 ->
  array_buffers iso2 !! JSDataView.buffer v = Some b2 ->
  JSArrayBuffer.was_neutered b2 = true \/ view_in_buffer cfg v b2 ->
  checked_outcome method (fst (GetViewValue cfg T v request_index le method iso)) /\
  checked_outcome method (fst (SetViewValue cfg T v request_index le value method iso)).
Proof.
  intros Hindex Hvalue Hb1 Hs1 Hb2 Hs2. split.
  - exact (GetViewValue_checked cfg T v request_index le method iso iso1 i b1
             Hindex Hb1 Hs1).
  - exact (SetViewValue_checked cfg T v request_index le value method iso iso1 iso2
             i x b2 Hindex Hvalue Hb2 Hs2).
Qed.

(** A Float64 access at index 2^53 - 1, the largest index the conversion lets
    through, on a target with a 32-bit [size_t]. *)
Lemma accessors_stay_in_storage_witness :
  checked_outcome "DataView.prototype.getFloat64"
    (fst (GetViewValue ppc Float64 whole_view (Number (int_to_double (2 ^ 53 - 1))) true
            "DataView.prototype.getFloat64" example_isolate)) /\
  checked_outcome "DataView.prototype.getFloat64"
    (fst (SetViewValue ppc Float64 whole_view (Number (int_to_double (2 ^ 53 - 1))) true
            (Number (int_to_double 1)) "DataView.prototype.getFloat64" example_isolate)).
Proof.
  apply (accessors_stay_in_storage ppc Float64 whole_view
           (Number (int_to_double (2 ^ 53 - 1))) true (Number (int_to_double 1))
           "DataView.prototype.getFloat64" example_isolate example_isolate
           example_isolate (2 ^ 53 - 1) (Number (int_to_double 1)) zeroes8 zeroes8);
    try (right; unfold view_in_buffer; cbn; lia); concrete.
Defined.

(** ** Independence of the target *)

Lemma GetViewValue_any_target (cfg cfg' : Target) (T : ElementType) (v : JSDataView.t)
    (request_index : Object) (le : bool) (method : string) (iso iso1 : Isolate)
    (i : Z) (b : JSArrayBuffer.t) :
  ToIndex request_index kInvalidDataViewAccessorOffset iso = (Normal i, iso1) ->
  array_buffers iso1 !! JSDataView.buffer v = Some b ->
  JSArrayBuffer.was_neutered b = false ->
  view_in_buffer cfg v b -> view_in_buffer cfg' v b ->
  GetViewValue cfg T v request_index le method iso
  = GetViewValue cfg' T v request_index le method iso.
Proof.
  intros Hindex Hbuffer Hflag Hview Hview'.
  assert (Hone : forall c, view_in_buffer c v b ->
            GetViewValue c T v request_index le method iso
            = if i + Z.of_nat (sizeof T) <=? JSDataView.byte_length v
              then (Normal (AllocateResult T (cast T (le_value (requested_order le
                      (read_bytes (JSArrayBuffer.backing_store b)
                         (Z.to_nat (JSDataView.byte_offset v + i)) (sizeof T)))))), iso1)
              else (Throw (NewRangeError kInvalidDataViewAccessorOffset None), iso1)).
  { intros c Hc.
    destruct (i + Z.of_nat (sizeof T) <=? JSDataView.byte_length v) eqn:Etest.
    - apply Z.leb_le in Etest.
      rewrite (GetViewValue_in_bounds c T v _ le method _ _ _ Hindex b Hbuffer
                 Hflag Hc Etest).
      unfold loaded_bytes. now rewrite union_data_loaded.
    - apply Z.leb_gt in Etest.
      destruct (Z_lt_ge_dec (kMaxSize c) i) as [Hbig | Hsmall].
      + exact (GetViewValue_size_overflow c T v _ le method _ _ _ Hindex Hbig).
      + exact (GetViewValue_out_of_bounds c T v _ le method _ _ _ Hindex b Hbuffer
                 Hflag (view_in_buffer_fit _ _ _ Hc) ltac:(lia) Etest). }
  now rewrite (Hone cfg Hview), (Hone cfg' Hview').
Qed.

Lemma SetViewValue_any_target (cfg cfg' : Target) (T : ElementType) (v : JSDataView.t)
    (request_index : Object) (le : bool) (value : Object) (method : string)
    (iso iso1 iso2 : Isolate) (i : Z) (x : Object) (b : JSArrayBuffer.t) :
  ToIndex request_index kInvalidDataViewAccessorOffset iso = (Normal i, iso1) ->
  DataViewConvertInput T value iso1 = (Normal x, iso2) ->
  array_buffers iso2 !! JSDataView.buffer v = Some b ->
  JSArrayBuffer.was_neutered b = false ->
  view_in_buffer cfg v b -> view_in_buffer cfg' v b ->
  SetViewValue cfg T v request_index le value method iso
  = SetViewValue cfg' T v request_index le value method iso.
Proof.
  intros Hindex Hvalue Hbuffer Hflag Hview Hview'.
  assert (Hone : forall c, view_in_buffer c v b ->
            SetViewValue c T v request_index le value method iso
            = if i + Z.of_nat (sizeof T) <=? JSDataView.byte_length v
              then (Normal (Prim Undefined),
                    with_backing_store iso2 (JSDataView.buffer v) b
                      (write_bytes (JSArrayBuffer.backing_store b)
                         (Z.to_nat (JSDataView.byte_offset v + i))
                         (requested_order le
                            (le_bytes (sizeof T)
                               (to_unsigned (value_bits T) (DataViewConvertValue T x))))))
              else (Throw (NewRangeError kInvalidDataViewAccessorOffset None), iso2)).
  { intros c Hc.
    destruct (i + Z.of_nat (sizeof T) <=? JSDataView.byte_length v) eqn:Etest.
    - apply Z.leb_le in Etest.
      rewrite (SetViewValue_in_bounds c T v _ le value method _ _ _ Hindex _ _ Hvalue
                 b Hbuffer Hflag Hc Etest).
      unfold stored_bytes. now rewrite union_bytes_stored.
    - apply Z.leb_gt in Etest.
      destruct (Z_lt_ge_dec (kMaxSize c) i) as [Hbig | Hsmall].
      + exact (SetViewValue_size_overflow c T v _ le value method _ _ _ Hindex _ _
                 Hvalue Hbig).
      + exact (SetViewValue_out_of_bounds c T v _ le value method _ _ _ Hindex _ _
                 Hvalue b Hbuffer Hflag (view_in_buffer_fit _ _ _ Hc) ltac:(lia) Etest). }
  now rewrite (Hone cfg Hview), (Hone cfg' Hview').
Qed.

(** X11: on an attached buffer the accessors behave alike on every target.
    For a view that lies inside its buffer, a read or a write whose arguments
    have been converted has the same outcome and leaves the same isolate
    whatever the byte order and the pointer width of the target: the result,
    the bytes stored and the error raised are functions of the arguments and
    of the buffer alone. *)
Theorem accessors_agree_on_all_targets
    (cfg cfg' : Target) (T : ElementType) (v : JSDataView.t) (request_index : Object)
    (le : bool) (value : Object) (method : string) (iso iso1 iso2 : Isolate)
    (i : Z) (x : Object) (b1 b2 : JSArrayBuffer.t) :
  ToIndex request_index kInvalidDataViewAccessorOffset iso = (Normal i, iso1) ->
  DataViewConvertInput T value iso1 = (Normal x, iso2) ->
  array_buffers iso1 !! JSDataView.buffer v = Some b1 ->
  JSArrayBuffer.was_neutered b1 = false ->
  view_in_buffer cfg v b1 -> view_in_buffer cfg' v b1 ->
  array_buffers iso2 !! JSDataView.buffer v = Some b2 ->
  JSArrayBuffer.was_neutered b2 = false ->
  view_in_buffer cfg v b2 -> view_in_buffer cfg' v b2 ->
  GetViewValue cfg T v request_index le method iso
    = GetViewValue cfg' T v request_index le method iso /\
  SetViewValue cfg T v request_index le value method iso
    = SetViewValue cfg' T v request_index le value method iso.
Proof.
  intros Hindex Hvalue Hb1 Hf1 Hv1 Hv1' Hb2 Hf2 Hv2 Hv2'. split.
  - exact (GetViewValue_any_target cfg cfg' T v request_index le method iso iso1 i b1
             Hindex Hb1 Hf1 Hv1 Hv1').
  - exact (SetViewValue_any_target cfg cfg' T v request_index le value method iso iso1
             iso2 i x b2 Hindex Hvalue Hb2 Hf2 Hv2 Hv2').
Qed.

Lemma accessors_agree_on_all_targets_witness :
  GetViewValue x64 Uint32 whole_view (Number (int_to_double 2)) true
    "DataView.prototype.getUint32" counting_isolate
    = GetViewValue ppc Uint32 whole_view (Number (int_to_double 2)) true
        "DataView.prototype.getUint32" counting_isolate /\
  SetViewValue x64 Uint32 whole_view (Number (int_to_double 2)) true
    (Number (int_to_double 7)) "DataView.prototype.getUint32" counting_isolate
    = SetViewValue ppc Uint32 whole_view (Number (int_to_double 2)) true
        (Number (int_to_double 7)) "DataView.prototype.getUint32" counting_isolate.
Proof.
  apply (accessors_agree_on_all_targets x64 ppc Uint32 whole_view
           (Number (int_to_double 2)) true (Number (int_to_double 7))
           "DataView.prototype.getUint32" counting_isolate counting_isolate
           counting_isolate 2 (Number (int_to_double 7)) counting8 counting8);
    concrete.
Defined.

(** ** The copy routines, byte by byte *)

Lemma lookup_read_bytes (store : list Z) (p n k : nat) :
  (k < n)%nat -> read_bytes store p n !! k = store !! (p + k)%nat.
Proof.
  intros Hk. unfold read_bytes. rewrite lookup_take_lt by exact Hk. apply lookup_drop.
Qed.

(** X12: [CopyBytes<n>] and [FlipBytes<n>] write exactly [n] bytes.  With
    both ranges inside their arrays, byte [k] of the target range is byte [k]
    of the source range after a copy and byte [n - 1 - k] after a flip; every
    byte of the target outside the range and the length of the target are
    unchanged. *)
Theorem copy_routines_write_n_bytes
    (n : nat) (target : list Z) (tp : nat) (source : list Z) (sp : nat) :
  (tp + n <= length target)%nat -> (sp + n <= length source)%nat ->
  let copied := CopyBytes n target tp source sp in
  let flipped := FlipBytes n target tp source sp in
  (forall k : nat, (k < n)%nat -> copied !! (tp + k)%nat = source !! (sp + k)%nat) /\
  (forall k : nat, (k < n)%nat ->
     flipped !! (tp + k)%nat = source !! (sp + (n - 1 - k))%nat) /\
  (forall j : nat, (j < tp \/ tp + n <= j)%nat ->
     copied !! j = target !! j /\ flipped !! j = target !! j) /\
  length copied = length target /\ length flipped = length target.
Proof.
  intros Ht Hs copied flipped. subst copied flipped.
  rewrite CopyBytes_spec, FlipBytes_spec by assumption.
  pose proof (length_read_bytes source sp n Hs) as Hlen.
  assert (Hrev : length (reverse (read_bytes source sp n)) = n)
    by now rewrite length_reverse.
  split; [|split; [|split; [|split]]].
  - intros k Hk. rewrite lookup_write_bytes_inside by lia.
    now apply lookup_read_bytes.
  - intros k Hk. rewrite lookup_write_bytes_inside by lia.
    rewrite reverse_lookup by lia. rewrite Hlen.
    replace (n - S k)%nat with (n - 1 - k)%nat by lia.
    apply lookup_read_bytes. lia.
  - intros j Hj. split; apply lookup_write_bytes_outside; lia.
  - apply length_write_bytes. lia.
  - apply length_write_bytes. lia.
Qed.

Lemma copy_routines_write_n_bytes_witness :
  let copied := CopyBytes 2 [1; 2; 3; 4; 5] 1 [10; 20; 30; 40] 2 in
  let flipped := FlipBytes 2 [1; 2; 3; 4; 5] 1 [10; 20; 30; 40] 2 in
  (forall k : nat, (k < 2)%nat -> copied !! (1 + k)%nat = [10; 20; 30; 40] !! (2 + k)%nat) /\
  (forall k : nat, (k < 2)%nat ->
     flipped !! (1 + k)%nat = [10; 20; 30; 40] !! (2 + (2 - 1 - k))%nat) /\
  (forall j : nat, (j < 1 \/ 1 + 2 <= j)%nat ->
     copied !! j = [1; 2; 3; 4; 5] !! j /\ flipped !! j = [1; 2; 3; 4; 5] !! j) /\
  length copied = 5%nat /\ length flipped = 5%nat.
Proof.
  apply (copy_routines_write_n_bytes 2 [1; 2; 3; 4; 5] 1 [10; 20; 30; 40] 2);
    cbn; lia.
Defined.

(** ** Accessors of one byte *)

Lemma FlipBytes_one (target : list Z) (tp : nat) (source : list Z) (sp : nat) :
  FlipBytes 1 target tp source sp = CopyBytes 1 target tp source sp.
Proof.
  unfold FlipBytes. cbn [FlipBytes_loop CopyBytes Nat.sub]. now rewrite Nat.add_0_r.
Qed.

(** X13: the accessors of one byte take no notice of the order flag: for
    Int8 and Uint8 a read or a write gives the same outcome and leaves the
    same isolate whether littleEndian is set or not, on every path. *)
Theorem one_byte_access_ignores_order
    (cfg : Target) (T : ElementType) (v : JSDataView.t) (request_index : Object)
    (le le' : bool) (value : Object) (method : string) (iso : Isolate) :
  sizeof T = 1%nat ->
  GetViewValue cfg T v request_index le method iso
    = GetViewValue cfg T v request_index le' method iso /\
  SetViewValue cfg T v request_index le value method iso
    = SetViewValue cfg T v request_index le' value method iso.
Proof.
  intros Hsize. split.
  - unfold GetViewValue, bind. rewrite Hsize.
    destruct (ToIndex request_index kInvalidDataViewAccessorOffset iso)
      as [[i | e |] iso1]; try reflexivity.
    destruct (TryNumberToSize cfg i) as [get_index|]; [|reflexivity].
    unfold load_buffer.
    destruct (array_buffers iso1 !! JSDataView.buffer v) as [b|]; [|reflexivity].
    destruct (JSArrayBuffer.was_neutered b); [reflexivity|].
    cbv [NumberToSize DCHECK check_access ret fatal throw].
    case_conditions; rewrite ?FlipBytes_one; reflexivity.
  - unfold SetViewValue, bind. rewrite Hsize.
    destruct (ToIndex request_index kInvalidDataViewAccessorOffset iso)
      as [[i | e |] iso1]; try reflexivity.
    destruct (DataViewConvertInput T value iso1) as [[x | e |] iso2]; try reflexivity.
    destruct (TryNumberToSize cfg i) as [get_index|]; [|reflexivity].
    unfold load_buffer.
    destruct (array_buffers iso2 !! JSDataView.buffer v) as [b|] eqn:Hbuffer;
      [|reflexivity].
    destruct (JSArrayBuffer.was_neutered b); [reflexivity|].
    cbv [NumberToSize DCHECK check_access ret fatal throw].
    case_conditions; rewrite ?FlipBytes_one; reflexivity.
Qed.

Lemma one_byte_access_ignores_order_witness :
  GetViewValue ppc Int8 whole_view (Number (int_to_double 7)) true
    "DataView.prototype.getInt8" counting_isolate
    = GetViewValue ppc Int8 whole_view (Number (int_to_double 7)) false
        "DataView.prototype.getInt8" counting_isolate /\
  SetViewValue ppc Int8 whole_view (Number (int_to_double 7)) true
    (Number (int_to_double (-1))) "DataView.prototype.getInt8" counting_isolate
    = SetViewValue ppc Int8 whole_view (Number (int_to_double 7)) false
        (Number (int_to_double (-1))) "DataView.prototype.getInt8" counting_isolate.
Proof.
  apply (one_byte_access_ignores_order ppc Int8 whole_view (Number (int_to_double 7))
           true false (Number (int_to_double (-1))) "DataView.prototype.getInt8"
           counting_isolate); reflexivity.
Defined.

(** ** Reading in the other order *)

(** X14: the order flag matters for what is read back.  After a write in
    bounds, a read of a type of the same size at the same index with the
    opposite order flag returns the value whose bytes are those of the value
    written, reversed. *)
Theorem read_in_opposite_order
    (cfg : Target) (T T' : ElementType) (v : JSDataView.t) (le : bool)
    (index value index' : Object) (method method' : string)
    (iso iso1 iso2 : Isolate) (i : Z) (x : Object) (b : JSArrayBuffer.t) :
  ToIndex index kInvalidDataViewAccessorOffset iso = (Normal i, iso1) ->
  DataViewConvertInput T value iso1 = (Normal x, iso2) ->
  array_buffers iso2 !! JSDataView.buffer v = Some b ->
  JSArrayBuffer.was_neutered b = false ->
  view_in_buffer cfg v b ->
  i + Z.of_nat (sizeof T) <= JSDataView.byte_length v ->
  sizeof T' = sizeof T ->
  let after := snd (SetViewValue cfg T v index le value method iso) in
  ToIndex index' kInvalidDataViewAccessorOffset after = (Normal i, after) ->
  GetViewValue cfg T' v index' (negb le) method' after
  = (Normal (AllocateResult T' (cast T' (le_value (reverse
       (le_bytes (sizeof T) (to_unsigned (value_bits T) (DataViewConvertValue T x))))))),
     after).
Proof.
  intros Hindex Hvalue Hbuffer Hattached Hview Hbounds Hsize.
  pose proof (ToIndex_range _ _ _ _ _ Hindex) as Hi.
  pose proof (write_position cfg T v b i Hview ltac:(lia) Hbounds) as Hfit.
  rewrite (SetViewValue_in_bounds cfg T v index le value method iso iso1 i
             Hindex x iso2 Hvalue b Hbuffer Hattached Hview Hbounds).
  cbn [snd]. unfold stored_bytes. rewrite union_bytes_stored.
  set (pattern := le_bytes (sizeof T) _).
  assert (Hlen : length (requested_order le pattern) = sizeof T).
  { subst pattern. now rewrite length_requested_order, length_le_bytes. }
  set (p := Z.to_nat (JSDataView.byte_offset v + i)) in *.
  intros Hindex'.
  set (b' := {| JSArrayBuffer.backing_store :=
                  write_bytes (JSArrayBuffer.backing_store b) p
                    (requested_order le pattern);
                JSArrayBuffer.was_neutered := JSArrayBuffer.was_neutered b |}).
  rewrite (GetViewValue_in_bounds cfg T' v index' (negb le) method' _ _ i Hindex' b').
  - cbn [JSArrayBuffer.backing_store b']. unfold loaded_bytes.
    rewrite union_data_loaded. fold p. rewrite Hsize, <- Hlen.
    rewrite read_write_bytes by lia.
    unfold requested_order. destruct le; cbn [negb];
      rewrite ?reverse_involutive; reflexivity.
  - apply with_backing_store_lookup. exact Hbuffer.
  - exact Hattached.
  - destruct Hview as (Ho & Hl & Hsum & Hmax).
    unfold view_in_buffer, JSArrayBuffer.byte_length in *.
    cbn [JSArrayBuffer.backing_store b']. rewrite length_write_bytes by lia. lia.
  - rewrite Hsize. exact Hbounds.
Qed.

(** 0x0102 written big-endian and read little-endian is 0x0201. *)
Lemma read_in_opposite_order_witness :
  let after := snd (SetViewValue x64 Uint16 whole_view (Number (int_to_double 4)) false
                      (Number (int_to_double 0x0102)) "DataView.prototype.getUint16"
                      example_isolate) in
  GetViewValue x64 Uint16 whole_view (Number (int_to_double 4)) true
    "DataView.prototype.getUint16" after
  = (Normal (Prim (Number (int_to_double 0x0201))), after).
Proof.
  apply (read_in_opposite_order x64 Uint16 Uint16 whole_view false
           (Number (int_to_double 4)) (Number (int_to_double 0x0102))
           (Number (int_to_double 4)) "DataView.prototype.getUint16"
           "DataView.prototype.getUint16" example_isolate example_isolate
           example_isolate 4 (Number (int_to_double 0x0102)) zeroes8); concrete.
Defined.

(** ** Construction, continued *)

(** X15: a view the constructor returns lies inside the buffer it was given.
    Whenever construction completes, its result is a DataView over the buffer
    passed as first argument, with the converted offset [o] and a length [n]
    such that [0 <= o], [0 <= n] and [o + n] is at most the byte length the
    buffer had when the offset had been converted; without a length argument
    the view ends where the buffer ends.  The three getters return that
    buffer, [o] and [n]. *)
Theorem constructed_view_lies_in_buffer
    (a : BuiltinArguments) (iso iso' : Isolate) (result : Object) :
  DataViewConstructor a iso = (Normal result, iso') ->
  exists (address : nat) (o n : Z) (iso1 : Isolate) (b : JSArrayBuffer.t),
    atOrUndefined a 1 = ArrayBufferObject address /\
    ToIndex (atOrUndefined a 2) kInvalidOffset iso = (Normal o, iso1) /\
    array_buffers iso1 !! address = Some b /\
    result = DataViewObject {| JSDataView.buffer := address;
                               JSDataView.byte_offset := o;
                               JSDataView.byte_length := n |} /\
    0 <= o <= JSArrayBuffer.byte_length b /\ 0 <= n /\
    (JSArrayBuffer.byte_length b <= kMaxSafeInteger ->
     o + n <= JSArrayBuffer.byte_length b) /\
    (IsUndefined (atOrUndefined a 3) = true -> o + n = JSArrayBuffer.byte_length b) /\
    (forall cfg : Target,
       JSArrayBuffer.byte_length b <= kMaxSafeInteger ->
       JSArrayBuffer.byte_length b <= kMaxSize cfg ->
       view_in_buffer cfg {| JSDataView.buffer := address;
                             JSDataView.byte_offset := o;
                             JSDataView.byte_length := n |} b) /\
    (forall s : Isolate,
       DataViewPrototypeGetBuffer (Call result []) s = (Normal (atOrUndefined a 1), s) /\
       DataViewPrototypeGetByteOffset (Call result []) s
         = (Normal (Prim (Number (int_to_double o))), s) /\
       DataViewPrototypeGetByteLength (Call result []) s
         = (Normal (Prim (Number (int_to_double n))), s)).
Proof.
  unfold DataViewConstructor.
  destruct (IsUndefined (new_target a)); [discriminate|].
  destruct (atOrUndefined a 1) as [q | address | view | to_primitive | get_prototype]
    eqn:Hbuffer_arg; try discriminate.
  unfold bind.
  destruct (ToIndex (atOrUndefined a 2) kInvalidOffset iso) as [[o | e |] iso1]
    eqn:Hoffset; try discriminate.
  pose proof (ToIndex_range _ _ _ _ _ Hoffset) as Ho.
  unfold load_buffer.
  destruct (array_buffers iso1 !! address) as [b|] eqn:Hbuffer; [|discriminate].
  destruct (o >? JSArrayBuffer.byte_length b) eqn:Etest; [discriminate|].
  destruct (IsUndefined (atOrUndefined a 3)) eqn:Hlength_arg.
  - cbv [ret].
    destruct (JSObject_New (target a) (new_target a) iso1) as [[[] | e |] iso3];
      try discriminate.
    intros Hresult. injection Hresult as <- <-.
    exists address, o, (JSArrayBuffer.byte_length b - o), iso1, b.
    repeat split; try reflexivity; try assumption; cbn; lia.
  - destruct (ToIndex (atOrUndefined a 3) kInvalidDataViewLength iso1)
      as [[n | e |] iso2] eqn:Hlength; try discriminate.
    pose proof (ToIndex_range _ _ _ _ _ Hlength) as Hn.
    destruct (Number_add o n >? JSArrayBuffer.byte_length b) eqn:Esum; [discriminate|].
    cbv [ret].
    destruct (JSObject_New (target a) (new_target a) iso2) as [[[] | e |] iso3];
      try discriminate.
    intros Hresult. injection Hresult as <- <-.
    assert (Hsum : JSArrayBuffer.byte_length b <= kMaxSafeInteger ->
                   o + n <= JSArrayBuffer.byte_length b).
    { intros Hsafe.
      destruct (Z_lt_ge_dec (JSArrayBuffer.byte_length b) (o + n)) as [Hbad|]; [|lia].
      apply (Number_add_test o n) in Hbad; [congruence | lia | lia | exact Hsafe]. }
    exists address, o, n, iso1, b.
    repeat split; try reflexivity; try assumption; try discriminate; cbn; lia.
Qed.

Lemma constructed_view_lies_in_buffer_witness :
  let a := Construct plain_function
             [ArrayBufferObject 0; Prim (Number (int_to_double 3))] in
  let result := DataViewObject {| JSDataView.buffer := 0; JSDataView.byte_offset := 3;
                                  JSDataView.byte_length := 5 |} in
  exists (address : nat) (o n : Z) (iso1 : Isolate) (b : JSArrayBuffer.t),
    atOrUndefined a 1 = ArrayBufferObject address /\
    ToIndex (atOrUndefined a 2) kInvalidOffset example_isolate = (Normal o, iso1) /\
    array_buffers iso1 !! address = Some b /\
    result = DataViewObject {| JSDataView.buffer := address;
                               JSDataView.byte_offset := o;
                               JSDataView.byte_length := n |} /\
    0 <= o <= JSArrayBuffer.byte_length b /\ 0 <= n /\
    (JSArrayBuffer.byte_length b <= kMaxSafeInteger ->
     o + n <= JSArrayBuffer.byte_length b) /\
    (IsUndefined (atOrUndefined a 3) = true -> o + n = JSArrayBuffer.byte_length b) /\
    (forall cfg : Target,
       JSArrayBuffer.byte_length b <= kMaxSafeInteger ->
       JSArrayBuffer.byte_length b <= kMaxSize cfg ->
       view_in_buffer cfg {| JSDataView.buffer := address;
                             JSDataView.byte_offset := o;
                             JSDataView.byte_length := n |} b) /\
    (forall s : Isolate,
       DataViewPrototypeGetBuffer (Call result []) s = (Normal (atOrUndefined a 1), s) /\
       DataViewPrototypeGetByteOffset (Call result []) s
         = (Normal (Prim (Number (int_to_double o))), s) /\
       DataViewPrototypeGetByteLength (Call result []) s
         = (Normal (Prim (Number (int_to_double n))), s)).
Proof.
  intros a result.
  apply (constructed_view_lies_in_buffer a example_isolate example_isolate result).
  reflexivity.
Defined.

(** X16: without a length argument the view runs to the end of the buffer.
    With the offset converted to [o] and a buffer of byte length [L],
    construction raises RangeError(kInvalidOffset) when [o > L] and otherwise
    returns the view at [o] of length [L - o]; [new DataView(buffer)] is the
    view of the whole buffer. *)
Theorem default_length_is_rest_of_buffer
    (a : BuiltinArguments) (iso iso1 iso3 : Isolate) (address : nat)
    (b : JSArrayBuffer.t) (o : Z) :
  IsUndefined (new_target a) = false ->
  atOrUndefined a 1 = ArrayBufferObject address ->
  ToIndex (atOrUndefined a 2) kInvalidOffset iso = (Normal o, iso1) ->
  array_buffers iso1 !! address = Some b ->
  IsUndefined (atOrUndefined a 3) = true ->
  JSObject_New (target a) (new_target a) iso1 = (Normal tt, iso3) ->
  let L := JSArrayBuffer.byte_length b in
  (L < o -> DataViewConstructor a iso = (Throw (NewRangeError kInvalidOffset (Some o)), iso1)) /\
  (o <= L ->
   DataViewConstructor a iso
   = (Normal (DataViewObject
        {| JSDataView.buffer := address;
           JSDataView.byte_offset := o;
           JSDataView.byte_length := L - o |}), iso3)) /\
  (IsUndefined (atOrUndefined a 2) = true ->
   DataViewConstructor a iso
   = (Normal (DataViewObject
        {| JSDataView.buffer := address;
           JSDataView.byte_offset := 0;
           JSDataView.byte_length := L |}), iso3)).
Proof.
  intros Hconstruct Hbuffer_arg Hoffset Hbuffer Hundef Hnew L. subst L.
  split; [|split].
  - intros Hout.
    exact (DataViewConstructor_invalid_offset a iso iso1 address b o Hconstruct
             Hbuffer_arg Hoffset Hbuffer Hout).
  - intros Hin.
    exact (DataViewConstructor_default_length a iso iso1 address b o Hconstruct
             Hbuffer_arg Hoffset Hbuffer iso3 Hin Hundef Hnew).
  - intros Hno_offset.
    assert (Hzero : o = 0).
    { unfold ToIndex in Hoffset. rewrite Hno_offset in Hoffset.
      unfold ret in Hoffset. congruence. }
    subst o.
    rewrite (DataViewConstructor_default_length a iso iso1 address b 0 Hconstruct
               Hbuffer_arg Hoffset Hbuffer iso3
               ltac:(unfold JSArrayBuffer.byte_length; lia) Hundef Hnew).
    now rewrite Z.sub_0_r.
Qed.

Lemma default_length_is_rest_of_buffer_witness :
  DataViewConstructor
    (Construct plain_function [ArrayBufferObject 0; Prim (Number (int_to_double 3))])
    example_isolate
  = (Normal (DataViewObject
       {| JSDataView.buffer := 0;
          JSDataView.byte_offset := 3;
          JSDataView.byte_length := 5 |}), example_isolate).
Proof.
  refine (proj1 (proj2
            (default_length_is_rest_of_buffer
               (Construct plain_function
                  [ArrayBufferObject 0; Prim (Number (int_to_double 3))])
               example_isolate example_isolate example_isolate 0%nat zeroes8 3
               _ _ _ _ _ _)) _); concrete.
Defined.

Lemma Detach_lookup (address : nat) (iso : Isolate) (b : JSArrayBuffer.t) :
  array_buffers iso !! address = Some b ->
  array_buffers (snd (Detach address iso)) !! address = Some (JSArrayBuffer.Neuter b).
Proof.
  intros Hb. unfold Detach. cbn [snd array_buffers].
  now rewrite list_lookup_alter_eq, Hb.
Qed.

(** ** A value written, read byte by byte *)

Lemma read_one_byte (store : list Z) (j : nat) (y : Z) :
  store !! j = Some y -> read_bytes store j 1 = [y].
Proof.
  intros Hy. unfold read_bytes. rewrite (drop_S store y j Hy). reflexivity.
Qed.

(** X18: the bytes of a value written can be read one at a time.  After a
    write in bounds of a value of type [T], [getUint8] at the index of the
    write plus [k], for [k] below [sizeof(T)], returns byte [k] of the value
    in the order the write asked for: the least significant first for a
    little-endian write, the most significant first for a big-endian one. *)
Theorem written_value_read_bytewise
    (cfg : Target) (T : ElementType) (v : JSDataView.t) (le le' : bool)
    (index value index' : Object) (method method' : string)
    (iso iso1 iso2 : Isolate) (i : Z) (x : Object) (b : JSArrayBuffer.t)
    (k : nat) (y : Z) :
  ToIndex index kInvalidDataViewAccessorOffset iso = (Normal i, iso1) ->
  DataViewConvertInput T value iso1 = (Normal x, iso2) ->
  array_buffers iso2 !! JSDataView.buffer v = Some b ->
  JSArrayBuffer.was_neutered b = false ->
  view_in_buffer cfg v b ->
  i + Z.of_nat (sizeof T) <= JSDataView.byte_length v ->
  requested_order le
    (le_bytes (sizeof T) (to_unsigned (value_bits T) (DataViewConvertValue T x))) !! k
    = Some y ->
  let after := snd (SetViewValue cfg T v index le value method iso) in
  ToIndex index' kInvalidDataViewAccessorOffset after = (Normal (i + Z.of_nat k), after) ->
  GetViewValue cfg Uint8 v index' le' method' after
  = (Normal (Prim (Number (int_to_double y))), after).
Proof.
  intros Hindex Hvalue Hbuffer Hattached Hview Hbounds.
  pose proof (ToIndex_range _ _ _ _ _ Hindex) as Hi.
  pose proof (write_position cfg T v b i Hview ltac:(lia) Hbounds) as Hfit.
  rewrite (SetViewValue_in_bounds cfg T v index le value method iso iso1 i
             Hindex x iso2 Hvalue b Hbuffer Hattached Hview Hbounds).
  cbn [snd]. unfold stored_bytes. rewrite union_bytes_stored.
  set (bytes := requested_order le _).
  assert (Hlen : length bytes = sizeof T).
  { subst bytes. now rewrite length_requested_order, length_le_bytes. }
  assert (Hall : all_bytes bytes).
  { subst bytes. apply all_bytes_requested_order, all_bytes_le_bytes. }
  set (p := Z.to_nat (JSDataView.byte_offset v + i)) in *.
  intros Hy Hindex'.
  pose proof (lookup_lt_Some _ _ _ Hy) as Hk.
  pose proof (proj1 (Forall_lookup _ _) Hall _ _ Hy) as Hbyte. cbn beta in Hbyte.
  set (b' := {| JSArrayBuffer.backing_store :=
                  write_bytes (JSArrayBuffer.backing_store b) p bytes;
                JSArrayBuffer.was_neutered := JSArrayBuffer.was_neutered b |}).
  destruct Hview as (Ho & Hl & Hsum & Hmax).
  rewrite (GetViewValue_in_bounds cfg Uint8 v index' le' method' _ _ (i + Z.of_nat k)
             Hindex' b').
  - cbn [JSArrayBuffer.backing_store b' sizeof]. unfold loaded_bytes.
    rewrite union_data_loaded.
    replace (Z.to_nat (JSDataView.byte_offset v + (i + Z.of_nat k))) with (p + k)%nat
      by (subst p; lia).
    rewrite (read_one_byte _ _ y)
      by (rewrite lookup_write_bytes_inside by lia; exact Hy).
    assert (Hsingle : requested_order le' [y] = [y])
      by (unfold requested_order; destruct le'; reflexivity).
    rewrite Hsingle. cbn [le_value AllocateResult]. unfold cast. cbn [is_signed].
    rewrite to_unsigned_small by (change (value_bits Uint8) with 8; lia).
    now rewrite Z.mul_0_r, Z.add_0_r.
  - apply with_backing_store_lookup. exact Hbuffer.
  - exact Hattached.
  - unfold view_in_buffer, JSArrayBuffer.byte_length in *.
    cbn [JSArrayBuffer.backing_store b']. rewrite length_write_bytes by lia. lia.
  - cbn [sizeof]. lia.
Qed.

(** After [setUint32(0, 0x01020304)] in big-endian order, [getUint8(2)] is 3. *)
Lemma written_value_read_bytewise_witness :
  let after := snd (SetViewValue ppc Uint32 whole_view (Number (int_to_double 0)) false
                      (Number (int_to_double 0x01020304)) "DataView.prototype.getUint32"
                      example_isolate) in
  GetViewValue ppc Uint8 whole_view (Number (int_to_double 2)) false
    "DataView.prototype.getUint8" after
  = (Normal (Prim (Number (int_to_double 3))), after).
Proof.
  apply (written_value_read_bytewise ppc Uint32 whole_view false false
           (Number (int_to_double 0)) (Number (int_to_double 0x01020304))
           (Number (int_to_double 2)) "DataView.prototype.getUint32"
           "DataView.prototype.getUint8" example_isolate example_isolate
           example_isolate 0 (Number (int_to_double 0x01020304)) zeroes8 2 3);
    concrete.
Defined.

(** ** The checks on the receiver and on the arguments of the constructor *)

(** X19: every getter and accessor checks its receiver before anything else.
    Called on a receiver that is not a DataView, it raises
    TypeError(kIncompatibleMethodReceiver) naming itself -- a setter names
    itself here, "DataView.prototype.set<Type>" -- and leaves the isolate
    untouched: no argument is converted, so no code of an argument runs. *)
Theorem receiver_checked_before_arguments
    (cfg : Target) (T : ElementType) (a : BuiltinArguments) (iso : Isolate) :
  (forall view, atOrUndefined a 0 <> DataViewObject view) ->
  let incompatible (method : string) : Completion Object * Isolate :=
    (Throw (NewTypeError kIncompatibleMethodReceiver (Some method)), iso) in
  DataViewPrototypeGetBuffer a iso = incompatible "get DataView.prototype.buffer" /\
  DataViewPrototypeGetByteLength a iso
    = incompatible "get DataView.prototype.byteLength" /\
  DataViewPrototypeGetByteOffset a iso
    = incompatible "get DataView.prototype.byteOffset" /\
  DataViewPrototypeGet cfg T a iso
    = incompatible (String.append "DataView.prototype.get" (TypeName T)) /\
  DataViewPrototypeSet cfg T a iso
    = incompatible (String.append "DataView.prototype.set" (TypeName T)).
Proof.
  intros Hreceiver incompatible. subst incompatible.
  unfold DataViewPrototypeGetBuffer, DataViewPrototypeGetByteLength,
    DataViewPrototypeGetByteOffset, DataViewPrototypeGet, DataViewPrototypeSet,
    CHECK_RECEIVER, bind.
  destruct (atOrUndefined a 0) as [q | address | view | to_primitive | get_prototype];
    try (repeat split; reflexivity).
  now destruct (Hreceiver view).
Qed.

(** A setter called on an ArrayBuffer, with a value that would detach the
    buffer at address 0 if it were converted. *)
Lemma receiver_checked_before_arguments_witness :
  DataViewPrototypeSet x64 Int8
    (Call (ArrayBufferObject 0)
       [Prim (Number (int_to_double 0)); detaching_value 0 (Number (int_to_double 1))])
    example_isolate
  = (Throw (NewTypeError kIncompatibleMethodReceiver (Some "DataView.prototype.setInt8")),
     example_isolate).
Proof.
  refine (proj2 (proj2 (proj2 (proj2
            (receiver_checked_before_arguments x64 Int8
               (Call (ArrayBufferObject 0)
                  [Prim (Number (int_to_double 0));
                   detaching_value 0 (Number (int_to_double 1))])
               example_isolate _))))).
  intros view. discriminate.
Defined.

(** X20: the constructor checks how it is called and what it is given before
    it converts anything.  Called without [new] it raises
    TypeError(kConstructorNotFunction) for "DataView"; constructed with a
    first argument that is not an ArrayBuffer it raises
    TypeError(kDataViewNotArrayBuffer); in both cases the isolate is
    untouched, whatever the other arguments are.  When the conversion of the
    offset fails, its exception is the outcome and the length argument is
    not converted. *)
Theorem constructor_checks_before_conversions
    (a : BuiltinArguments) (iso : Isolate) :
  (IsUndefined (new_target a) = true ->
   DataViewConstructor a iso
   = (Throw (NewTypeError kConstructorNotFunction (Some "DataView")), iso)) /\
  (IsUndefined (new_target a) = false ->
   (forall address, atOrUndefined a 1 <> ArrayBufferObject address) ->
   DataViewConstructor a iso = (Throw (NewTypeError kDataViewNotArrayBuffer None), iso)) /\
  (forall address e iso1,
     IsUndefined (new_target a) = false ->
     atOrUndefined a 1 = ArrayBufferObject address ->
     ToIndex (atOrUndefined a 2) kInvalidOffset iso = (Throw e, iso1) ->
     DataViewConstructor a iso = (Throw e, iso1)).
Proof.
  unfold DataViewConstructor. split; [|split].
  - intros ->. reflexivity.
  - intros -> Hbuffer.
    destruct (atOrUndefined a 1) as [q | address | view | to_primitive | get_prototype];
      try reflexivity.
    now destruct (Hbuffer address).
  - intros address e iso1 -> -> Hoffset. unfold bind. now rewrite Hoffset.
Qed.

(** [DataView(buffer, offset)] called as a function, with an offset whose
    conversion would detach the buffer. *)
Lemma constructor_checks_before_conversions_witness :
  DataViewConstructor
    (Call (Prim Undefined)
       [ArrayBufferObject 0; detaching_value 0 (Number (int_to_double 0))])
    example_isolate
  = (Throw (NewTypeError kConstructorNotFunction (Some "DataView")), example_isolate).
Proof.
  refine (proj1 (constructor_checks_before_conversions
                   (Call (Prim Undefined)
                      [ArrayBufferObject 0; detaching_value 0 (Number (int_to_double 0))])
                   example_isolate) _).
  reflexivity.
Defined.

(** ** Two writes *)

Lemma lookup_write_bytes (store : list Z) (p : nat) (bytes : list Z) (j : nat) :
  (p + length bytes <= length store)%nat ->
  write_bytes store p bytes !! j
  = if decide (p <= j < p + length bytes)%nat then bytes !! (j - p)%nat else store !! j.
Proof.
  intros Hfit. destruct (decide (p <= j < p + length bytes)%nat) as [Hin | Hout].
  - replace j with (p + (j - p))%nat at 1 by lia.
    apply lookup_write_bytes_inside; lia.
  - apply lookup_write_bytes_outside; lia.
Qed.

Lemma write_bytes_overwrite (store : list Z) (p : nat) (first second : list Z) :
  length first = length second ->
  (p + length second <= length store)%nat ->
  write_bytes (write_bytes store p first) p second = write_bytes store p second.
Proof.
  intros Hlen Hfit. apply list_eq. intros j.
  rewrite !lookup_write_bytes by (rewrite ?length_write_bytes; lia).
  destruct (decide (p <= j < p + length second)%nat) as [Hin | Hout]; [reflexivity|].
  rewrite decide_False by lia. reflexivity.
Qed.

Lemma write_bytes_commute (store : list Z) (p q : nat) (first second : list Z) :
  (p + length first <= length store)%nat ->
  (q + length second <= length store)%nat ->
  (p + length first <= q \/ q + length second <= p)%nat ->
  write_bytes (write_bytes store p first) q second
  = write_bytes (write_bytes store q second) p first.
Proof.
  intros Hp Hq Hapart. apply list_eq. intros j.
  rewrite !lookup_write_bytes by (rewrite ?length_write_bytes; lia).
  destruct (decide (q <= j < q + length second)%nat) as [Hin | Hout].
  - rewrite decide_False by lia. reflexivity.
  - reflexivity.
Qed.

(** A write in bounds whose conversions leave the isolate alone, in closed
    form. *)
Lemma SetViewValue_stores (cfg : Target) (T : ElementType) (v : JSDataView.t)
    (index : Object) (le : bool) (value : Object) (method : string)
    (iso : Isolate) (i : Z) (x : Object) (b : JSArrayBuffer.t) :
  ToIndex index kInvalidDataViewAccessorOffset iso = (Normal i, iso) ->
  DataViewConvertInput T value iso = (Normal x, iso) ->
  array_buffers iso !! JSDataView.buffer v = Some b ->
  JSArrayBuffer.was_neutered b = false ->
  view_in_buffer cfg v b ->
  i + Z.of_nat (sizeof T) <= JSDataView.byte_length v ->
  SetViewValue cfg T v index le value method iso
  = (Normal (Prim Undefined),
     with_backing_store iso (JSDataView.buffer v) b
       (write_bytes (JSArrayBuffer.backing_store b)
          (Z.to_nat (JSDataView.byte_offset v + i))
          (requested_order le
             (le_bytes (sizeof T)
                (to_unsigned (value_bits T) (DataViewConvertValue T x)))))).
Proof.
  intros Hindex Hvalue Hbuffer Hattached Hview Hbounds.
  rewrite (SetViewValue_in_bounds cfg T v index le value method iso iso i
             Hindex x iso Hvalue b Hbuffer Hattached Hview Hbounds).
  unfold stored_bytes. now rewrite union_bytes_stored.
Qed.

Lemma view_in_written_buffer (cfg : Target) (v : JSDataView.t) (b : JSArrayBuffer.t)
    (p : nat) (bytes : list Z) :
  view_in_buffer cfg v b ->
  (p + length bytes <= length (JSArrayBuffer.backing_store b))%nat ->
  view_in_buffer cfg v
    {| JSArrayBuffer.backing_store := write_bytes (JSArrayBuffer.backing_store b) p bytes;
       JSArrayBuffer.was_neutered := JSArrayBuffer.was_neutered b |}.
Proof.
  intros (Ho & Hl & Hsum & Hmax) Hfit.
  unfold view_in_buffer, JSArrayBuffer.byte_length in *.
  cbn [JSArrayBuffer.backing_store]. rewrite length_write_bytes by exact Hfit. lia.
Qed.

(** X21: a second write over the same bytes makes the first one
    unobservable.  After a write in bounds, a write of a type of the same
    size to the same bytes of the buffer -- through the same view or another
    one, in either order of bytes -- leaves the isolate it would have left
    had the first write not happened. *)
Theorem second_write_overwrites_first
    (cfg : Target) (T T' : ElementType) (v v' : JSDataView.t) (le le' : bool)
    (index value index' value' : Object) (method method' : string)
    (iso : Isolate) (i i' : Z) (x x' : Object) (b : JSArrayBuffer.t) :
  (forall s, ToIndex index kInvalidDataViewAccessorOffset s = (Normal i, s)) ->
  (forall s, DataViewConvertInput T value s = (Normal x, s)) ->
  (forall s, ToIndex index' kInvalidDataViewAccessorOffset s = (Normal i', s)) ->
  (forall s, DataViewConvertInput T' value' s = (Normal x', s)) ->
  array_buffers iso !! JSDataView.buffer v = Some b ->
  JSArrayBuffer.was_neutered b = false ->
  view_in_buffer cfg v b ->
  i + Z.of_nat (sizeof T) <= JSDataView.byte_length v ->
  JSDataView.buffer v' = JSDataView.buffer v ->
  view_in_buffer cfg v' b ->
  i' + Z.of_nat (sizeof T') <= JSDataView.byte_length v' ->
  JSDataView.byte_offset v' + i' = JSDataView.byte_offset v + i ->
  sizeof T' = sizeof T ->
  let first := SetViewValue cfg T v index le value method iso in
  fst first = Normal (Prim Undefined) /\
  SetViewValue cfg T' v' index' le' value' method' (snd first)
  = SetViewValue cfg T' v' index' le' value' method' iso.
Proof.
  intros Hindex Hvalue Hindex' Hvalue' Hbuffer Hattached Hview Hbounds Hsame Hview'
    Hbounds' Hbyte Hsize first. subst first.
  pose proof (ToIndex_range _ _ _ _ _ (Hindex iso)) as Hi.
  pose proof (ToIndex_range _ _ _ _ _ (Hindex' iso)) as Hi'.
  pose proof (write_position cfg T v b i Hview ltac:(lia) Hbounds) as Hfit.
  rewrite (SetViewValue_stores cfg T v index le value method iso i x b
             (Hindex iso) (Hvalue iso) Hbuffer Hattached Hview Hbounds).
  cbn [fst snd]. split; [reflexivity|].
  set (p := Z.to_nat (JSDataView.byte_offset v + i)) in *.
  set (bytes := requested_order le _).
  assert (Hlen : length bytes = sizeof T).
  { subst bytes. now rewrite length_requested_order, length_le_bytes. }
  set (after := with_backing_store iso (JSDataView.buffer v) b
                  (write_bytes (JSArrayBuffer.backing_store b) p bytes)).
  rewrite (SetViewValue_stores cfg T' v' index' le' value' method' after i' x'
             {| JSArrayBuffer.backing_store :=
                  write_bytes (JSArrayBuffer.backing_store b) p bytes;
                JSArrayBuffer.was_neutered := JSArrayBuffer.was_neutered b |}
             (Hindex' after) (Hvalue' after));
    [ | rewrite Hsame; apply with_backing_store_lookup; exact Hbuffer
      | exact Hattached
      | apply view_in_written_buffer; [exact Hview' | lia]
      | exact Hbounds' ].
  rewrite (SetViewValue_stores cfg T' v' index' le' value' method' iso i' x' b
             (Hindex' iso) (Hvalue' iso)); try assumption; [|now rewrite Hsame].
  f_equal. subst after. unfold with_backing_store.
  cbn [array_buffers JSArrayBuffer.backing_store JSArrayBuffer.was_neutered].
  rewrite Hsame, list_insert_insert_eq, Hbyte. fold p.
  rewrite write_bytes_overwrite; [reflexivity | |];
    rewrite length_requested_order, length_le_bytes; lia.
Qed.

Lemma second_write_overwrites_first_witness :
  let first := SetViewValue ppc Int16 whole_view (Number (int_to_double 2)) true
                 (Number (int_to_double (-2))) "DataView.prototype.getInt16"
                 counting_isolate in
  fst first = Normal (Prim Undefined) /\
  SetViewValue ppc Uint16 whole_view (Number (int_to_double 2)) false
    (Number (int_to_double 7)) "DataView.prototype.getUint16" (snd first)
  = SetViewValue ppc Uint16 whole_view (Number (int_to_double 2)) false
      (Number (int_to_double 7)) "DataView.prototype.getUint16" counting_isolate.
Proof.
  apply (second_write_overwrites_first ppc Int16 Uint16 whole_view whole_view true false
           (Number (int_to_double 2)) (Number (int_to_double (-2)))
           (Number (int_to_double 2)) (Number (int_to_double 7))
           "DataView.prototype.getInt16" "DataView.prototype.getUint16"
           counting_isolate 2 2 (Number (int_to_double (-2))) (Number (int_to_double 7))
           counting8);
    try (intros s; reflexivity); concrete.
Defined.

(** X22: writes to different bytes commute.  Two writes in bounds, to
    different buffers or to ranges of one buffer that do not meet, leave the
    same isolate in either order. *)
Theorem disjoint_writes_commute
    (cfg : Target) (T T' : ElementType) (v v' : JSDataView.t) (le le' : bool)
    (index value index' value' : Object) (method method' : string)
    (iso : Isolate) (i i' : Z) (x x' : Object) (b b' : JSArrayBuffer.t) :
  (forall s, ToIndex index kInvalidDataViewAccessorOffset s = (Normal i, s)) ->
  (forall s, DataViewConvertInput T value s = (Normal x, s)) ->
  (forall s, ToIndex index' kInvalidDataViewAccessorOffset s = (Normal i', s)) ->
  (forall s, DataViewConvertInput T' value' s = (Normal x', s)) ->
  array_buffers iso !! JSDataView.buffer v = Some b ->
  JSArrayBuffer.was_neutered b = false ->
  view_in_buffer cfg v b ->
  i + Z.of_nat (sizeof T) <= JSDataView.byte_length v ->
  array_buffers iso !! JSDataView.buffer v' = Some b' ->
  JSArrayBuffer.was_neutered b' = false ->
  view_in_buffer cfg v' b' ->
  i' + Z.of_nat (sizeof T') <= JSDataView.byte_length v' ->
  JSDataView.buffer v' <> JSDataView.buffer v \/
  JSDataView.byte_offset v' + i' + Z.of_nat (sizeof T') <= JSDataView.byte_offset v + i \/
  JSDataView.byte_offset v + i + Z.of_nat (sizeof T) <= JSDataView.byte_offset v' + i' ->
  let one := SetViewValue cfg T v index le value method in
  let other := SetViewValue cfg T' v' index' le' value' method' in
  other (snd (one iso)) = (Normal (Prim Undefined), snd (other (snd (one iso)))) /\
  one (snd (other iso)) = (Normal (Prim Undefined), snd (one (snd (other iso)))) /\
  snd (other (snd (one iso))) = snd (one (snd (other iso))).
Proof.
  intros Hindex Hvalue Hindex' Hvalue' Hbuffer Hattached Hview Hbounds
    Hbuffer' Hattached' Hview' Hbounds' Hapart one other. subst one other.
  pose proof (ToIndex_range _ _ _ _ _ (Hindex iso)) as Hi.
  pose proof (ToIndex_range _ _ _ _ _ (Hindex' iso)) as Hi'.
  pose proof (write_position cfg T v b i Hview ltac:(lia) Hbounds) as Hfit.
  pose proof (write_position cfg T' v' b' i' Hview' ltac:(lia) Hbounds') as Hfit'.
  rewrite (SetViewValue_stores cfg T v index le value method iso i x b
             (Hindex iso) (Hvalue iso) Hbuffer Hattached Hview Hbounds).
  rewrite (SetViewValue_stores cfg T' v' index' le' value' method' iso i' x' b'
             (Hindex' iso) (Hvalue' iso) Hbuffer' Hattached' Hview' Hbounds').
  cbn [snd].
  set (p := Z.to_nat (JSDataView.byte_offset v + i)) in *.
  set (q := Z.to_nat (JSDataView.byte_offset v' + i')) in *.
  set (bytes := requested_order le _).
  set (bytes' := requested_order le' _).
  assert (Hlen : length bytes = sizeof T).
  { subst bytes. now rewrite length_requested_order, length_le_bytes. }
  assert (Hlen' : length bytes' = sizeof T').
  { subst bytes'. now rewrite length_requested_order, length_le_bytes. }
  set (s1 := with_backing_store iso (JSDataView.buffer v) b
               (write_bytes (JSArrayBuffer.backing_store b) p bytes)).
  set (s2 := with_backing_store iso (JSDataView.buffer v') b'
               (write_bytes (JSArrayBuffer.backing_store b') q bytes')).
  destruct (decide (JSDataView.buffer v' = JSDataView.buffer v)) as [Hsame | Hother].
  - assert (b' = b) as -> by congruence.
    assert (Hranges : (q + sizeof T' <= p \/ p + sizeof T <= q)%nat).
    { destruct Hapart as [Hne | Hranges]; [contradiction|].
      destruct Hview as (Ho & _), Hview' as (Ho' & _). subst p q. lia. }
    rewrite (SetViewValue_stores cfg T' v' index' le' value' method' s1 i' x'
               {| JSArrayBuffer.backing_store :=
                    write_bytes (JSArrayBuffer.backing_store b) p bytes;
                  JSArrayBuffer.was_neutered := JSArrayBuffer.was_neutered b |}
               (Hindex' s1) (Hvalue' s1));
      [ | rewrite Hsame; apply with_backing_store_lookup; exact Hbuffer
        | exact Hattached
        | apply view_in_written_buffer; [exact Hview' | lia]
        | exact Hbounds' ].
    rewrite (SetViewValue_stores cfg T v index le value method s2 i x
               {| JSArrayBuffer.backing_store :=
                    write_bytes (JSArrayBuffer.backing_store b) q bytes';
                  JSArrayBuffer.was_neutered := JSArrayBuffer.was_neutered b |}
               (Hindex s2) (Hvalue s2));
      [ | rewrite <- Hsame; apply with_backing_store_lookup; exact Hbuffer'
        | exact Hattached
        | apply view_in_written_buffer; [exact Hview | lia]
        | exact Hbounds ].
    cbn [snd]. split; [reflexivity|]. split; [reflexivity|].
    subst s1 s2. unfold with_backing_store.
    cbn [array_buffers JSArrayBuffer.backing_store JSArrayBuffer.was_neutered].
    fold p q. rewrite Hsame, !list_insert_insert_eq.
    rewrite (write_bytes_commute _ p q bytes bytes') by lia. reflexivity.
  - rewrite (SetViewValue_stores cfg T' v' index' le' value' method' s1 i' x' b'
               (Hindex' s1) (Hvalue' s1));
      [ | subst s1; unfold with_backing_store; cbn [array_buffers];
          rewrite list_lookup_insert_ne by congruence; exact Hbuffer'
        | exact Hattached' | exact Hview' | exact Hbounds' ].
    rewrite (SetViewValue_stores cfg T v index le value method s2 i x b
               (Hindex s2) (Hvalue s2));
      [ | subst s2; unfold with_backing_store; cbn [array_buffers];
          rewrite list_lookup_insert_ne by congruence; exact Hbuffer
        | exact Hattached | exact Hview | exact Hbounds ].
    cbn [snd]. split; [reflexivity|]. split; [reflexivity|].
    subst s1 s2. unfold with_backing_store. cbn [array_buffers]. fold p q.
    f_equal. apply list_insert_insert_ne. exact Hother.
Qed.

Lemma disjoint_writes_commute_witness :
  let one := SetViewValue x64 Int16 whole_view (Number (int_to_double 0)) true
               (Number (int_to_double (-2))) "DataView.prototype.getInt16" in
  let other := SetViewValue x64 Float32 whole_view (Number (int_to_double 4)) false
                 (Number (int_to_double 1)) "DataView.prototype.getFloat32" in
  other (snd (one counting_isolate))
    = (Normal (Prim Undefined), snd (other (snd (one counting_isolate)))) /\
  one (snd (other counting_isolate))
    = (Normal (Prim Undefined), snd (one (snd (other counting_isolate)))) /\
  snd (other (snd (one counting_isolate))) = snd (one (snd (other counting_isolate))).
Proof.
  apply (disjoint_writes_commute x64 Int16 Float32 whole_view whole_view true false
           (Number (int_to_double 0)) (Number (int_to_double (-2)))
           (Number (int_to_double 4)) (Number (int_to_double 1))
           "DataView.prototype.getInt16" "DataView.prototype.getFloat32"
           counting_isolate 0 4 (Number (int_to_double (-2))) (Number (int_to_double 1))
           counting8 counting8);
    try (intros s; reflexivity); concrete.
Defined.

(** * Narrowing and byte order in the accessors *)

(** ** The value a write stores *)

Lemma double_to_float_value (d : double) :
  double_value d <> S754_nan ->
  double_to_float d = ieee_encode 24 128 (ieee_round 24 128 (double_value d)).
Proof.
  intros Hd. unfold double_to_float. destruct (double_value d); try reflexivity.
  congruence.
Qed.

(** The conversion of a NaN is a NaN. *)
Lemma double_to_float_nan (d : double) :
  double_value d = S754_nan -> float_value (double_to_float d) = S754_nan.
Proof.
  intros Hd. unfold double_to_float. rewrite Hd.
  assert (Hlow : 0 <= d mod 2 ^ 51 < 2 ^ 51) by (apply Z.mod_pos_bound; lia).
  assert (Hq : 0 <= (d mod 2 ^ 51) / 2 ^ 29 < 2 ^ 22).
  { split; [apply Z.div_pos; lia|]. apply Z.div_lt_upper_bound; lia. }
  set (q := (d mod 2 ^ 51) / 2 ^ 29) in *.
  set (s := if Z.odd (d / 2 ^ 63) then 2 ^ 31 else 0).
  assert (Hs : s = 0 \/ s = 2 ^ 31) by (subst s; destruct (Z.odd (d / 2 ^ 63)); auto).
  unfold float_value, ieee_decode.
  change (24 - 1) with 23. change (2 * 128) with 256. change (256 - 1) with 255.
  assert (Hfrac : (s + 0x7FC00000 + q) mod 2 ^ 23 = 2 ^ 22 + q).
  { symmetry. destruct Hs as [-> | ->];
      [apply Z.mod_unique with (q := 255) | apply Z.mod_unique with (q := 511)]; lia. }
  assert (Hexp : ((s + 0x7FC00000 + q) / 2 ^ 23) mod 256 = 255).
  { destruct Hs as [-> | ->].
    - replace ((0 + 0x7FC00000 + q) / 2 ^ 23) with 255; [reflexivity|].
      apply Z.div_unique with (r := 2 ^ 22 + q); lia.
    - replace ((2 ^ 31 + 0x7FC00000 + q) / 2 ^ 23) with 511; [reflexivity|].
      apply Z.div_unique with (r := 2 ^ 22 + q); lia. }
  rewrite Hfrac, Hexp. cbn [Z.eqb Pos.eqb].
  destruct (2 ^ 22 + q =? 0) eqn:E; [|reflexivity].
  apply Z.eqb_eq in E. lia.
Qed.

(** Sign and payload of a NaN survive both conversions: the double NaN
    0x7FFC000000000000 becomes the float 0x7FE00000, and the float NaN
    0xFFC00001 becomes the double 0xFFF8000020000000; a signalling NaN comes
    out quiet. *)
Lemma nan_conversions_keep_payload :
  double_to_float 0x7FFC000000000000 = 0x7FE00000 /\
  float_to_double 0xFFC00001 = 0xFFF8000020000000 /\
  double_to_float 0x7FF0000000000001 = 0x7FC00000 /\
  float_to_double 0x7F800001 = 0x7FF8000020000000.
Proof. repeat split. Qed.

(** The promotion of a single-precision value is not a NaN. *)
Lemma float_to_double_value (f : float) :
  0 <= f < 2 ^ 32 -> float_value f <> S754_nan ->
  double_value (float_to_double f) <> S754_nan.
Proof.
  intros Hf Hnan Hd. apply double_to_float_nan in Hd.
  rewrite double_to_float_exact in Hd by assumption. contradiction.
Qed.

Lemma truncated_int_to_double (n : Z) :
  - 2 ^ 53 < n < 2 ^ 53 -> truncated (int_to_double n) = n.
Proof.
  intros Hn. unfold truncated. now rewrite double_truncate_int_to_double.
Qed.

(** What [DataViewConvertInput] hands on is a BigInt for the two 64-bit
    integer types and a Number for the others. *)
Lemma DataViewConvertInput_kind (T : ElementType) (value : Object) (x : Primitive)
    (iso1 iso2 : Isolate) :
  DataViewConvertInput T value iso1 = (Normal (Prim x), iso2) ->
  match T with
  | BigInt64 | BigUint64 => exists z, x = BigInt z
  | _ => exists d, x = Number d
  end.
Proof.
  unfold DataViewConvertInput, bind.
  destruct T;
    try (destruct (ToNumber value iso1) as [[d | e |] s]; try discriminate;
         intros H; injection H as <- _; now exists d);
    destruct (BigInt_FromObject value iso1) as [[z | e |] s]; try discriminate;
    intros H; injection H as <- _; now exists z.
Qed.

(** The bytes of the value [DataViewConvertValue] returns are the bytes of
    the pattern the specification describes. *)
Lemma le_bytes_narrowed (T : ElementType) (x : Primitive) :
  match T with
  | BigInt64 | BigUint64 => exists z, x = BigInt z
  | _ => exists d, x = Number d
  end ->
  (T = Float32 -> double_value (Number_value x) <> S754_nan) ->
  le_bytes (sizeof T) (to_unsigned (value_bits T) (DataViewConvertValue T x))
  = le_bytes (sizeof T) (narrowed_bits T x).
Proof.
  intros Hkind Hnan.
  destruct T; destruct Hkind as [y ->];
    cbn [DataViewConvertValue narrowed_bits Number_value BigInt_cast sizeof] in *;
    unfold value_bits; cbn [sizeof];
    change (8 * Z.of_nat 1) with 8; change (8 * Z.of_nat 2) with 16;
    change (8 * Z.of_nat 4) with 32; change (8 * Z.of_nat 8) with 64;
    unfold AsInt64, AsUint64;
    rewrite ?DoubleToInt32_truncated, ?DoubleToUint32_truncated;
    rewrite ?low_bits_unsigned by lia;
    rewrite ?to_unsigned_signed by lia;
    rewrite ?to_unsigned_of_signed, ?to_unsigned_of_unsigned by lia;
    rewrite ?to_unsigned_of_signed, ?to_unsigned_of_unsigned by lia;
    try reflexivity.
  - (* Float32 *)
    rewrite to_unsigned_small by apply double_to_float_range.
    now rewrite double_to_float_value by auto.
  - (* Float64 *)
    apply (le_bytes_mod 8).
Qed.

(** C5: in a write the converted value is narrowed to the width of its type.
    A write in bounds stores, in the requested order, the [sizeof(T)] bytes of
    [narrowed_bits T x]: for the integer types up to 32 bits the double
    truncated to an integer (0 for NaN and the infinities), reduced modulo
    2^32 as [DoubleToInt32] and [DoubleToUint32] do and then to the low-order
    bits of the narrower width; for float32 the double rounded to the nearest
    single-precision value, ties to even -- a double that is a
    single-precision value is stored as that value, and a NaN, which has no
    value to round, is stored as a NaN; for float64 the double as it is; for
    the 64-bit types the low 64 bits of the BigInt in two's complement. *)
Theorem narrowing_by_element_type
    (cfg : Target) (T : ElementType) (v : JSDataView.t) (index value : Object)
    (le : bool) (method : string) (iso iso1 iso2 : Isolate) (i : Z)
    (x : Primitive) (b : JSArrayBuffer.t) :
  ToIndex index kInvalidDataViewAccessorOffset iso = (Normal i, iso1) ->
  DataViewConvertInput T value iso1 = (Normal (Prim x), iso2) ->
  array_buffers iso2 !! JSDataView.buffer v = Some b ->
  JSArrayBuffer.was_neutered b = false ->
  view_in_buffer cfg v b ->
  i + Z.of_nat (sizeof T) <= JSDataView.byte_length v ->
  (T = Float32 -> double_value (Number_value x) <> S754_nan) ->
  SetViewValue cfg T v index le value method iso
  = (Normal (Prim Undefined),
     with_backing_store iso2 (JSDataView.buffer v) b
       (write_bytes (JSArrayBuffer.backing_store b)
          (Z.to_nat (JSDataView.byte_offset v + i))
          (requested_order le (le_bytes (sizeof T) (narrowed_bits T x))))) /\
  match T with
  | BigInt64 | BigUint64 => exists z, x = BigInt z
  | _ => exists d, x = Number d
  end /\
  (forall d : double,
     DoubleToInt32 d = twos_complement 32 (low_bits 32 (truncated d)) /\
     DoubleToUint32 d = low_bits 32 (truncated d) /\
     match double_value d with
     | S754_nan | S754_infinity _ => truncated d = 0
     | _ => True
     end) /\
  (forall n : Z, - 2 ^ 53 < n < 2 ^ 53 -> truncated (int_to_double n) = n) /\
  (forall f : float,
     0 <= f < 2 ^ 32 -> float_value f <> S754_nan ->
     double_value (float_to_double f) <> S754_nan /\
     narrowed_bits Float32 (Number (float_to_double f)) = f) /\
  (forall d : double,
     double_value d = S754_nan ->
     float_value (DataViewConvertValue Float32 (Number d)) = S754_nan) /\
  narrowed_bits Float32 (Number 0x3FB999999999999A) = 0x3DCCCCCD /\
  narrowed_bits Float32 (Number 0x3FF0000010000000) = 0x3F800000 /\
  narrowed_bits Float32 (Number 0x3FF0000030000000) = 0x3F800002 /\
  narrowed_bits Float32 (Number 0x3FF0000010000001) = 0x3F800001 /\
  narrowed_bits Float32 (Number 0x47EFFFFFEFFFFFFF) = 0x7F7FFFFF /\
  narrowed_bits Float32 (Number 0x47EFFFFFF0000000) = 0x7F800000.
Proof.
  intros Hindex Hvalue Hbuffer Hattached Hview Hbounds Hnan.
  pose proof (DataViewConvertInput_kind T value x iso1 iso2 Hvalue) as Hkind.
  split; [|split; [exact Hkind|]].
  - rewrite (SetViewValue_in_bounds cfg T v index le value method iso iso1 i
               Hindex (Prim x) iso2 Hvalue b Hbuffer Hattached Hview Hbounds).
    unfold stored_bytes. rewrite union_bytes_stored.
    now rewrite le_bytes_narrowed.
  - repeat match goal with |- _ /\ _ => split end; try reflexivity.
    + intros d. split; [|split].
      * rewrite DoubleToInt32_truncated, low_bits_unsigned by lia.
        now rewrite twos_complement_signed by lia.
      * rewrite DoubleToUint32_truncated. now rewrite low_bits_unsigned by lia.
      * unfold truncated, double_truncate. now destruct (double_value d).
    + exact truncated_int_to_double.
    + intros f Hf Hvalue_f.
      pose proof (float_to_double_value f Hf Hvalue_f) as Hd.
      split; [exact Hd|]. cbn [narrowed_bits].
      rewrite <- double_to_float_value by exact Hd.
      now apply double_to_float_exact.
    + intros d Hd. cbn [DataViewConvertValue Number_value].
      now apply double_to_float_nan.
Qed.

(** [setInt8(3, 511)]: the double 511 is the integer 0x1FF, whose low-order
    byte 0xFF is stored. *)
Lemma narrowing_by_element_type_witness :
  SetViewValue x64 Int8 whole_view (Number (int_to_double 3)) false
    (Number (int_to_double 511)) "DataView.prototype.getInt8" example_isolate
  = (Normal (Prim Undefined),
     {| array_buffers :=
          [{| JSArrayBuffer.backing_store := [0; 0; 0; 255; 0; 0; 0; 0];
              JSArrayBuffer.was_neutered := false |};
           JSArrayBuffer.Neuter zeroes8] |}).
Proof.
  refine (proj1 (narrowing_by_element_type x64 Int8 whole_view
                   (Number (int_to_double 3)) (Number (int_to_double 511)) false
                   "DataView.prototype.getInt8" example_isolate example_isolate
                   example_isolate 3 (Number (int_to_double 511)) zeroes8
                   _ _ _ _ _ _ _)); concrete.
Defined.

(** ** The byte order of the target *)

Lemma size_functions_of_pointer_size (cfg cfg' : Target) :
  pointer_size cfg' = pointer_size cfg ->
  TryNumberToSize cfg' = TryNumberToSize cfg /\
  NumberToSize cfg' = NumberToSize cfg /\
  size_add cfg' = size_add cfg.
Proof.
  intros Hps.
  assert (Hbits : size_bits cfg' = size_bits cfg) by (unfold size_bits; now rewrite Hps).
  assert (Htry : TryNumberToSize cfg' = TryNumberToSize cfg).
  { unfold TryNumberToSize, kMaxSize. now rewrite Hbits. }
  split; [exact Htry|]. split.
  - unfold NumberToSize. now rewrite Htry.
  - unfold size_add. now rewrite Hbits.
Qed.

(** On every path, a read gives the same outcome on two targets that differ
    in nothing but their byte order. *)
Lemma GetViewValue_byte_order (cfg cfg' : Target) (T : ElementType) (v : JSDataView.t)
    (request_index : Object) (le : bool) (method : string) (iso : Isolate) :
  pointer_size cfg' = pointer_size cfg ->
  GetViewValue cfg' T v request_index le method iso
  = GetViewValue cfg T v request_index le method iso.
Proof.
  intros Hps.
  destruct (size_functions_of_pointer_size cfg cfg' Hps) as (Htry & Hsize & Hadd).
  unfold GetViewValue. rewrite Htry, Hsize, Hadd. unfold bind.
  destruct (ToIndex request_index kInvalidDataViewAccessorOffset iso)
    as [[i | e |] iso1]; try reflexivity.
  destruct (TryNumberToSize cfg i) as [get_index|]; [|reflexivity].
  unfold load_buffer.
  destruct (array_buffers iso1 !! JSDataView.buffer v) as [b|]; [|reflexivity].
  destruct (JSArrayBuffer.was_neutered b); [reflexivity|].
  unfold NumberToSize.
  destruct (TryNumberToSize cfg (JSDataView.byte_offset v)) as [offset|]; [|reflexivity].
  destruct (TryNumberToSize cfg (JSDataView.byte_length v)) as [len|]; [|reflexivity].
  cbv [ret].
  destruct ((size_add cfg get_index (Z.of_nat (sizeof T)) >? len)
            || (size_add cfg get_index (Z.of_nat (sizeof T)) <? get_index));
    [reflexivity|].
  destruct (TryNumberToSize cfg (JSArrayBuffer.byte_length b)) as [buffer_length|];
    [|reflexivity].
  cbv [ret DCHECK].
  destruct (buffer_length >=? size_add cfg (size_add cfg offset get_index)
                                 (Z.of_nat (sizeof T)));
    [|reflexivity].
  cbv [ret check_access DCHECK].
  destruct ((0 <=? size_add cfg offset get_index)
            && (size_add cfg offset get_index + Z.of_nat (sizeof T)
                <=? JSArrayBuffer.byte_length b)) eqn:Haccess;
    [|reflexivity].
  apply andb_true_iff in Haccess as [Hlow Hhigh].
  apply Z.leb_le in Hlow, Hhigh. unfold JSArrayBuffer.byte_length in Hhigh.
  cbv [ret]. rewrite !scratch_after_read by lia.
  unfold loaded_bytes. now rewrite !union_data_loaded.
Qed.

(** So does a write. *)
Lemma SetViewValue_byte_order (cfg cfg' : Target) (T : ElementType) (v : JSDataView.t)
    (request_index : Object) (le : bool) (value : Object) (method : string)
    (iso : Isolate) :
  pointer_size cfg' = pointer_size cfg ->
  SetViewValue cfg' T v request_index le value method iso
  = SetViewValue cfg T v request_index le value method iso.
Proof.
  intros Hps.
  destruct (size_functions_of_pointer_size cfg cfg' Hps) as (Htry & Hsize & Hadd).
  unfold SetViewValue. rewrite Htry, Hsize, Hadd. unfold bind.
  destruct (ToIndex request_index kInvalidDataViewAccessorOffset iso)
    as [[i | e |] iso1]; try reflexivity.
  destruct (DataViewConvertInput T value iso1) as [[x | e |] iso2]; try reflexivity.
  destruct (TryNumberToSize cfg i) as [get_index|]; [|reflexivity].
  unfold load_buffer.
  destruct (array_buffers iso2 !! JSDataView.buffer v) as [b|] eqn:Hbuffer;
    [|reflexivity].
  destruct (JSArrayBuffer.was_neutered b); [reflexivity|].
  unfold NumberToSize.
  destruct (TryNumberToSize cfg (JSDataView.byte_offset v)) as [offset|]; [|reflexivity].
  destruct (TryNumberToSize cfg (JSDataView.byte_length v)) as [len|]; [|reflexivity].
  cbv [ret].
  destruct ((size_add cfg get_index (Z.of_nat (sizeof T)) >? len)
            || (size_add cfg get_index (Z.of_nat (sizeof T)) <? get_index));
    [reflexivity|].
  destruct (TryNumberToSize cfg (JSArrayBuffer.byte_length b)) as [buffer_length|];
    [|reflexivity].
  cbv [ret DCHECK].
  destruct (buffer_length >=? size_add cfg (size_add cfg offset get_index)
                                 (Z.of_nat (sizeof T)));
    [|reflexivity].
  cbv [ret check_access DCHECK].
  destruct ((0 <=? size_add cfg offset get_index)
            && (size_add cfg offset get_index + Z.of_nat (sizeof T)
                <=? JSArrayBuffer.byte_length b)) eqn:Haccess;
    [|reflexivity].
  apply andb_true_iff in Haccess as [Hlow Hhigh].
  apply Z.leb_le in Hlow, Hhigh. unfold JSArrayBuffer.byte_length in Hhigh.
  cbv [ret store_backing_store]. rewrite Hbuffer.
  set (p := Z.to_nat (size_add cfg offset get_index)).
  assert (Hcopy : forall c n bytes, length bytes = n ->
            (p + n <= length (JSArrayBuffer.backing_store b))%nat ->
            (if NeedToFlipBytes c le
             then FlipBytes n (JSArrayBuffer.backing_store b) p bytes 0
             else CopyBytes n (JSArrayBuffer.backing_store b) p bytes 0)
            = stored_bytes c le (JSArrayBuffer.backing_store b) p bytes).
  { intros c n bytes <- Hn. now apply storage_after_write. }
  rewrite (Hcopy cfg' _ _ (length_union_bytes cfg' T (DataViewConvertValue T x)))
    by (subst p; lia).
  rewrite (Hcopy cfg _ _ (length_union_bytes cfg T (DataViewConvertValue T x)))
    by (subst p; lia).
  unfold stored_bytes. now rewrite !union_bytes_stored.
Qed.

(** C6: in every read and every write of every type the [sizeof(T)] bytes are
    reversed exactly when the requested order differs from the order of the
    target, and copied straight otherwise.  A read in bounds hands the union
    the bytes of the buffer, reversed iff the orders differ; a write in bounds
    stores the bytes of the union, reversed iff the orders differ.  The
    decision, [NeedToFlipBytes], is a function of the flag and of the build
    configuration; it is where the order of the target comes in, and it makes
    up for the layout of the union: on every path, whatever the arguments,
    the outcome of a read or of a write and the isolate it leaves are the same
    on two targets that differ in their byte order alone. *)
Theorem bytes_flipped_iff_order_differs
    (cfg : Target) (T : ElementType) (v : JSDataView.t) (index value : Object)
    (le : bool) (method : string) (iso iso1 iso2 : Isolate) (i : Z) (x : Object)
    (b1 b2 : JSArrayBuffer.t) :
  ToIndex index kInvalidDataViewAccessorOffset iso = (Normal i, iso1) ->
  DataViewConvertInput T value iso1 = (Normal x, iso2) ->
  array_buffers iso1 !! JSDataView.buffer v = Some b1 ->
  JSArrayBuffer.was_neutered b1 = false ->
  view_in_buffer cfg v b1 ->
  array_buffers iso2 !! JSDataView.buffer v = Some b2 ->
  JSArrayBuffer.was_neutered b2 = false ->
  view_in_buffer cfg v b2 ->
  i + Z.of_nat (sizeof T) <= JSDataView.byte_length v ->
  let orders_differ := negb (Bool.eqb le (target_little_endian cfg)) in
  let p := Z.to_nat (JSDataView.byte_offset v + i) in
  let source := read_bytes (JSArrayBuffer.backing_store b1) p (sizeof T) in
  let v_bytes := union_bytes cfg T (DataViewConvertValue T x) in
  NeedToFlipBytes cfg le = orders_differ /\
  GetViewValue cfg T v index le method iso
  = (Normal (AllocateResult T
       (union_data cfg T (if orders_differ then reverse source else source))), iso1) /\
  SetViewValue cfg T v index le value method iso
  = (Normal (Prim Undefined),
     with_backing_store iso2 (JSDataView.buffer v) b2
       (write_bytes (JSArrayBuffer.backing_store b2) p
          (if orders_differ then reverse v_bytes else v_bytes))) /\
  (forall (cfg' : Target) (T' : ElementType) (v' : JSDataView.t)
          (index' value' : Object) (le' : bool) (method' : string) (s : Isolate),
     pointer_size cfg' = pointer_size cfg ->
     GetViewValue cfg' T' v' index' le' method' s
       = GetViewValue cfg T' v' index' le' method' s /\
     SetViewValue cfg' T' v' index' le' value' method' s
       = SetViewValue cfg T' v' index' le' value' method' s).
Proof.
  intros Hindex Hvalue Hb1 Ha1 Hv1 Hb2 Ha2 Hv2 Hbounds orders_differ p source v_bytes.
  assert (Hflip : NeedToFlipBytes cfg le = orders_differ).
  { subst orders_differ. unfold NeedToFlipBytes.
    destruct (target_little_endian cfg), le; reflexivity. }
  split; [exact Hflip|]. split; [|split].
  - rewrite (GetViewValue_in_bounds cfg T v index le method iso iso1 i
               Hindex b1 Hb1 Ha1 Hv1 Hbounds).
    unfold loaded_bytes. rewrite Hflip. reflexivity.
  - rewrite (SetViewValue_in_bounds cfg T v index le value method iso iso1 i
               Hindex x iso2 Hvalue b2 Hb2 Ha2 Hv2 Hbounds).
    unfold stored_bytes. rewrite Hflip. reflexivity.
  - intros cfg' T' v' index' value' le' method' s Hps. split.
    + now apply GetViewValue_byte_order.
    + now apply SetViewValue_byte_order.
Qed.

(** A big-endian read of the bytes 3, 4 on a little-endian target: the orders
    differ, the union is handed 4, 3, and the result is 0x0304. *)
Lemma bytes_flipped_iff_order_differs_witness :
  NeedToFlipBytes x64 false = true /\
  GetViewValue x64 Uint16 whole_view (Number (int_to_double 2)) false
    "DataView.prototype.getUint16" counting_isolate
  = (Normal (AllocateResult Uint16 (union_data x64 Uint16 (reverse [3; 4]))),
     counting_isolate) /\
  AllocateResult Uint16 (union_data x64 Uint16 (reverse [3; 4]))
  = Prim (Number (int_to_double 0x0304)).
Proof.
  split; [reflexivity|]. split; [|reflexivity].
  refine (proj1 (proj2
            (bytes_flipped_iff_order_differs x64 Uint16 whole_view
               (Number (int_to_double 2)) (Number (int_to_double 0)) false
               "DataView.prototype.getUint16" counting_isolate counting_isolate
               counting_isolate 2 (Number (int_to_double 0)) counting8 counting8
               _ _ _ _ _ _ _ _ _))); concrete.
Defined.

(** ** A buffer detached while a view of it is constructed *)

(** X17: the length of a new view is checked against the byte length read
    before the length argument is converted.  When the conversion of the
    length detaches the buffer, construction still returns the view of the
    requested length, over a buffer whose byte length is by then 0.  A get or
    a set through that view whose index conversion -- and, for a set, value
    conversion -- completes with an index that fits [size_t], the buffer
    still detached, raises the TypeError of the detachment check. *)
Theorem length_checked_before_buffer_detached
    (cfg : Target) (T : ElementType) (address : nat) (b b1 b2 : JSArrayBuffer.t)
    (o n i : Z) (index value little_endian x : Object) (iso iso1 iso2 : Isolate) :
  array_buffers iso !! address = Some b ->
  0 <= o -> 0 <= n -> o + n <= JSArrayBuffer.byte_length b ->
  JSArrayBuffer.byte_length b <= kMaxSafeInteger ->
  ToIndex index kInvalidDataViewAccessorOffset (snd (Detach address iso))
    = (Normal i, iso1) ->
  i <= kMaxSize cfg ->
  DataViewConvertInput T value iso1 = (Normal x, iso2) ->
  array_buffers iso1 !! address = Some b1 ->
  JSArrayBuffer.was_neutered b1 = true ->
  array_buffers iso2 !! address = Some b2 ->
  JSArrayBuffer.was_neutered b2 = true ->
  let view := {| JSDataView.buffer := address;
                 JSDataView.byte_offset := o;
                 JSDataView.byte_length := n |} in
  let detached := snd (Detach address iso) in
  DataViewConstructor
    (Construct plain_function
       [ArrayBufferObject address; Prim (Number (int_to_double o));
        detaching_value address (Number (int_to_double n))]) iso
  = (Normal (DataViewObject view), detached) /\
  array_buffers detached !! address = Some (JSArrayBuffer.Neuter b) /\
  JSArrayBuffer.byte_length (JSArrayBuffer.Neuter b) = 0 /\
  DataViewPrototypeGet cfg T
    (Call (DataViewObject view) [index; little_endian]) detached
  = (Throw (NewTypeError kDetachedOperation
              (Some (String.append "DataView.prototype.get" (TypeName T)))), iso1) /\
  DataViewPrototypeSet cfg T
    (Call (DataViewObject view) [index; value; little_endian]) detached
  = (Throw (NewTypeError kDetachedOperation
              (Some (String.append "DataView.prototype.get" (TypeName T)))), iso2).
Proof.
  intros Hbuffer Ho Hn Hsum Hsafe Hindex Hfit Hvalue Hb1 Hd1 Hb2 Hd2 view detached.
  assert (Hint : forall k s t, 0 <= k <= kMaxSafeInteger ->
            ToIndex (Number (int_to_double k)) t s = (Normal k, s)).
  { intros k s t Hk. apply ToIndex_Number; [|exact Hk].
    apply DoubleToInteger_int_to_double. unfold kMaxSafeInteger in Hk. lia. }
  split; [|split; [|split; [|split]]].
  - apply (DataViewConstructor_valid
             (Construct plain_function
                [ArrayBufferObject address; Prim (Number (int_to_double o));
                 detaching_value address (Number (int_to_double n))])
             iso iso address b o eq_refl eq_refl
             (Hint o iso _ ltac:(lia)) Hbuffer detached n eq_refl).
    + unfold atOrUndefined, Construct, detaching_value.
      cbn [args lookup list_lookup from_option id].
      unfold ToIndex. cbn [IsUndefined]. unfold bind, ToNumber, bind, Detach, ret, lift.
      cbn [PrimitiveToNumber].
      rewrite DoubleToInteger_int_to_double by (unfold kMaxSafeInteger in *; lia).
      replace ((n <? 0) || (n >? kMaxSafeInteger)) with false; [reflexivity|].
      symmetry. apply orb_false_iff. lia.
    + exact Hsafe.
    + exact Hsum.
    + reflexivity.
  - now apply Detach_lookup.
  - reflexivity.
  - rewrite DataViewPrototypeGet_call. cbn [lookup list_lookup from_option id].
    exact (GetViewValue_detached cfg T view index _ _ detached iso1 i Hindex b1 Hb1
             Hfit Hd1).
  - rewrite DataViewPrototypeSet_call. cbn [lookup list_lookup from_option id].
    exact (SetViewValue_detached cfg T view index _ value _ detached iso1 i Hindex
             x iso2 Hvalue b2 Hb2 Hfit Hd2).
Qed.

(** [new DataView(buffer, 2, length)] over the buffer of 8 bytes, where the
    conversion of [length] detaches the buffer and answers 6; then
    [getInt32(1)] and [setInt32(1, 5)] through the view. *)
Lemma length_checked_before_buffer_detached_witness :
  let view := {| JSDataView.buffer := 0;
                 JSDataView.byte_offset := 2;
                 JSDataView.byte_length := 6 |} in
  let detached := snd (Detach 0 example_isolate) in
  DataViewConstructor
    (Construct plain_function
       [ArrayBufferObject 0; Prim (Number (int_to_double 2));
        detaching_value 0 (Number (int_to_double 6))]) example_isolate
  = (Normal (DataViewObject view), detached) /\
  array_buffers detached !! 0%nat = Some (JSArrayBuffer.Neuter zeroes8) /\
  JSArrayBuffer.byte_length (JSArrayBuffer.Neuter zeroes8) = 0 /\
  DataViewPrototypeGet x64 Int32
    (Call (DataViewObject view) [Prim (Number (int_to_double 1)); Prim Undefined]) detached
  = (Throw (NewTypeError kDetachedOperation
              (Some (String.append "DataView.prototype.get" (TypeName Int32)))), detached) /\
  DataViewPrototypeSet x64 Int32
    (Call (DataViewObject view)
       [Prim (Number (int_to_double 1)); Prim (Number (int_to_double 5)); Prim Undefined])
    detached
  = (Throw (NewTypeError kDetachedOperation
              (Some (String.append "DataView.prototype.get" (TypeName Int32)))), detached).
Proof.
  apply (length_checked_before_buffer_detached x64 Int32 0%nat zeroes8
           (JSArrayBuffer.Neuter zeroes8) (JSArrayBuffer.Neuter zeroes8) 2 6 1
           (Number (int_to_double 1)) (Number (int_to_double 5)) (Prim Undefined)
           (Number (int_to_double 5)) example_isolate
           (snd (Detach 0 example_isolate)) (snd (Detach 0 example_isolate)));
    concrete.
Defined.
